(** * JustP2P backend: a shallow embedding of [backend/server.py]

    The service is a set of request handlers over two MongoDB collections
    ([users] and [backups]).  Each handler is embedded as a function in a
    state-and-exception monad over the database; the clock and every source of
    randomness a handler consumes are explicit arguments.  Library calls whose
    algorithm is public and small (base64, uuid formatting, HOTP/TOTP) are
    modelled concretely; bcrypt, PyJWT and Fernet are interfaces with their
    documented contracts.

    The file has two parts: the embedding (run time, data model, document
    store, library models, handlers and routes; then the vocabulary of the
    statements, sample data and stand-ins for the interfaces), and the
    properties, by component: accounts, sessions, two-factor authentication,
    presence, backups; then the properties of sequences of calls, again by
    component, and what every request preserves. *)

From Stdlib Require Import ZArith NArith Lia Bool Ascii String Strings.Byte.
From Stdlib Require Import Sorting.Sorted Sorting.Permutation.
From stdpp Require Import base tactics option list strings pretty sorting.

Local Open Scope Z_scope.
Set Warnings "-register-all".
Set Default Proof Using "Type".

(* ================================================================== *)
(** * Python run time: exceptions and handler results                   *)
(* ================================================================== *)

(** What a call can raise.  [HTTPException] is fastapi's; [Error] is any
    other Python exception, with the name of its class and [str(e)].  An
    [Error] that escapes a handler is answered by the framework with a bare
    500. *)
Inductive exn : Type :=
| HTTPException (status_code : Z) (detail : string)
| Error (cls : string) (msg : string).

Inductive outcome (A : Type) : Type :=
| Return (a : A)
| Raise (e : exn).
Arguments Return {A} a.
Arguments Raise {A} e.

(** Response bodies and projected documents are Python dicts; they are
    rendered as association lists in key order. *)
Inductive json : Type :=
| JNull
| JBool (b : bool)
| JStr (s : string)
| JObj (fields : list (string * json))
| JList (items : list json).

Definition json_of_option (o : option string) : json :=
  match o with Some s => JStr s | None => JNull end.

(** [d.get(k)] on a dict rendered as an association list. *)
Fixpoint assoc_get (k : string) (fields : list (string * json)) : option json :=
  match fields with
  | [] => None
  | (k', v) :: rest => if String.eqb k k' then Some v else assoc_get k rest
  end.

Definition json_get (k : string) (j : json) : option json :=
  match j with JObj fields => assoc_get k fields | _ => None end.

(** Python truthiness of an [Optional[str]]: [None] and [""] are falsy. *)
Definition truthy (o : option string) : bool :=
  match o with
  | Some s => negb (String.eqb s "")
  | None => false
  end.

(* ================================================================== *)
(** * Data model ([class User], [class BackupMetadata])                 *)
(* ================================================================== *)

(** The documents of [users] are written only by [register], from
    [User(...).model_dump()], and changed only by [$set] on keys of the
    model, so each carries every field of the model with its type; the
    same holds for [backups] and [BackupMetadata].  Mongo's own [_id] is
    projected out of every query and is left out. *)
Definition dict : Type := list (string * string).

Module User.
Record t : Type := mk {
  id : string;
  email : string;
  username : string;
  password_hash : string;
  current_peer_id : option string;
  online_status : bool;
  totp_secret : option string;
  totp_enabled : bool;
  backup_codes : list string;
  passkey_credentials : list dict;
  created_at : string
}.

(** One setter per key that some [$set] of the service writes. *)
Definition set_current_peer_id (v : option string) (u : t) : t :=
  mk (id u) (email u) (username u) (password_hash u) v (online_status u)
     (totp_secret u) (totp_enabled u) (backup_codes u)
     (passkey_credentials u) (created_at u).
Definition set_online_status (v : bool) (u : t) : t :=
  mk (id u) (email u) (username u) (password_hash u) (current_peer_id u) v
     (totp_secret u) (totp_enabled u) (backup_codes u)
     (passkey_credentials u) (created_at u).
Definition set_totp_secret (v : option string) (u : t) : t :=
  mk (id u) (email u) (username u) (password_hash u) (current_peer_id u)
     (online_status u) v (totp_enabled u) (backup_codes u)
     (passkey_credentials u) (created_at u).
Definition set_totp_enabled (v : bool) (u : t) : t :=
  mk (id u) (email u) (username u) (password_hash u) (current_peer_id u)
     (online_status u) (totp_secret u) v (backup_codes u)
     (passkey_credentials u) (created_at u).
Definition set_backup_codes (v : list string) (u : t) : t :=
  mk (id u) (email u) (username u) (password_hash u) (current_peer_id u)
     (online_status u) (totp_secret u) (totp_enabled u) v
     (passkey_credentials u) (created_at u).
End User.

Module BackupMetadata.
Record t : Type := mk {
  id : string;
  user_id : string;
  filename : string;
  provider : string;
  encrypted_data : option string;
  cloud_file_id : option string;
  created_at : string
}.

(** The stored document, [model_dump()] with [created_at] already a
    string, in the field order of the model. *)
Definition document (b : t) : list (string * json) :=
  [ ("id", JStr (id b));
    ("user_id", JStr (user_id b));
    ("filename", JStr (filename b));
    ("provider", JStr (provider b));
    ("encrypted_data", json_of_option (encrypted_data b));
    ("cloud_file_id", json_of_option (cloud_file_id b));
    ("created_at", JStr (created_at b)) ].
End BackupMetadata.

(* ================================================================== *)
(** * The document store                                                *)
(* ================================================================== *)

(** A collection is the list of its documents in natural (insertion) order. *)
Record Database : Type := mkDB {
  users : list User.t;
  backups : list BackupMetadata.t
}.

Section Collection.
Context {A : Type}.

(** [find_one(filter)]: the first document that matches. *)
Fixpoint find_one (p : A → bool) (coll : list A) : option A :=
  match coll with
  | [] => None
  | x :: rest => if p x then Some x else find_one p rest
  end.

Definition insert_one (x : A) (coll : list A) : list A := coll ++ [x].

(** [update_one(filter, {"$set": ...})]: the first match is rewritten,
    nothing happens when there is none. *)
Fixpoint update_one (p : A → bool) (set : A → A) (coll : list A) : list A :=
  match coll with
  | [] => []
  | x :: rest => if p x then set x :: rest else x :: update_one p set rest
  end.

(** [delete_one(filter)]: the collection without its first match, and
    [deleted_count]. *)
Fixpoint delete_one (p : A → bool) (coll : list A) : list A * Z :=
  match coll with
  | [] => ([], 0)
  | x :: rest =>
      if p x then (rest, 1)
      else let '(rest', n) := delete_one p rest in (x :: rest', n)
  end.

(** [sort(key, -1)]: descending on a string key.  Insertion from the right
    keeps documents with equal keys in natural order. *)
Fixpoint insert_desc (key : A → string) (x : A) (sorted : list A) : list A :=
  match sorted with
  | [] => [x]
  | y :: rest =>
      if String.leb (key y) (key x) then x :: y :: rest
      else y :: insert_desc key x rest
  end.

Fixpoint sort_desc (key : A → string) (coll : list A) : list A :=
  match coll with
  | [] => []
  | x :: rest => insert_desc key x (sort_desc key rest)
  end.
End Collection.

(** [cursor.to_list(length)] *)
Definition to_list {A : Type} (length : nat) (cursor : list A) : list A :=
  take length cursor.

(* ================================================================== *)
(** * Handlers: state over the database, with exceptions                *)
(* ================================================================== *)

Definition Handler (A : Type) : Type := Database → outcome A * Database.

Definition ret {A : Type} (a : A) : Handler A := λ db, (Return a, db).
Definition raise {A : Type} (e : exn) : Handler A := λ db, (Raise e, db).
Definition bind {A B : Type} (m : Handler A) (k : A → Handler B) : Handler B :=
  λ db, match m db with
        | (Return a, db') => k a db'
        | (Raise e, db') => (Raise e, db')
        end.

Notation "'let*' x ':=' m 'in' k" := (bind m (λ x, k))
  (at level 10, x name, m at level 100, k at level 200).

(** An expression that may raise, evaluated inside a handler. *)
Definition lift {A : Type} (o : outcome A) : Handler A := λ db, (o, db).

Definition db_users_find_one (p : User.t → bool) : Handler (option User.t) :=
  λ db, (Return (find_one p (users db)), db).
Definition db_users_insert_one (u : User.t) : Handler unit :=
  λ db, (Return tt, mkDB (insert_one u (users db)) (backups db)).
Definition db_users_update_one (p : User.t → bool) (set : User.t → User.t)
  : Handler unit :=
  λ db, (Return tt, mkDB (update_one p set (users db)) (backups db)).

Definition db_backups_find_one (p : BackupMetadata.t → bool)
  : Handler (option BackupMetadata.t) :=
  λ db, (Return (find_one p (backups db)), db).
Definition db_backups_insert_one (b : BackupMetadata.t) : Handler unit :=
  λ db, (Return tt, mkDB (users db) (insert_one b (backups db))).
Definition db_backups_delete_one (p : BackupMetadata.t → bool) : Handler Z :=
  λ db, let '(rest, n) := delete_one p (backups db) in
        (Return n, mkDB (users db) rest).
Definition db_backups_find (p : BackupMetadata.t → bool)
  : Handler (list BackupMetadata.t) :=
  λ db, (Return (filter (λ b, p b = true) (backups db)), db).

(** [try: ... except Exception as e: ...] around an expression. *)
Definition try_except {A : Type} (body : outcome A) (handler : exn → outcome A)
  : outcome A :=
  match body with
  | Return a => Return a
  | Raise e => handler e
  end.

Definition outcome_bind {A B : Type} (o : outcome A) (k : A → outcome B)
  : outcome B :=
  match o with
  | Return a => k a
  | Raise e => Raise e
  end.

(** [str(e)] *)
Definition str_exn (e : exn) : string :=
  match e with
  | HTTPException c d => pretty c +:+ ": " +:+ d
  | Error _ msg => msg
  end.

(* ================================================================== *)
(** * [bytes], [str] and number formatting                              *)
(* ================================================================== *)

Definition bytes : Type := list byte.

(** [bytes.decode()] and [str.encode()].  A [str] is kept as its UTF-8
    bytes, so both are changes of representation. *)
Definition bytes_decode (b : bytes) : string := string_of_list_byte b.
Definition str_encode (s : string) : bytes := list_byte_of_string s.

(** The bytes of a [str] as numbers below 256. *)
Definition N_of_str (s : string) : list N := map Byte.to_N (str_encode s).

Definition byte_of_N (n : N) : byte :=
  match Byte.of_N (n mod 256)%N with
  | Some b => b
  | None => x00
  end.

(** [n.to_bytes(width, "big")] as numbers below 256. *)
Fixpoint be_bytes (width : nat) (n : N) : list N :=
  match width with
  | O => []
  | S w => be_bytes w (n / 256)%N ++ [(n mod 256)%N]
  end.

(** [int.from_bytes(l, "big")] *)
Definition be_to_N (l : list N) : N :=
  fold_left (λ acc b, (acc * 256 + b)%N) l 0%N.

Definition digit_char (n : N) : ascii :=
  if (n <? 10)%N then ascii_of_N (n + 48) else ascii_of_N (n + 87).

(** ['%0<width>x' % n] and ['%0<width>d' % n] for an [n] that fits. *)
Fixpoint fixed_width (base : N) (width : nat) (n : N) : string :=
  match width with
  | O => ""
  | S w => fixed_width base w (n / base)%N
             +:+ String (digit_char (n mod base)%N) ""
  end.

(** [str.upper()] on ASCII letters. *)
Definition upper_char (c : ascii) : ascii :=
  let n := N_of_ascii c in
  if ((97 <=? n) && (n <=? 122))%N then ascii_of_N (n - 32) else c.

Fixpoint upper (s : string) : string :=
  match s with
  | EmptyString => EmptyString
  | String c rest => String (upper_char c) (upper rest)
  end.

(* ================================================================== *)
(** * [uuid.uuid4], [datetime.isoformat]                                *)
(* ================================================================== *)

Module uuid.
Local Open Scope N_scope.

(** [UUID(bytes=os.urandom(16), version=4)]: the 128 random bits with the
    variant and version fields forced. *)
Definition uuid4 (random : N) : N :=
  let int := random mod 2 ^ 128 in
  let int := N.ldiff int (N.shiftl 0xc000 48) in
  let int := N.lor int (N.shiftl 0x8000 48) in
  let int := N.ldiff int (N.shiftl 0xf000 64) in
  N.lor int (N.shiftl 4 76).

(** [str(UUID)]: 8-4-4-4-12 lower-case hex digits. *)
Definition str (int : N) : string :=
  let hex := fixed_width 16 32 int in
  String.substring 0 8 hex +:+ "-" +:+ String.substring 8 4 hex +:+ "-"
    +:+ String.substring 12 4 hex +:+ "-" +:+ String.substring 16 4 hex
    +:+ "-" +:+ String.substring 20 12 hex.
End uuid.

(** An aware UTC [datetime], as [datetime.now(timezone.utc)] returns it. *)
Record datetime : Type := mkDatetime {
  year : N; month : N; day : N;
  hour : N; minute : N; second : N; microsecond : N
}.

(** [datetime.isoformat()] for a UTC value: the fraction is left out when
    [microsecond] is 0. *)
Definition isoformat (d : datetime) : string :=
  fixed_width 10 4 (year d) +:+ "-" +:+ fixed_width 10 2 (month d) +:+ "-"
    +:+ fixed_width 10 2 (day d) +:+ "T" +:+ fixed_width 10 2 (hour d) +:+ ":"
    +:+ fixed_width 10 2 (minute d) +:+ ":" +:+ fixed_width 10 2 (second d)
    +:+ (if (microsecond d =? 0)%N then ""
         else "." +:+ fixed_width 10 6 (microsecond d))
    +:+ "+00:00".

(* ================================================================== *)
(** * [base64.b64encode], [base64.b64decode]                            *)
(* ================================================================== *)

Module base64.
Local Open Scope N_scope.

(** [table_b2a_base64]: A-Z, a-z, 0-9, +, / *)
Definition b2a (n : N) : ascii :=
  if n <? 26 then ascii_of_N (n + 65)
  else if n <? 52 then ascii_of_N (n + 71)
  else if n <? 62 then ascii_of_N (n - 4)
  else if n =? 62 then "+"%char
  else "/"%char.

(** [table_a2b_base64]; [None] stands for the entries that are not a
    base64 digit. *)
Definition a2b (c : ascii) : option N :=
  let n := N_of_ascii c in
  if (65 <=? n) && (n <=? 90) then Some (n - 65)
  else if (97 <=? n) && (n <=? 122) then Some (n - 71)
  else if (48 <=? n) && (n <=? 57) then Some (n + 4)
  else if n =? 43 then Some 62
  else if n =? 47 then Some 63
  else None.

(** [binascii.b2a_base64(data, newline=False)] *)
Fixpoint b2a_base64 (data : bytes) : string :=
  match data with
  | [] => ""
  | [a] =>
      let a := Byte.to_N a in
      String (b2a (a / 4)) (String (b2a (a mod 4 * 16)) "==")
  | [a; b] =>
      let a := Byte.to_N a in
      let b := Byte.to_N b in
      String (b2a (a / 4)) (String (b2a (a mod 4 * 16 + b / 16))
        (String (b2a (b mod 16 * 4)) "="))
  | a :: b :: c :: rest =>
      let a := Byte.to_N a in
      let b := Byte.to_N b in
      let c := Byte.to_N c in
      String (b2a (a / 4)) (String (b2a (a mod 4 * 16 + b / 16))
        (String (b2a (b mod 16 * 4 + c / 64)) (String (b2a (c mod 64))
          (b2a_base64 rest))))
  end.

Definition b64encode (s : bytes) : bytes := str_encode (b2a_base64 s).

Definition emit (b : N) (r : outcome bytes) : outcome bytes :=
  outcome_bind r (λ l, Return (byte_of_N b :: l)).

(** The loop of [binascii.a2b_base64] with [strict_mode] off: characters
    outside the alphabet are skipped, a pad sequence that completes a
    quad ends the parse, and input that stops inside a quad is an error.
    [n_out] counts the bytes written so far. *)
Fixpoint a2b_base64 (ascii_data : string) (quad_pos leftchar pads : N)
    (n_out : N) : outcome bytes :=
  match ascii_data with
  | EmptyString =>
      if quad_pos =? 0 then Return []
      else if quad_pos =? 1 then
        Raise (Error "binascii.Error"
                 ("Invalid base64-encoded string: number of data characters ("
                    +:+ pretty (n_out / 3 * 4 + 1)
                    +:+ ") cannot be 1 more than a multiple of 4"))
      else Raise (Error "binascii.Error" "Incorrect padding")
  | String this_ch rest =>
      if Ascii.eqb this_ch "=" then
        if (2 <=? quad_pos) && (4 <=? quad_pos + (pads + 1)) then Return []
        else a2b_base64 rest quad_pos leftchar
               (if 2 <=? quad_pos then pads + 1 else pads) n_out
      else
        match a2b this_ch with
        | None => a2b_base64 rest quad_pos leftchar pads n_out
        | Some this_ch =>
            if quad_pos =? 0 then a2b_base64 rest 1 this_ch 0 n_out
            else if quad_pos =? 1 then
              emit (N.lor (N.shiftl leftchar 2) (N.shiftr this_ch 4))
                (a2b_base64 rest 2 (N.land this_ch 0x0f) 0 (n_out + 1))
            else if quad_pos =? 2 then
              emit (N.lor (N.shiftl leftchar 4) (N.shiftr this_ch 2))
                (a2b_base64 rest 3 (N.land this_ch 0x03) 0 (n_out + 1))
            else
              emit (N.lor (N.shiftl leftchar 6) this_ch)
                (a2b_base64 rest 0 0 0 (n_out + 1))
        end
  end.

Definition is_ascii (s : string) : bool :=
  forallb (λ b, (Byte.to_N b <? 128)) (list_byte_of_string s).

(** [base64.b64decode(s)] for a [str] argument, [validate=False]. *)
Definition b64decode (s : string) : outcome bytes :=
  if is_ascii s then a2b_base64 s 0 0 0 0
  else Raise (Error "ValueError"
                "string argument should contain only ASCII characters").
End base64.

(* ================================================================== *)
(** * [hashlib.sha1], [hmac], [base64.b32decode]                        *)
(* ================================================================== *)

Module sha1.
Local Open Scope N_scope.

Definition mask32 : N := 0xFFFFFFFF.
Definition add32 (a b : N) : N := N.land (a + b) mask32.
Definition rotl (n x : N) : N :=
  N.land (N.lor (N.shiftl x n) (N.shiftr x (32 - n))) mask32.
Definition not32 (x : N) : N := N.lxor x mask32.

Definition f (t : nat) (b c d : N) : N :=
  if (t <? 20)%nat then N.lor (N.land b c) (N.land (not32 b) d)
  else if (t <? 40)%nat then N.lxor (N.lxor b c) d
  else if (t <? 60)%nat then
    N.lor (N.lor (N.land b c) (N.land b d)) (N.land c d)
  else N.lxor (N.lxor b c) d.

Definition K (t : nat) : N :=
  if (t <? 20)%nat then 0x5A827999
  else if (t <? 40)%nat then 0x6ED9EBA1
  else if (t <? 60)%nat then 0x8F1BBCDC
  else 0xCA62C1D6.

(** Message padding: 0x80, zeros up to 56 mod 64, the bit length on 64
    bits. *)
Definition pad (msg : list N) : list N :=
  let len := N.of_nat (length msg) in
  let zeros := N.to_nat ((119 - len mod 64) mod 64) in
  msg ++ [0x80] ++ repeat 0 zeros ++ be_bytes 8 (len * 8).

Fixpoint words (n : nat) (block : list N) : list N :=
  match n with
  | O => []
  | S n' => be_to_N (take 4 block) :: words n' (drop 4 block)
  end.

(** The message schedule, grown from 16 to 80 words. *)
Fixpoint schedule (n : nat) (w : list N) : list N :=
  match n with
  | O => w
  | S n' =>
      let t := length w in
      let x := N.lxor (N.lxor (nth (t - 3) w 0) (nth (t - 8) w 0))
                 (N.lxor (nth (t - 14) w 0) (nth (t - 16) w 0)) in
      schedule n' (w ++ [rotl 1 x])
  end.

Definition state : Type := N * N * N * N * N.

Definition round (s : state) (tw : nat * N) : state :=
  let '(a, b, c, d, e) := s in
  let '(t, w) := tw in
  let temp := add32 (add32 (add32 (add32 (rotl 5 a) (f t b c d)) e) (K t)) w in
  (temp, a, rotl 30 b, c, d).

Definition compress (h : state) (block : list N) : state :=
  let w := schedule 64 (words 16 block) in
  let '(a, b, c, d, e) := fold_left round (imap (λ t x, (t, x)) w) h in
  let '(h0, h1, h2, h3, h4) := h in
  (add32 h0 a, add32 h1 b, add32 h2 c, add32 h3 d, add32 h4 e).

Fixpoint blocks (n : nat) (data : list N) (h : state) : state :=
  match n with
  | O => h
  | S n' => blocks n' (drop 64 data) (compress h (take 64 data))
  end.

Definition init : state :=
  (0x67452301, 0xEFCDAB89, 0x98BADCFE, 0x10325476, 0xC3D2E1F0).

(** [hashlib.sha1(msg).digest()], on bytes as numbers. *)
Definition digest (msg : list N) : list N :=
  let data := pad msg in
  let '(h0, h1, h2, h3, h4) := blocks (length data / 64) data init in
  be_bytes 4 h0 ++ be_bytes 4 h1 ++ be_bytes 4 h2 ++ be_bytes 4 h3
    ++ be_bytes 4 h4.

Definition block_size : nat := 64.
End sha1.

Module hmac.
Local Open Scope N_scope.

(** [hmac.new(key, msg, hashlib.sha1).digest()] *)
Definition digest (key msg : list N) : list N :=
  let key := if (sha1.block_size <? length key)%nat then sha1.digest key
             else key in
  let key := key ++ repeat 0 (sha1.block_size - length key) in
  let inner := sha1.digest (map (N.lxor 0x36) key ++ msg) in
  sha1.digest (map (N.lxor 0x5C) key ++ inner).
End hmac.

Module base32.
Local Open Scope N_scope.

(** [_b32rev]: A-Z are 0..25, 2-7 are 26..31. *)
Definition b32rev (c : ascii) : option N :=
  let n := N_of_ascii c in
  if (65 <=? n) && (n <=? 90) then Some (n - 65)
  else if (50 <=? n) && (n <=? 55) then Some (n - 24)
  else None.

(** [s.rstrip(b"=")] *)
Fixpoint rstrip_pad (s : list ascii) : list ascii :=
  match s with
  | [] => []
  | c :: rest =>
      match rstrip_pad rest with
      | [] => if Ascii.eqb c "=" then [] else [c]
      | rest' => c :: rest'
      end
  end.

(** [acc = (acc << 5) + b32rev[c]] over one quantum. *)
Fixpoint quantum (cs : list ascii) (acc : N) : option N :=
  match cs with
  | [] => Some acc
  | c :: rest =>
      match b32rev c with
      | Some v => quantum rest (N.shiftl acc 5 + v)
      | None => None
      end
  end.

(** The loop over full and partial quanta: the decoded bytes and the
    last [acc]. *)
Fixpoint quanta (n : nat) (s : list ascii) : option (list N * N) :=
  match n with
  | O => Some ([], 0)
  | S n' =>
      match s with
      | [] => Some ([], 0)
      | _ =>
          match quantum (take 8 s) 0 with
          | None => None
          | Some acc =>
              match drop 8 s with
              | [] => Some (be_bytes 5 acc, acc)
              | rest =>
                  match quanta n' rest with
                  | None => None
                  | Some (decoded, last) => Some (be_bytes 5 acc ++ decoded, last)
                  end
              end
          end
      end
  end.

(** [base64.b32decode(s, casefold=True)] for a [str] argument. *)
Definition b32decode (s : string) : outcome (list N) :=
  if negb (base64.is_ascii s) then
    Raise (Error "ValueError"
             "string argument should contain only ASCII characters")
  else
    let s := list_ascii_of_string s in
    if negb (length s mod 8 =? 0)%nat then
      Raise (Error "binascii.Error" "Incorrect padding")
    else
      let s := map upper_char s in
      let l := length s in
      let s := rstrip_pad s in
      let padchars := N.of_nat (l - length s) in
      match quanta (length s) s with
      | None => Raise (Error "binascii.Error" "Non-base32 digit found")
      | Some (decoded, acc) =>
          if negb (existsb (N.eqb padchars) [0; 1; 3; 4; 6]) then
            Raise (Error "binascii.Error" "Incorrect padding")
          else if negb (padchars =? 0) && negb (length decoded =? 0)%nat then
            let last := be_bytes 5 (N.shiftl acc (5 * padchars)) in
            let leftover := N.to_nat ((43 - 5 * padchars) / 8) in
            Return (take (length decoded - 5) decoded ++ take leftover last)
          else Return decoded
      end.
End base32.

(* ================================================================== *)
(** * [pyotp]                                                           *)
(* ================================================================== *)

Module pyotp.

Definition base32_chars : list ascii :=
  list_ascii_of_string "ABCDEFGHIJKLMNOPQRSTUVWXYZ234567".

(** [pyotp.random_base32()]: 32 draws of [random.choice(chars)];
    [choice i] is the index drawn at step [i]. *)
Definition random_base32 (choice : nat → N) : string :=
  string_of_list_ascii
    (map (λ i, nth (N.to_nat (choice i mod 32)%N) base32_chars "A"%char)
         (seq 0 32)).

Definition digits : nat := 6.
Definition interval : Z := 30.

(** [OTP.byte_secret]: pad to a multiple of 8 and decode. *)
Definition byte_secret (secret : string) : outcome (list N) :=
  let missing_padding := (String.length secret mod 8)%nat in
  let secret :=
    if negb (missing_padding =? 0)%nat
    then secret +:+ string_of_list_ascii (repeat "="%char (8 - missing_padding))
    else secret in
  base32.b32decode secret.

Fixpoint le_bytes (fuel : nat) (i : N) : list N :=
  match fuel with
  | O => []
  | S fuel' =>
      if (i =? 0)%N then []
      else N.land i 0xFF :: le_bytes fuel' (N.shiftr i 8)
  end.

(** [OTP.int_to_bytestring(i, padding=8)]: big endian, left-filled with
    zero bytes to 8. *)
Definition int_to_bytestring (i : N) : list N :=
  let result := rev (le_bytes (N.size_nat i) i) in
  repeat 0%N (8 - length result) ++ result.

(** [OTP.generate_otp] with the default digest (SHA-1) and 6 digits. *)
Definition generate_otp (secret : string) (input : Z) : outcome string :=
  if input <? 0 then
    Raise (Error "ValueError" "input must be positive integer")
  else
    outcome_bind (byte_secret secret) (λ key,
      let hmac_hash := hmac.digest key (int_to_bytestring (Z.to_N input)) in
      let at_ (i : N) := nth (N.to_nat i) hmac_hash 0%N in
      let offset := N.land (List.last hmac_hash 0%N) 0xF in
      let code :=
        N.lor (N.lor (N.lor
          (N.shiftl (N.land (at_ offset) 0x7F) 24)
          (N.shiftl (N.land (at_ (offset + 1)%N) 0xFF) 16))
          (N.shiftl (N.land (at_ (offset + 2)%N) 0xFF) 8))
          (N.land (at_ (offset + 3)%N) 0xFF) in
      let str_code := pretty (10000000000 + code mod 10 ^ N.of_nat digits)%N in
      Return (String.substring (String.length str_code - digits) digits
                str_code)).

(** [TOTP.timecode]: [for_time] is the clock as whole seconds since the
    epoch; [int(x / interval)] truncates. *)
Definition timecode (for_time : Z) : Z := Z.quot for_time interval.

(** [TOTP.at(for_time, counter_offset)] *)
Definition at_ (secret : string) (for_time : Z) (counter_offset : Z)
  : outcome string :=
  generate_otp secret (timecode for_time + counter_offset).

(** [utils.strings_equal].  The library compares the NFKC forms; strings
    are compared as they are here, which is the same on ASCII input. *)
Definition strings_equal (s1 s2 : string) : bool := String.eqb s1 s2.

(** [for i in range(-valid_window, valid_window + 1)] *)
Fixpoint verify_window (secret otp : string) (for_time : Z)
    (offsets : list Z) : outcome bool :=
  match offsets with
  | [] => Return false
  | i :: rest =>
      outcome_bind (at_ secret for_time i) (λ code,
        if strings_equal otp code then Return true
        else verify_window secret otp for_time rest)
  end.

(** [TOTP(secret).verify(otp, for_time, valid_window)]; [for_time] is
    [datetime.now()] when the caller leaves it out. *)
Definition verify (secret otp : string) (for_time : Z) (valid_window : Z)
  : outcome bool :=
  if negb (valid_window =? 0) then
    verify_window secret otp for_time
      (map (λ k, - valid_window + Z.of_nat k)
           (seq 0 (Z.to_nat (2 * valid_window + 1))))
  else
    outcome_bind (at_ secret for_time 0) (λ code,
      Return (strings_equal otp code)).
End pyotp.

(* ================================================================== *)
(** * External collaborators and configuration                          *)
(* ================================================================== *)

(** [bcrypt]: [gensalt()] is an input of the caller. *)
Module bcrypt.
Class Lib : Type := {
  hashpw : bytes → bytes → bytes;
  checkpw : bytes → bytes → bool
}.

(** The contract: a password checks against its own hash, and a hash is
    60 bytes long. *)
Record Laws (L : Lib) : Prop := {
  checkpw_hashpw : ∀ password salt,
    checkpw password (hashpw password salt) = true;
  hashpw_length : ∀ password salt, length (hashpw password salt) = 60%nat
}.
End bcrypt.

(** [jwt] (PyJWT).  [decode] reads the clock to validate [exp]; the clock is
    its last argument, in whole seconds since the epoch. *)
Module jwt.
(** The payload the service signs; [exp] is the integer PyJWT turns the
    [datetime] into. *)
Record claims : Type := mkClaims {
  user_id : string;
  email : string;
  exp : Z
}.

(** The classes [decode] raises.  [InvalidTokenError] stands for the base
    class and its remaining subclasses, [PyJWTError] for what is outside
    that hierarchy. *)
Inductive error : Type :=
| ExpiredSignatureError
| InvalidSignatureError
| DecodeError
| InvalidAlgorithmError
| InvalidTokenError
| PyJWTError.

Definition is_ExpiredSignatureError (e : error) : bool :=
  match e with ExpiredSignatureError => true | _ => false end.

(** [isinstance(e, jwt.InvalidTokenError)] *)
Definition is_InvalidTokenError (e : error) : bool :=
  match e with PyJWTError => false | _ => true end.

Class Lib : Type := {
  encode : claims → string → string → string;
  decode : string → string → list string → Z → error + claims
}.

(** The contract: a token decodes, under the key and algorithm it was
    signed with, to its payload before [exp], and is expired after it.
    (Releases differ on the instant [now = exp] itself.) *)
Record Laws (L : Lib) : Prop := {
  decode_valid : ∀ payload key alg now,
    now < exp payload →
    decode (encode payload key alg) key [alg] now = inr payload;
  decode_expired : ∀ payload key alg now,
    exp payload < now →
    decode (encode payload key alg) key [alg] now = inl ExpiredSignatureError
}.
End jwt.

(** [cryptography.fernet.Fernet]: [encrypt] draws an IV and reads the clock;
    both are inputs.  [decrypt] without [ttl] does not look at the clock and
    answers [None] where the library raises [InvalidToken]. *)
Module fernet.
Class Lib : Type := {
  encrypt : bytes → bytes → Z → bytes → bytes;
  decrypt : bytes → bytes → option bytes
}.

(** The contract: a token decrypts under its key to the plaintext, and a
    token is never empty (it starts with a version byte). *)
Record Laws (L : Lib) : Prop := {
  decrypt_encrypt : ∀ key iv now data,
    decrypt key (encrypt key iv now data) = Some data;
  encrypt_nonempty : ∀ key iv now data, encrypt key iv now data ≠ []
}.
End fernet.

(** [pyotp.TOTP.provisioning_uri] and the [qrcode] rendering to PNG. *)
Module qrcode.
Class Lib : Type := {
  provisioning_uri : string → string → string → string;
  png : string → bytes
}.
End qrcode.

(** The values read from the environment at start-up. *)
Class Config : Type := {
  JWT_SECRET : string;
  ENCRYPTION_KEY : string
}.

Definition JWT_ALGORITHM : string := "HS256".

(* ================================================================== *)
(** * Request models                                                    *)
(* ================================================================== *)

Module UserRegister.
Record t : Type := mk { email : string; password : string; username : string }.
End UserRegister.

Module UserLogin.
Record t : Type := mk { email : string; password : string }.
End UserLogin.

Module BackupUpload.
Record t : Type := mk { filename : string; data : string; provider : string }.
End BackupUpload.

(* ================================================================== *)
(** * Helper functions                                                  *)
(* ================================================================== *)

Section Service.
Context {cfg : Config} {Bcrypt : bcrypt.Lib} {Jwt : jwt.Lib}
        {Fernet : fernet.Lib} {Qr : qrcode.Lib}.

Definition hash_password (password : string) (salt : bytes) : string :=
  bytes_decode (bcrypt.hashpw (str_encode password) salt).

Definition verify_password (password hashed : string) : bool :=
  bcrypt.checkpw (str_encode password) (str_encode hashed).

(** [utcnow] is [datetime.utcnow()] in seconds since the epoch. *)
Definition create_access_token (user_id email : string) (utcnow : Z) : string :=
  let payload := jwt.mkClaims user_id email (utcnow + 7 * 86400) in
  jwt.encode payload JWT_SECRET JWT_ALGORITHM.

Definition decode_token (token : string) (now : Z) : outcome jwt.claims :=
  match jwt.decode token JWT_SECRET [JWT_ALGORITHM] now with
  | inr payload => Return payload
  | inl e =>
      if jwt.is_ExpiredSignatureError e then
        Raise (HTTPException 401 "Token expired")
      else if jwt.is_InvalidTokenError e then
        Raise (HTTPException 401 "Invalid token")
      else Raise (Error "jwt.PyJWTError" "")
  end.

Definition by_id (id : string) (u : User.t) : bool := String.eqb (User.id u) id.

Definition get_current_user (token : string) (now : Z) : Handler User.t :=
  let* payload := lift (decode_token token now) in
  let* user := db_users_find_one (by_id (jwt.user_id payload)) in
  match user with
  | None => raise (HTTPException 401 "User not found")
  | Some user => ret user
  end.

(** [urandom i] is the randomness of the [i]-th [uuid4()]. *)
Definition generate_backup_codes (urandom : nat → N) (count : nat) : list string :=
  map (λ i, upper (String.substring 0 8 (uuid.str (uuid.uuid4 (urandom i)))))
      (seq 0 count).

(* ---------------------------------------------------------------- *)
(** ** Auth endpoints                                                *)
(* ---------------------------------------------------------------- *)

(** [User(email=..., username=..., password_hash=...)] dumped, with
    [created_at] in ISO format. *)
Definition new_user (id email username password_hash : string)
    (created_at : datetime) : User.t :=
  User.mk id email username password_hash None false None false [] []
          (isoformat created_at).

Definition register (user_data : UserRegister.t) (id_random : N)
    (created_at : datetime) (salt : bytes) (utcnow : Z) : Handler json :=
  let* existing := db_users_find_one (λ u,
      String.eqb (User.email u) (UserRegister.email user_data)
      || String.eqb (User.username u) (UserRegister.username user_data)) in
  match existing with
  | Some _ => raise (HTTPException 400 "Email or username already exists")
  | None =>
      let user := new_user (uuid.str (uuid.uuid4 id_random))
                    (UserRegister.email user_data)
                    (UserRegister.username user_data)
                    (hash_password (UserRegister.password user_data) salt)
                    created_at in
      let* _ := db_users_insert_one user in
      let token := create_access_token (User.id user) (User.email user) utcnow in
      ret (JObj [ ("access_token", JStr token);
                  ("token_type", JStr "bearer");
                  ("user", JObj [ ("id", JStr (User.id user));
                                  ("email", JStr (User.email user));
                                  ("username", JStr (User.username user));
                                  ("totp_enabled", JBool (User.totp_enabled user)) ]) ])
  end.

Definition login (credentials : UserLogin.t) (utcnow : Z) : Handler json :=
  let* user := db_users_find_one (λ u,
      String.eqb (User.email u) (UserLogin.email credentials)) in
  match user with
  | None => raise (HTTPException 401 "Invalid credentials")
  | Some user =>
      if negb (verify_password (UserLogin.password credentials)
                 (User.password_hash user)) then
        raise (HTTPException 401 "Invalid credentials")
      else
        let token := create_access_token (User.id user) (User.email user) utcnow in
        ret (JObj [ ("access_token", JStr token);
                    ("token_type", JStr "bearer");
                    ("user", JObj [ ("id", JStr (User.id user));
                                    ("email", JStr (User.email user));
                                    ("username", JStr (User.username user));
                                    ("totp_enabled", JBool (User.totp_enabled user));
                                    ("current_peer_id",
                                     json_of_option (User.current_peer_id user)) ]) ])
  end.

Definition get_me (current_user : User.t) : Handler json :=
  ret (JObj [ ("id", JStr (User.id current_user));
              ("email", JStr (User.email current_user));
              ("username", JStr (User.username current_user));
              ("totp_enabled", JBool (User.totp_enabled current_user));
              ("current_peer_id",
               json_of_option (User.current_peer_id current_user));
              ("online_status", JBool (User.online_status current_user)) ]).

(* ---------------------------------------------------------------- *)
(** ** 2FA endpoints                                                 *)
(* ---------------------------------------------------------------- *)

Definition setup_2fa (current_user : User.t) (choice : nat → N)
    (urandom : nat → N) : Handler json :=
  let secret := pyotp.random_base32 choice in
  let backup_codes := generate_backup_codes urandom 8 in
  let totp_uri :=
    qrcode.provisioning_uri secret (User.email current_user) "JustP2P" in
  let qr_code_base64 := bytes_decode (base64.b64encode (qrcode.png totp_uri)) in
  let* _ := db_users_update_one (by_id (User.id current_user))
              (λ u, User.set_backup_codes backup_codes
                      (User.set_totp_secret (Some secret) u)) in
  ret (JObj [ ("qr_code", JStr ("data:image/png;base64," +:+ qr_code_base64));
              ("secret", JStr secret);
              ("backup_codes", JList (map JStr backup_codes)) ]).

(** [now] is [datetime.now()] as read inside [totp.verify]. *)
Definition verify_2fa (code : string) (current_user : User.t) (now : Z)
  : Handler json :=
  let* user := db_users_find_one (by_id (User.id current_user)) in
  match user with
  | None =>
      raise (Error "AttributeError" "'NoneType' object has no attribute 'get'")
  | Some user =>
      if negb (truthy (User.totp_secret user)) then
        raise (HTTPException 400 "2FA not setup")
      else
        let secret := default "" (User.totp_secret user) in
        let* matched := lift (pyotp.verify secret code now 0) in
        if matched then
          let* _ := db_users_update_one (by_id (User.id current_user))
                      (User.set_totp_enabled true) in
          ret (JObj [ ("success", JBool true);
                      ("message", JStr "2FA enabled successfully") ])
        else if bool_decide (code ∈ User.backup_codes user) then
          let new_codes := filter (λ c, c ≠ code) (User.backup_codes user) in
          let* _ := db_users_update_one (by_id (User.id current_user))
                      (λ u, User.set_totp_enabled true
                              (User.set_backup_codes new_codes u)) in
          ret (JObj [ ("success", JBool true);
                      ("message", JStr "2FA verified with backup code") ])
        else raise (HTTPException 400 "Invalid code")
  end.

Definition disable_2fa (current_user : User.t) : Handler json :=
  let* _ := db_users_update_one (by_id (User.id current_user))
              (λ u, User.set_backup_codes []
                      (User.set_totp_secret None
                         (User.set_totp_enabled false u))) in
  ret (JObj [ ("success", JBool true); ("message", JStr "2FA disabled") ]).

(* ---------------------------------------------------------------- *)
(** ** User/peer endpoints                                           *)
(* ---------------------------------------------------------------- *)

Definition lookup_username (username : string) : Handler json :=
  let* user := db_users_find_one (λ u, String.eqb (User.username u) username) in
  match user with
  | None => raise (HTTPException 404 "User not found")
  | Some user =>
      ret (JObj [ ("username", JStr (User.username user));
                  ("peer_id", json_of_option (User.current_peer_id user));
                  ("online_status", JBool (User.online_status user)) ])
  end.

Definition update_peer_id (peer_id : string) (current_user : User.t)
  : Handler json :=
  let* _ := db_users_update_one (by_id (User.id current_user))
              (λ u, User.set_online_status true
                      (User.set_current_peer_id (Some peer_id) u)) in
  ret (JObj [ ("success", JBool true); ("peer_id", JStr peer_id) ]).

Definition set_offline (current_user : User.t) : Handler json :=
  let* _ := db_users_update_one (by_id (User.id current_user))
              (User.set_online_status false) in
  ret (JObj [ ("success", JBool true) ]).

(** The projection keeps [username] and [current_peer_id]. *)
Definition get_online_users (current_user : User.t) : Handler json :=
  λ db,
    let found :=
      filter (λ u, User.online_status u = true
                   ∧ User.id u ≠ User.id current_user) (users db) in
    (Return (JList (map (λ u, JObj [ ("username", JStr (User.username u));
                                     ("current_peer_id",
                                      json_of_option (User.current_peer_id u)) ])
                        (to_list 1000 found))), db).

(* ---------------------------------------------------------------- *)
(** ** Backup endpoints                                              *)
(* ---------------------------------------------------------------- *)

Definition fernet_key : bytes := str_encode ENCRYPTION_KEY.

Definition fernet_decrypt (token : bytes) : outcome bytes :=
  match fernet.decrypt fernet_key token with
  | Some data => Return data
  | None => Raise (Error "cryptography.fernet.InvalidToken" "")
  end.

(** [iv] and [enc_time] are what [fernet.encrypt] draws and reads;
    [id_random] and [created_at] feed the defaults of [BackupMetadata]. *)
Definition upload_backup (backup : BackupUpload.t) (current_user : User.t)
    (iv : bytes) (enc_time : Z) (id_random : N) (created_at : datetime)
  : Handler json :=
  let* encrypted_data :=
    lift (try_except
            (outcome_bind (base64.b64decode (BackupUpload.data backup))
               (λ data, Return (fernet.encrypt fernet_key iv enc_time data)))
            (λ e, Raise (HTTPException 400
                           ("Encryption failed: " +:+ str_exn e)))) in
  let metadata :=
    BackupMetadata.mk
      (uuid.str (uuid.uuid4 id_random))
      (User.id current_user)
      (BackupUpload.filename backup)
      (BackupUpload.provider backup)
      (if String.eqb (BackupUpload.provider backup) "local"
       then Some (bytes_decode (base64.b64encode encrypted_data))
       else None)
      None
      (isoformat created_at) in
  let* _ := db_backups_insert_one metadata in
  ret (JObj [ ("success", JBool true);
              ("backup_id", JStr (BackupMetadata.id metadata));
              ("message", JStr "Backup uploaded successfully") ]).

(** The projection [{"encrypted_data": 0}]. *)
Definition exclude (key : string) (doc : list (string * json))
  : list (string * json) :=
  filter (λ kv, kv.1 ≠ key) doc.

Definition list_backups (current_user : User.t) : Handler json :=
  let* found := db_backups_find (λ b,
      String.eqb (BackupMetadata.user_id b) (User.id current_user)) in
  let backups :=
    map (λ b, JObj (exclude "encrypted_data" (BackupMetadata.document b)))
        (to_list 100 (sort_desc BackupMetadata.created_at found)) in
  ret (JList backups).

Definition owned (backup_id : string) (current_user : User.t)
    (b : BackupMetadata.t) : bool :=
  String.eqb (BackupMetadata.id b) backup_id
  && String.eqb (BackupMetadata.user_id b) (User.id current_user).

Definition download_backup (backup_id : string) (current_user : User.t)
  : Handler json :=
  let* backup := db_backups_find_one (owned backup_id current_user) in
  match backup with
  | None => raise (HTTPException 404 "Backup not found")
  | Some backup =>
      if negb (String.eqb (BackupMetadata.provider backup) "local")
         || negb (truthy (BackupMetadata.encrypted_data backup)) then
        raise (HTTPException 400 "Only local backups can be downloaded via API")
      else
        lift (try_except
                (outcome_bind
                   (base64.b64decode
                      (default "" (BackupMetadata.encrypted_data backup)))
                   (λ encrypted_data,
                      outcome_bind (fernet_decrypt encrypted_data)
                        (λ decrypted_data,
                           Return (JObj
                             [ ("filename", JStr (BackupMetadata.filename backup));
                               ("data", JStr (bytes_decode
                                                (base64.b64encode decrypted_data)));
                               ("created_at",
                                JStr (BackupMetadata.created_at backup)) ]))))
                (λ e, Raise (HTTPException 500
                               ("Decryption failed: " +:+ str_exn e))))
  end.

Definition delete_backup (backup_id : string) (current_user : User.t)
  : Handler json :=
  let* deleted_count := db_backups_delete_one (owned backup_id current_user) in
  if deleted_count =? 0 then raise (HTTPException 404 "Backup not found")
  else ret (JObj [ ("success", JBool true); ("message", JStr "Backup deleted") ]).
End Service.

(* ================================================================== *)
(** * The routes                                                        *)
(* ================================================================== *)

Section Routes.
Context {cfg : Config} {Bcrypt : bcrypt.Lib} {Jwt : jwt.Lib}
        {Fernet : fernet.Lib} {Qr : qrcode.Lib}.

(** [current_user: dict = Depends(get_current_user)]: the framework
    resolves the bearer token first and calls the handler with the record
    found; when the resolution raises, the handler is not called. *)
Definition with_current_user {A : Type} (token : string) (now : Z)
    (handler : User.t → Handler A) : Handler A :=
  let* current_user := get_current_user token now in
  handler current_user.

(** A request to a route of [api_router] whose body passed validation,
    with what its handler draws and reads while it runs.  The routes behind
    the bearer scheme carry the token and the clock at its validation. *)
Inductive request : Type :=
| POST_auth_register (user_data : UserRegister.t) (id_random : N)
    (created_at : datetime) (salt : bytes) (utcnow : Z)
| POST_auth_login (credentials : UserLogin.t) (utcnow : Z)
| GET_auth_me (token : string) (now : Z)
| POST_auth_2fa_setup (token : string) (now : Z) (choice urandom : nat → N)
| POST_auth_2fa_verify (token : string) (now : Z) (code : string)
    (totp_now : Z)
| POST_auth_2fa_disable (token : string) (now : Z)
| POST_users_lookup (username : string)
| POST_users_update_peer_id (token : string) (now : Z) (peer_id : string)
| POST_users_set_offline (token : string) (now : Z)
| GET_users_online (token : string) (now : Z)
| POST_backup_upload (token : string) (now : Z) (backup : BackupUpload.t)
    (iv : bytes) (enc_time : Z) (id_random : N) (created_at : datetime)
| GET_backup_list (token : string) (now : Z)
| GET_backup_download (token : string) (now : Z) (backup_id : string)
| DELETE_backup (token : string) (now : Z) (backup_id : string).

Definition serve (r : request) : Handler json :=
  match r with
  | POST_auth_register user_data id_random created_at salt utcnow =>
      register user_data id_random created_at salt utcnow
  | POST_auth_login credentials utcnow => login credentials utcnow
  | GET_auth_me token now => with_current_user token now get_me
  | POST_auth_2fa_setup token now choice urandom =>
      with_current_user token now (λ current_user,
        setup_2fa current_user choice urandom)
  | POST_auth_2fa_verify token now code totp_now =>
      with_current_user token now (λ current_user,
        verify_2fa code current_user totp_now)
  | POST_auth_2fa_disable token now => with_current_user token now disable_2fa
  | POST_users_lookup username => lookup_username username
  | POST_users_update_peer_id token now peer_id =>
      with_current_user token now (update_peer_id peer_id)
  | POST_users_set_offline token now => with_current_user token now set_offline
  | GET_users_online token now => with_current_user token now get_online_users
  | POST_backup_upload token now backup iv enc_time id_random created_at =>
      with_current_user token now (λ current_user,
        upload_backup backup current_user iv enc_time id_random created_at)
  | GET_backup_list token now => with_current_user token now list_backups
  | GET_backup_download token now backup_id =>
      with_current_user token now (download_backup backup_id)
  | DELETE_backup token now backup_id =>
      with_current_user token now (delete_backup backup_id)
  end.

(** The store after a sequence of requests, served one after the other. *)
Definition replay (requests : list request) (db : Database) : Database :=
  fold_left (λ db r, (serve r db).2) requests db.
End Routes.

(* ================================================================== *)
(** * Vocabulary of the statements                                      *)
(* ================================================================== *)

(** The 2FA state of a user record, in the words of the design:
    [Disabled → PendingVerification → Enabled]. *)
Inductive TwoFAState : Type := Disabled | PendingVerification | Enabled.

Definition twofa_state (u : User.t) : TwoFAState :=
  if User.totp_enabled u then Enabled
  else if truthy (User.totp_secret u) then PendingVerification
  else Disabled.

(** The 2FA material of a record. *)
Definition twofa_fields (u : User.t) : option string * bool * list string :=
  (User.totp_secret u, User.totp_enabled u, User.backup_codes u).

(** Every field but [current_peer_id] and [online_status] agrees. *)
Definition same_but_presence (u u' : User.t) : Prop :=
  User.id u' = User.id u ∧ User.email u' = User.email u
  ∧ User.username u' = User.username u
  ∧ User.password_hash u' = User.password_hash u
  ∧ User.totp_secret u' = User.totp_secret u
  ∧ User.totp_enabled u' = User.totp_enabled u
  ∧ User.backup_codes u' = User.backup_codes u
  ∧ User.passkey_credentials u' = User.passkey_credentials u
  ∧ User.created_at u' = User.created_at u.

(** Every field but the three 2FA fields agrees. *)
Definition same_but_twofa (u u' : User.t) : Prop :=
  User.id u' = User.id u ∧ User.email u' = User.email u
  ∧ User.username u' = User.username u
  ∧ User.password_hash u' = User.password_hash u
  ∧ User.current_peer_id u' = User.current_peer_id u
  ∧ User.online_status u' = User.online_status u
  ∧ User.passkey_credentials u' = User.passkey_credentials u
  ∧ User.created_at u' = User.created_at u.

Definition ok_message (message : string) : json :=
  JObj [ ("success", JBool true); ("message", JStr message) ].

(** Descending order on a string key, as [sort(key, -1)] leaves it. *)
Definition descending {A : Type} (key : A → string) (a b : A) : Prop :=
  String.leb (key b) (key a) = true.

(** [a] may be listed before [b]: it is at least as new. *)
Definition newer_or_same : BackupMetadata.t → BackupMetadata.t → Prop :=
  descending BackupMetadata.created_at.

(** The listing of a backup: its document without the payload key. *)
Definition listing (b : BackupMetadata.t) : json :=
  JObj [ ("id", JStr (BackupMetadata.id b));
         ("user_id", JStr (BackupMetadata.user_id b));
         ("filename", JStr (BackupMetadata.filename b));
         ("provider", JStr (BackupMetadata.provider b));
         ("cloud_file_id", json_of_option (BackupMetadata.cloud_file_id b));
         ("created_at", JStr (BackupMetadata.created_at b)) ].

(** The caller's backups, in natural order. *)
Definition backups_of (current_user : User.t) (db : Database)
  : list BackupMetadata.t :=
  filter (λ b, String.eqb (BackupMetadata.user_id b) (User.id current_user) = true)
         (backups db).

(** Chronological order of two UTC datetimes, field by field. *)
Definition and_then (c1 c2 : comparison) : comparison :=
  match c1 with Eq => c2 | _ => c1 end.

Definition datetime_compare (a b : datetime) : comparison :=
  and_then (year a ?= year b)%N
    (and_then (month a ?= month b)%N
      (and_then (day a ?= day b)%N
        (and_then (hour a ?= hour b)%N
          (and_then (minute a ?= minute b)%N
            (and_then (second a ?= second b)%N
              (microsecond a ?= microsecond b)%N))))).

(** The ranges of the fields of a [datetime] ([MAXYEAR] is 9999). *)
Definition valid_datetime (d : datetime) : Prop :=
  (1 ≤ year d ≤ 9999 ∧ 1 ≤ month d ≤ 12 ∧ 1 ≤ day d ≤ 31
   ∧ hour d < 24 ∧ minute d < 60 ∧ second d < 60
   ∧ microsecond d < 1000000)%N.

(** What [b32decode] needs of a character to take it as it is: a base32
    digit, upper case, ASCII, not the pad. *)
Definition plain (c : ascii) : bool :=
  match base32.b32rev c with Some _ => true | None => false end
  && Ascii.eqb (upper_char c) c
  && negb (Ascii.eqb c "=")
  && (Byte.to_N (byte_of_ascii c) <? 128)%N.

(** The fields of an account that identify it and its owner. *)
Definition account_identity (u : User.t)
  : string * string * string * string * list dict * string :=
  (User.id u, User.email u, User.username u, User.password_hash u,
   User.passkey_credentials u, User.created_at u).

(** The 2FA flag and the backup codes are held only next to a secret. *)
Definition twofa_consistent (u : User.t) : Prop :=
  User.totp_enabled u = true ∨ User.backup_codes u ≠ [] →
  truthy (User.totp_secret u) = true.

(** The digits of an upper-case hexadecimal numeral. *)
Definition hex_upper (c : ascii) : bool :=
  existsb (Ascii.eqb c) (list_ascii_of_string "0123456789ABCDEF").

(** The entry of a user in the answer of [get_online_users]. *)
Definition online_entry (u : User.t) : json :=
  JObj [ ("username", JStr (User.username u));
         ("current_peer_id", json_of_option (User.current_peer_id u)) ].

(* ================================================================== *)
(** * Sample data                                                       *)
(* ================================================================== *)

(** The secret of the RFC 6238 test vectors, "12345678901234567890". *)
Definition rfc_secret : string := "GEZDGNBVGY3TQOJQGEZDGNBVGY3TQOJQ".

Definition alice : User.t :=
  User.mk "u-1" "alice@example.org" "alice" "$2b$12$stored"
          (Some "peer-7") true (Some rfc_secret) false ["0A1B2C3D"; "DEADBEEF"] []
          "2024-05-01T10:00:00+00:00".

Definition bob : User.t :=
  User.mk "u-2" "bob@example.org" "bob" "$2b$12$other"
          None false None false [] [] "2024-05-02T11:30:00.250000+00:00".

Definition notes_backup : BackupMetadata.t :=
  BackupMetadata.mk "b-1" "u-1" "notes.txt" "local" (Some "Z0FBQUFB") None
                    "2024-05-03T08:00:00+00:00".

Definition bobs_backup : BackupMetadata.t :=
  BackupMetadata.mk "b-2" "u-2" "keys.bin" "local" (Some "Z0FBQUFC") None
                    "2024-05-04T09:00:00+00:00".

Definition sample_db : Database := mkDB [alice; bob] [notes_backup; bobs_backup].

(** 101 backups of [alice], one per second. *)
Definition many_backups : list BackupMetadata.t :=
  map (λ i, BackupMetadata.mk ("b-" +:+ pretty i) "u-1" "notes.txt" "local"
              (Some "Z0FBQUFB") None
              (isoformat (mkDatetime 2024 5 3 8 (N.of_nat i / 60)
                                     (N.of_nat i mod 60) 0)))
      (seq 0 101).

Definition crowded_db : Database := mkDB [alice; bob] many_backups.

(** Draws for [setup_2fa] on the sample data. *)
Definition sample_choice (i : nat) : N := N.of_nat (7 * i + 3).
Definition sample_urandom (i : nat) : N :=
  (0x0a1b2c3d89abcdef0123456789abcdef + N.of_nat i * 2 ^ 124)%N.

(* ================================================================== *)
(** * Stand-ins for the interfaces                                 *)
(* ================================================================== *)

(** The configuration, with the default of the source for the signing
    secret. *)
#[local] Instance sample_config : Config := {
  JWT_SECRET := "your-secret-key-change-in-production";
  ENCRYPTION_KEY := "bm90LWEtcmVhbC1rZXktanVzdC1hLXNhbXBsZS0zMmI="
}.

(** [toy_fernet] frames the plaintext behind the version byte of a Fernet
    token; [toy_bcrypt] ignores the salt and fills 60 bytes with the
    reversed password; [toy_qrcode] renders the URI as its own bytes. *)
#[local] Instance toy_fernet : fernet.Lib := {
  fernet.encrypt _ _ _ data := x80 :: data;
  fernet.decrypt _ token :=
    match token with
    | x80 :: data => Some data
    | _ => None
    end
}.

#[local] Instance toy_bcrypt : bcrypt.Lib := {
  bcrypt.hashpw password _ :=
    str_encode "$2b$12$" ++ take 53 (rev password ++ repeat x2e 53);
  bcrypt.checkpw password hashed :=
    String.eqb (bytes_decode hashed)
      (bytes_decode (str_encode "$2b$12$"
                       ++ take 53 (rev password ++ repeat x2e 53)))
}.

#[local] Instance toy_qrcode : qrcode.Lib := {
  qrcode.provisioning_uri secret name issuer :=
    "otpauth://totp/" +:+ issuer +:+ ":" +:+ name +:+ "?secret=" +:+ secret
      +:+ "&issuer=" +:+ issuer;
  qrcode.png uri := str_encode uri
}.

(** [toy_jwt], for PyJWT: the token spells the key, the algorithm and the
    three claims as self-delimiting fields.  It is no signature scheme; it
    only has the behaviour the contract asks for. *)
Module toy_jwt.
Fixpoint put_str (s rest : string) : string :=
  match s with
  | EmptyString => String "." rest
  | String c s' => String "+" (String c (put_str s' rest))
  end.

Fixpoint get_str (t : string) : option (string * string) :=
  match t with
  | String c t' =>
      if Ascii.eqb c "." then Some (EmptyString, t')
      else if Ascii.eqb c "+" then
        match t' with
        | String d t'' =>
            match get_str t'' with
            | Some (s, rest) => Some (String d s, rest)
            | None => None
            end
        | EmptyString => None
        end
      else None
  | EmptyString => None
  end.

Fixpoint put_pos (p : positive) (rest : string) : string :=
  match p with
  | xH => String "." rest
  | xO p' => String "0" (put_pos p' rest)
  | xI p' => String "1" (put_pos p' rest)
  end.

Fixpoint get_pos (t : string) : option (positive * string) :=
  match t with
  | String c t' =>
      if Ascii.eqb c "." then Some (xH, t')
      else
        match get_pos t' with
        | Some (p, rest) =>
            if Ascii.eqb c "0" then Some (xO p, rest)
            else if Ascii.eqb c "1" then Some (xI p, rest)
            else None
        | None => None
        end
  | EmptyString => None
  end.

Definition put_Z (z : Z) (rest : string) : string :=
  match z with
  | Z0 => String "z" rest
  | Zpos p => String "p" (put_pos p rest)
  | Zneg p => String "n" (put_pos p rest)
  end.

Definition get_Z (t : string) : option (Z * string) :=
  match t with
  | String c t' =>
      if Ascii.eqb c "z" then Some (Z0, t')
      else
        match get_pos t' with
        | Some (p, rest) =>
            if Ascii.eqb c "p" then Some (Zpos p, rest)
            else if Ascii.eqb c "n" then Some (Zneg p, rest)
            else None
        | None => None
        end
  | EmptyString => None
  end.

Definition encode (payload : jwt.claims) (key alg : string) : string :=
  put_str key (put_str alg (put_str (jwt.user_id payload)
    (put_str (jwt.email payload) (put_Z (jwt.exp payload) "")))).

Definition decode (token key : string) (algorithms : list string) (now : Z)
  : jwt.error + jwt.claims :=
  match get_str token with
  | None => inl jwt.DecodeError
  | Some (key', t1) =>
  match get_str t1 with
  | None => inl jwt.DecodeError
  | Some (alg, t2) =>
  match get_str t2 with
  | None => inl jwt.DecodeError
  | Some (user_id, t3) =>
  match get_str t3 with
  | None => inl jwt.DecodeError
  | Some (email, t4) =>
  match get_Z t4 with
  | None => inl jwt.DecodeError
  | Some (exp, _) =>
      if negb (existsb (String.eqb alg) algorithms) then
        inl jwt.InvalidAlgorithmError
      else if negb (String.eqb key' key) then inl jwt.InvalidSignatureError
      else if exp <=? now then inl jwt.ExpiredSignatureError
      else inr (jwt.mkClaims user_id email exp)
  end end end end end.
End toy_jwt.

#[local] Instance toy_pyjwt : jwt.Lib := {
  jwt.encode := toy_jwt.encode;
  jwt.decode := toy_jwt.decode
}.

(* ================================================================== *)
(** * Properties                                                        *)
(* ================================================================== *)

(** ** Formatting: sanity checks against known values *)

Example uuid_str_ex :
  uuid.str (uuid.uuid4 0x0123456789abcdef0123456789abcdef)
  = "01234567-89ab-4def-8123-456789abcdef".
Proof. vm_compute. reflexivity. Qed.
Example iso_ex : isoformat (mkDatetime 2024 1 2 3 4 5 0) = "2024-01-02T03:04:05+00:00".
Proof. vm_compute. reflexivity. Qed.
Example iso_ex2 : isoformat (mkDatetime 2024 1 2 3 4 5 17) = "2024-01-02T03:04:05.000017+00:00".
Proof. vm_compute. reflexivity. Qed.

Example b64_hello : base64.b2a_base64 (str_encode "hello") = "aGVsbG8=".
Proof. vm_compute. reflexivity. Qed.
Example b64_hello_dec : base64.b64decode "aGVsbG8=" = Return (str_encode "hello").
Proof. vm_compute. reflexivity. Qed.
Example b64_dec2 : base64.b64decode "aGVsb G8=" = Return (str_encode "hello").
Proof. vm_compute. reflexivity. Qed.

(** The lenient decoder on input that is not canonical, with the answers of
    CPython 3.11. *)
Example b64_lenient :
  base64.b64decode "ab=!=" = Return [x69]
  ∧ base64.b64decode "ab=c=" = Return [x69; xb7]
  ∧ base64.b64decode "abc==def" = Return [x69; xb7]
  ∧ base64.b64decode "====" = Return []
  ∧ base64.b64decode "ab=c" = Raise (Error "binascii.Error" "Incorrect padding")
  ∧ base64.b64decode "abcde"
    = Raise (Error "binascii.Error"
        "Invalid base64-encoded string: number of data characters (5) cannot be 1 more than a multiple of 4").
Proof. vm_compute. repeat split. Qed.

(** ** SHA-1 and HMAC against published vectors (FIPS 180, RFC 2202) *)

Example sha1_abc :
  be_to_N (sha1.digest (N_of_str "abc"))
  = 0xa9993e364706816aba3e25717850c26c9cd0d89d%N.
Proof. vm_compute. reflexivity. Qed.

Example sha1_empty :
  be_to_N (sha1.digest [])
  = 0xda39a3ee5e6b4b0d3255bfef95601890afd80709%N.
Proof. vm_compute. reflexivity. Qed.

Example sha1_two_blocks :
  be_to_N (sha1.digest
    (N_of_str "abcdbcdecdefdefgefghfghighijhijkijkljklmklmnlmnomnopnopq"))
  = 0x84983e441c3bd26ebaae4aa1f95129e5e54670f1%N.
Proof. vm_compute. reflexivity. Qed.

Example hmac_rfc2202_2 :
  be_to_N (hmac.digest (N_of_str "Jefe") (N_of_str "what do ya want for nothing?"))
  = 0xeffcdf6ae5eb2fa2d27416d5f184df9c259a7c79%N.
Proof. vm_compute. reflexivity. Qed.

Example b32_rfc :
  base32.b32decode "GEZDGNBVGY3TQOJQGEZDGNBVGY3TQOJQ"
  = Return (N_of_str "12345678901234567890").
Proof. vm_compute. reflexivity. Qed.

Example b32_foob : base32.b32decode "MZXW6YQ=" = Return (N_of_str "foob").
Proof. vm_compute. reflexivity. Qed.
Example b32_fo : base32.b32decode "mzxq====" = Return (N_of_str "fo").
Proof. vm_compute. reflexivity. Qed.
Example b32_errors :
  base32.b32decode "MZXW6Y=="
  = Raise (Error "binascii.Error" "Incorrect padding")
  ∧ base32.b32decode "MZXW6YT"
    = Raise (Error "binascii.Error" "Incorrect padding")
  ∧ base32.b32decode "A1======"
    = Raise (Error "binascii.Error" "Non-base32 digit found").
Proof. vm_compute. repeat split. Qed.

(** ** HOTP/TOTP against RFC 4226 (appendix D) and RFC 6238 (appendix B) *)

Example hotp_rfc4226 :
  map (λ c, pyotp.generate_otp rfc_secret (Z.of_nat c)) (seq 0 10)
  = map Return
      ["755224"; "287082"; "359152"; "969429"; "338314";
       "254676"; "287922"; "162583"; "399871"; "520489"].
Proof. vm_compute. reflexivity. Qed.

Example totp_rfc6238 :
  map (λ t, pyotp.at_ rfc_secret t 0)
      [59; 1111111109; 1111111111; 1234567890; 2000000000; 20000000000]
  = map Return ["287082"; "081804"; "050471"; "005924"; "279037"; "353130"].
Proof. vm_compute. reflexivity. Qed.

(* ================================================================== *)
(** ** Strings, bytes and checks over finite ranges                *)
(* ================================================================== *)

Lemma forallb_below (n : nat) (P : N → bool) :
  forallb P (map N.of_nat (seq 0 n)) = true →
  ∀ x, (x < N.of_nat n)%N → P x = true.
Proof.
  intros Hall x Hx. rewrite forallb_forall in Hall. apply Hall.
  apply in_map_iff. exists (N.to_nat x). split; [by rewrite N2Nat.id|].
  apply in_seq. lia.
Qed.

Lemma forallb_below2 (n m : nat) (P : N → N → bool) :
  forallb (λ x, forallb (P x) (map N.of_nat (seq 0 m)))
          (map N.of_nat (seq 0 n)) = true →
  ∀ x y, (x < N.of_nat n)%N → (y < N.of_nat m)%N → P x y = true.
Proof.
  intros Hall x y Hx Hy.
  by apply (forallb_below m (P x)); [apply (forallb_below n _ Hall)|].
Qed.

Lemma byte_of_to_N (b : byte) : byte_of_N (Byte.to_N b) = b.
Proof.
  unfold byte_of_N. pose proof (Byte.to_N_bounded b).
  rewrite N.mod_small by lia. by rewrite Byte.of_to_N.
Qed.

Lemma byte_lt_256 (b : byte) : (Byte.to_N b < 256)%N.
Proof. pose proof (Byte.to_N_bounded b). lia. Qed.

Lemma ascii_compare_refl (a : ascii) : Ascii.compare a a = Eq.
Proof. apply N.compare_refl. Qed.

Lemma string_leb_trans (a b c : string) :
  String.leb a b = true → String.leb b c = true → String.leb a c = true.
Proof.
  unfold String.leb. revert b c.
  induction a as [|x a IH]; intros [|y b] [|z c]; simpl; try done.
  unfold Ascii.compare.
  destruct (N.compare_spec (N_of_ascii x) (N_of_ascii y)) as [Hxy|Hxy|Hxy];
    destruct (N.compare_spec (N_of_ascii y) (N_of_ascii z)) as [Hyz|Hyz|Hyz];
    try done.
  - rewrite Hxy, Hyz, N.compare_refl. apply IH.
  - intros _ _. rewrite Hxy. by apply N.compare_lt_iff in Hyz as ->.
  - intros _ _. rewrite <- Hyz. by apply N.compare_lt_iff in Hxy as ->.
  - intros _ _.
    assert (Hxz : (N_of_ascii x < N_of_ascii z)%N) by lia.
    by apply N.compare_lt_iff in Hxz as ->.
Qed.

Lemma append_cons (c : ascii) (s t : string) :
  String c s +:+ t = String c (s +:+ t).
Proof. reflexivity. Qed.

Lemma append_nil (t : string) : "" +:+ t = t.
Proof. reflexivity. Qed.

Lemma string_append_assoc (s1 s2 s3 : string) :
  (s1 +:+ s2) +:+ s3 = s1 +:+ (s2 +:+ s3).
Proof.
  induction s1 as [|c s1 IH]; rewrite ?append_cons, ?append_nil; congruence.
Qed.

Lemma string_compare_cons (c : ascii) (s1 s2 : string) :
  String.compare (String c s1) (String c s2) = String.compare s1 s2.
Proof. simpl. by rewrite ascii_compare_refl. Qed.

Lemma string_compare_String (c1 c2 : ascii) (s1 s2 : string) :
  String.compare (String c1 s1) (String c2 s2)
  = and_then (Ascii.compare c1 c2) (String.compare s1 s2).
Proof. simpl. by destruct (Ascii.compare c1 c2). Qed.

Lemma string_compare_refl (s : string) : String.compare s s = Eq.
Proof.
  induction s as [|c s IH]; simpl; [done|]. by rewrite ascii_compare_refl.
Qed.

Lemma length_append (s1 s2 : string) :
  String.length (s1 +:+ s2) = (String.length s1 + String.length s2)%nat.
Proof.
  induction s1 as [|c s1 IH]; rewrite ?append_cons, ?append_nil; simpl; lia.
Qed.

Lemma length_fixed_width (base : N) (width : nat) (n : N) :
  String.length (fixed_width base width n) = width.
Proof.
  revert n. induction width as [|width IH]; intros n; [done|].
  cbn [fixed_width]. rewrite length_append, IH. simpl. lia.
Qed.

Lemma length_substring_le (n m : nat) (s : string) :
  (String.length (String.substring n m s) ≤ m)%nat.
Proof.
  revert n m. induction s as [|c s IH]; intros [|n] [|m]; simpl;
    try lia; try apply IH.
  specialize (IH 0%nat m). lia.
Qed.

Lemma length_substring_prefix (m : nat) (s : string) :
  (m ≤ String.length s)%nat → String.length (String.substring 0 m s) = m.
Proof.
  revert m. induction s as [|c s IH]; intros [|m]; simpl; try lia.
  intros Hm. rewrite IH; lia.
Qed.

Lemma length_upper (s : string) : String.length (upper s) = String.length s.
Proof. induction s as [|c s IH]; simpl; congruence. Qed.

Lemma eqb_length_ne (s1 s2 : string) :
  String.length s1 ≠ String.length s2 → String.eqb s1 s2 = false.
Proof. intros Hne. apply String.eqb_neq. by intros ->. Qed.

Lemma length_string_of_list_ascii (cs : list ascii) :
  String.length (string_of_list_ascii cs) = length cs.
Proof. induction cs as [|c cs IH]; simpl; congruence. Qed.

(* ================================================================== *)
(** ** base64: decoding undoes encoding                                 *)
(* ================================================================== *)

Module base64_facts.
Import base64.
Local Open Scope N_scope.

(** Every digit of the alphabet is ASCII, is not the pad character and
    decodes to its value. *)
Lemma digit (v : N) :
  v < 64 →
  a2b (b2a v) = Some v ∧ Ascii.eqb (b2a v) "=" = false
  ∧ (Byte.to_N (byte_of_ascii (b2a v)) <? 128) = true.
Proof.
  intros Hv.
  pose proof (forallb_below 64
    (λ v, match a2b (b2a v) with Some w => w =? v | None => false end
          && negb (Ascii.eqb (b2a v) "=")
          && (Byte.to_N (byte_of_ascii (b2a v)) <? 128))
    ltac:(vm_compute; reflexivity) v Hv) as Hcheck.
  simpl in Hcheck.
  apply andb_true_iff in Hcheck as [[H1 H2]%andb_true_iff H3].
  split_and!; [|by apply negb_true_iff|done].
  destruct (a2b (b2a v)); [|done]. by apply N.eqb_eq in H1 as ->.
Qed.

(** Two digits give back the first byte, three the second, four the
    third. *)
Lemma first_byte (a b : N) :
  a < 256 → b < 256 →
  N.lor (N.shiftl (a / 4) 2) (N.shiftr (a mod 4 * 16 + b / 16) 4) = a
  ∧ N.land (a mod 4 * 16 + b / 16) 0x0f = b / 16.
Proof.
  intros Ha Hb.
  pose proof (forallb_below2 256 256 (λ a b,
    (N.lor (N.shiftl (a / 4) 2) (N.shiftr (a mod 4 * 16 + b / 16) 4) =? a)
    && (N.land (a mod 4 * 16 + b / 16) 0x0f =? b / 16))
    ltac:(vm_compute; reflexivity) a b Ha Hb) as Hcheck.
  simpl in Hcheck.
  by apply andb_true_iff in Hcheck as [?%N.eqb_eq ?%N.eqb_eq].
Qed.

Lemma second_byte (b c : N) :
  b < 256 → c < 256 →
  N.lor (N.shiftl (b / 16) 4) (N.shiftr (b mod 16 * 4 + c / 64) 2) = b
  ∧ N.land (b mod 16 * 4 + c / 64) 0x03 = c / 64.
Proof.
  intros Hb Hc.
  pose proof (forallb_below2 256 256 (λ b c,
    (N.lor (N.shiftl (b / 16) 4) (N.shiftr (b mod 16 * 4 + c / 64) 2) =? b)
    && (N.land (b mod 16 * 4 + c / 64) 0x03 =? c / 64))
    ltac:(vm_compute; reflexivity) b c Hb Hc) as Hcheck.
  simpl in Hcheck.
  by apply andb_true_iff in Hcheck as [?%N.eqb_eq ?%N.eqb_eq].
Qed.

Lemma third_byte (c : N) :
  c < 256 → N.lor (N.shiftl (c / 64) 6) (c mod 64) = c.
Proof.
  intros Hc.
  pose proof (forallb_below 256
    (λ c, N.lor (N.shiftl (c / 64) 6) (c mod 64) =? c)
    ltac:(vm_compute; reflexivity) c Hc) as Hcheck.
  by apply N.eqb_eq in Hcheck.
Qed.

(** One step of the decoder on a digit. *)
Lemma step (v : N) (rest : string) (quad_pos leftchar pads n_out : N) :
  v < 64 →
  a2b_base64 (String (b2a v) rest) quad_pos leftchar pads n_out
  = if quad_pos =? 0 then a2b_base64 rest 1 v 0 n_out
    else if quad_pos =? 1 then
      emit (N.lor (N.shiftl leftchar 2) (N.shiftr v 4))
        (a2b_base64 rest 2 (N.land v 0x0f) 0 (n_out + 1))
    else if quad_pos =? 2 then
      emit (N.lor (N.shiftl leftchar 4) (N.shiftr v 2))
        (a2b_base64 rest 3 (N.land v 0x03) 0 (n_out + 1))
    else
      emit (N.lor (N.shiftl leftchar 6) v)
        (a2b_base64 rest 0 0 0 (n_out + 1)).
Proof.
  intros (Hv & Hpad & _)%digit. cbn [a2b_base64]. by rewrite Hpad, Hv.
Qed.

Lemma list_ind3 {A : Type} (P : list A → Prop) :
  P [] → (∀ a, P [a]) → (∀ a b, P [a; b]) →
  (∀ a b c l, P l → P (a :: b :: c :: l)) →
  ∀ l, P l.
Proof.
  intros H0 H1 H2 H3.
  fix IH 1. intros [|a [|b [|c l]]]; [done..|]. apply H3, IH.
Qed.

Ltac sextets a b c :=
  pose proof (byte_lt_256 a); pose proof (byte_lt_256 b);
  pose proof (byte_lt_256 c);
  assert (Byte.to_N a / 4 < 64) by (apply N.Div0.div_lt_upper_bound; lia);
  assert (Byte.to_N a mod 4 * 16 + Byte.to_N b / 16 < 64)
    by (pose proof (N.mod_upper_bound (Byte.to_N a) 4);
        assert (Byte.to_N b / 16 < 16)
          by (apply N.Div0.div_lt_upper_bound; lia); lia);
  assert (Byte.to_N b mod 16 * 4 + Byte.to_N c / 64 < 64)
    by (pose proof (N.mod_upper_bound (Byte.to_N b) 16);
        assert (Byte.to_N c / 64 < 4)
          by (apply N.Div0.div_lt_upper_bound; lia); lia);
  assert (Byte.to_N c mod 64 < 64) by (apply N.mod_upper_bound; lia).

Lemma a2b_b2a (data : bytes) (n_out : N) :
  a2b_base64 (b2a_base64 data) 0 0 0 n_out = Return data.
Proof.
  revert n_out. induction data as [|a|a b|a b c data IH] using list_ind3;
    intros n_out.
  - reflexivity.
  - sextets a x00 x00. cbn [b2a_base64].
    replace (Byte.to_N a mod 4 * 16)
      with (Byte.to_N a mod 4 * 16 + Byte.to_N x00 / 16)
      by (change (Byte.to_N x00 / 16) with 0; lia).
    rewrite !step by done. simpl N.eqb. cbv iota.
    destruct (first_byte (Byte.to_N a) (Byte.to_N x00)) as [-> ->]; [done..|].
    simpl. by rewrite byte_of_to_N.
  - sextets a b x00. cbn [b2a_base64].
    replace (Byte.to_N b mod 16 * 4)
      with (Byte.to_N b mod 16 * 4 + Byte.to_N x00 / 64)
      by (change (Byte.to_N x00 / 64) with 0; lia).
    rewrite !step by done. simpl N.eqb. cbv iota.
    destruct (first_byte (Byte.to_N a) (Byte.to_N b)) as [-> ->]; [done..|].
    destruct (second_byte (Byte.to_N b) (Byte.to_N x00)) as [-> ->]; [done..|].
    simpl. by rewrite !byte_of_to_N.
  - sextets a b c. cbn [b2a_base64].
    rewrite !step by done. simpl N.eqb. cbv iota.
    destruct (first_byte (Byte.to_N a) (Byte.to_N b)) as [-> ->]; [done..|].
    destruct (second_byte (Byte.to_N b) (Byte.to_N c)) as [-> ->]; [done..|].
    rewrite third_byte by done. rewrite IH. simpl.
    by rewrite !byte_of_to_N.
Qed.

Lemma is_ascii_cons (v : N) (s : string) :
  v < 64 → is_ascii (String (b2a v) s) = is_ascii s.
Proof.
  intros (_ & _ & Hv)%digit. unfold is_ascii, list_byte_of_string.
  cbn [list_ascii_of_string map forallb]. by rewrite Hv.
Qed.

Lemma b2a_is_ascii (data : bytes) : is_ascii (b2a_base64 data) = true.
Proof.
  induction data as [|a|a b|a b c data IH] using list_ind3.
  - reflexivity.
  - sextets a x00 x00. cbn [b2a_base64].
    replace (Byte.to_N a mod 4 * 16)
      with (Byte.to_N a mod 4 * 16 + Byte.to_N x00 / 16)
      by (change (Byte.to_N x00 / 16) with 0; lia).
    by rewrite !is_ascii_cons.
  - sextets a b x00. cbn [b2a_base64].
    replace (Byte.to_N b mod 16 * 4)
      with (Byte.to_N b mod 16 * 4 + Byte.to_N x00 / 64)
      by (change (Byte.to_N x00 / 64) with 0; lia).
    by rewrite !is_ascii_cons.
  - sextets a b c. cbn [b2a_base64]. by rewrite !is_ascii_cons.
Qed.

(** [b64decode(b64encode(data).decode()) == data] *)
Lemma b64decode_b64encode (data : bytes) :
  b64decode (bytes_decode (b64encode data)) = Return data.
Proof.
  unfold b64encode, bytes_decode, str_encode, b64decode.
  rewrite string_of_list_byte_of_string, b2a_is_ascii. apply a2b_b2a.
Qed.

Lemma b2a_nonempty (data : bytes) : data ≠ [] → b2a_base64 data ≠ "".
Proof. by destruct data as [|a [|b [|c data]]]. Qed.
End base64_facts.

(* ================================================================== *)
(** ** base32: the secrets of [random_base32] decode               *)
(* ================================================================== *)

Module base32_facts.
Import base32.

Lemma quantum_plain (cs : list ascii) (acc : N) :
  Forall (λ c, plain c = true) cs → ∃ v, quantum cs acc = Some v.
Proof.
  intros Hcs. revert acc. induction Hcs as [|c cs Hc _ IH]; intros acc; simpl.
  - by eexists.
  - unfold plain in Hc. destruct (b32rev c); [apply IH|done].
Qed.

Lemma quanta_plain (n : nat) (cs : list ascii) :
  Forall (λ c, plain c = true) cs → ∃ r, quanta n cs = Some r.
Proof.
  revert cs. induction n as [|n IH]; intros cs Hcs; simpl; [by eexists|].
  destruct cs as [|c cs]; [by eexists|].
  destruct (quantum_plain (take 8 (c :: cs)) 0) as [acc ->].
  { by apply Forall_take. }
  destruct (drop 8 (c :: cs)) as [|c' rest] eqn:Hdrop; [by eexists|].
  destruct (IH (c' :: rest)) as [[decoded last] ->]; [|by eexists].
  rewrite <- Hdrop. by apply Forall_drop.
Qed.

Lemma rstrip_pad_plain (cs : list ascii) :
  Forall (λ c, plain c = true) cs → rstrip_pad cs = cs.
Proof.
  induction 1 as [|c cs Hc _ IH]; simpl; [done|]. rewrite IH.
  destruct cs; [|done]. unfold plain in Hc.
  apply andb_true_iff in Hc as [[_ Hpad%negb_true_iff]%andb_true_iff _].
  by rewrite Hpad.
Qed.

Lemma upper_plain (cs : list ascii) :
  Forall (λ c, plain c = true) cs → map upper_char cs = cs.
Proof.
  induction 1 as [|c cs Hc _ IH]; simpl; [done|]. rewrite IH. f_equal.
  unfold plain in Hc.
  apply andb_true_iff in Hc as [[[_ Hup]%andb_true_iff _]%andb_true_iff _].
  by apply Ascii.eqb_eq.
Qed.

Lemma is_ascii_plain (cs : list ascii) :
  Forall (λ c, plain c = true) cs →
  base64.is_ascii (string_of_list_ascii cs) = true.
Proof.
  unfold base64.is_ascii, list_byte_of_string.
  rewrite list_ascii_of_string_of_list_ascii.
  induction 1 as [|c cs Hc _ IH]; simpl; [done|]. rewrite IH.
  unfold plain in Hc. apply andb_true_iff in Hc as [_ ->]. done.
Qed.

(** A string of plain characters whose length is a multiple of 8
    decodes. *)
Lemma b32decode_plain (cs : list ascii) :
  Forall (λ c, plain c = true) cs → (length cs mod 8 = 0)%nat →
  ∃ key, b32decode (string_of_list_ascii cs) = Return key.
Proof.
  intros Hcs Hlen. unfold b32decode.
  rewrite is_ascii_plain by done. cbn [negb].
  rewrite list_ascii_of_string_of_list_ascii, Hlen. cbn [Nat.eqb negb].
  rewrite upper_plain, rstrip_pad_plain by done.
  destruct (quanta_plain (length cs) cs Hcs) as [[decoded acc] ->].
  rewrite Nat.sub_diag. by eexists.
Qed.
End base32_facts.

Lemma random_base32_plain (choice : nat → N) :
  ∃ cs, pyotp.random_base32 choice = string_of_list_ascii cs
        ∧ Forall (λ c, plain c = true) cs
        ∧ length cs = 32%nat.
Proof.
  eexists. split; [reflexivity|]. split.
  - apply Forall_forall. intros c (i & -> & _)%list_elem_of_fmap.
    assert (Hall : forallb plain pyotp.base32_chars = true)
      by (vm_compute; reflexivity).
    rewrite forallb_forall in Hall. apply Hall, nth_In.
    change (length pyotp.base32_chars) with 32%nat.
    pose proof (N.mod_lt (choice i) 32). lia.
  - by rewrite length_map, length_seq.
Qed.

Lemma byte_secret_generated (choice : nat → N) :
  ∃ key, pyotp.byte_secret (pyotp.random_base32 choice) = Return key.
Proof.
  destruct (random_base32_plain choice) as (cs & Hsecret & Hplain & Hlen).
  unfold pyotp.byte_secret.
  rewrite Hsecret, length_string_of_list_ascii, Hlen.
  change (negb (32 mod 8 =? 0)%nat) with false. cbv iota.
  apply base32_facts.b32decode_plain; [done|by rewrite Hlen].
Qed.

Lemma generate_otp_length (secret : string) (input : Z) (key : list N) :
  0 ≤ input → pyotp.byte_secret secret = Return key →
  ∃ otp, pyotp.generate_otp secret input = Return otp
         ∧ (String.length otp ≤ 6)%nat.
Proof.
  intros Hinput Hkey. unfold pyotp.generate_otp.
  rewrite (proj2 (Z.ltb_ge input 0)) by done. rewrite Hkey.
  cbn [outcome_bind]. eexists. split; [reflexivity|].
  apply length_substring_le.
Qed.

(** With a secret drawn by [setup_2fa] and a clock that is not before the
    epoch, the time-based check answers, and its answer is at most six
    characters long. *)
Lemma generated_secret_otp (choice : nat → N) (now : Z) :
  0 ≤ now →
  ∃ otp, pyotp.at_ (pyotp.random_base32 choice) now 0 = Return otp
         ∧ (String.length otp ≤ 6)%nat.
Proof.
  intros Hnow. destruct (byte_secret_generated choice) as [key Hkey].
  unfold pyotp.at_. apply (generate_otp_length _ _ key); [|done].
  unfold pyotp.timecode, pyotp.interval.
  pose proof (Z.quot_pos now 30). lia.
Qed.

(* ================================================================== *)
(** ** [created_at]: ISO strings sort as the instants they denote       *)
(* ================================================================== *)

Lemma and_then_divmod (n m : N) (c : comparison) :
  and_then (n / 10 ?= m / 10)%N (and_then (n mod 10 ?= m mod 10)%N c)
  = and_then (n ?= m)%N c.
Proof.
  pose proof (N.div_mod n 10 ltac:(done)) as Hn.
  pose proof (N.div_mod m 10 ltac:(done)) as Hm.
  pose proof (N.mod_lt n 10 ltac:(done)) as Hrn.
  pose proof (N.mod_lt m 10 ltac:(done)) as Hrm.
  revert Hn Hm Hrn Hrm.
  generalize (n / 10)%N (m / 10)%N (n mod 10)%N (m mod 10)%N.
  intros qn qm rn rm Hn Hm Hrn Hrm.
  destruct (N.compare_spec qn qm) as [Hq|Hq|Hq]; cbn [and_then].
  - destruct (N.compare_spec rn rm) as [Hr|Hr|Hr]; cbn [and_then].
    + assert (n = m) as -> by lia. by rewrite N.compare_refl.
    + by assert (n < m)%N as ->%N.compare_lt_iff by lia.
    + by assert (m < n)%N as ->%N.compare_gt_iff by lia.
  - by assert (n < m)%N as ->%N.compare_lt_iff by lia.
  - by assert (m < n)%N as ->%N.compare_gt_iff by lia.
Qed.

Lemma digit_char_compare (a b : N) :
  (a < 10)%N → (b < 10)%N →
  Ascii.compare (digit_char a) (digit_char b) = (a ?= b)%N.
Proof.
  intros Ha Hb.
  pose proof (forallb_below2 10 10
    (λ a b, match Ascii.compare (digit_char a) (digit_char b), (a ?= b)%N with
            | Eq, Eq | Lt, Lt | Gt, Gt => true
            | _, _ => false
            end)
    ltac:(vm_compute; reflexivity) a b Ha Hb) as Hcheck.
  simpl in Hcheck.
  by destruct (Ascii.compare _ _), (a ?= b)%N.
Qed.

(** Numbers printed on the same width compare as strings the way they
    compare as numbers, whatever follows. *)
Lemma fixed_width_compare (width : nat) (n m : N) (s1 s2 : string) :
  (n < 10 ^ N.of_nat width)%N → (m < 10 ^ N.of_nat width)%N →
  String.compare (fixed_width 10 width n +:+ s1) (fixed_width 10 width m +:+ s2)
  = and_then (n ?= m)%N (String.compare s1 s2).
Proof.
  revert n m s1 s2. induction width as [|width IH]; intros n m s1 s2 Hn Hm.
  - simpl in *. assert (n = 0%N) as -> by lia. by assert (m = 0%N) as -> by lia.
  - rewrite Nat2N.inj_succ, N.pow_succ_r' in Hn, Hm.
    cbn [fixed_width]. rewrite !string_append_assoc, !append_cons, !append_nil.
    rewrite IH by (apply N.Div0.div_lt_upper_bound; lia).
    rewrite string_compare_String.
    rewrite digit_char_compare by (apply N.mod_lt; lia).
    apply and_then_divmod.
Qed.

(** The optional fraction followed by the offset. *)
Lemma fraction_compare (a b : N) :
  (a < 1000000)%N → (b < 1000000)%N →
  String.compare
    ((if (a =? 0)%N then "" else String "." (fixed_width 10 6 a)) +:+ "+00:00")
    ((if (b =? 0)%N then "" else String "." (fixed_width 10 6 b)) +:+ "+00:00")
  = (a ?= b)%N.
Proof.
  intros Ha Hb.
  destruct (N.eqb_spec a 0) as [->|Ha0], (N.eqb_spec b 0) as [->|Hb0].
  - reflexivity.
  - rewrite append_nil, append_cons.
    change "+00:00" with (String "+" "00:00") at 1.
    rewrite string_compare_String.
    change (Ascii.compare "+" ".") with Lt. by destruct b.
  - rewrite append_nil, append_cons.
    change "+00:00" with (String "+" "00:00") at 2.
    rewrite string_compare_String.
    change (Ascii.compare "." "+") with Gt. by destruct a.
  - rewrite !append_cons.
    rewrite string_compare_cons, fixed_width_compare by (simpl; lia).
    rewrite string_compare_refl. by destruct (a ?= b)%N.
Qed.

(** On valid datetimes the string order of [isoformat] is the
    chronological order. *)
Lemma isoformat_compare (a b : datetime) :
  valid_datetime a → valid_datetime b →
  String.compare (isoformat a) (isoformat b) = datetime_compare a b.
Proof.
  intros (Hy & Hmo & Hd & Hh & Hmi & Hs & Hus)
         (Hy' & Hmo' & Hd' & Hh' & Hmi' & Hs' & Hus').
  unfold isoformat, datetime_compare. rewrite !append_cons, !append_nil.
  do 5 (rewrite fixed_width_compare by (simpl; lia);
        rewrite string_compare_cons; f_equal).
  rewrite fixed_width_compare by (simpl; lia). f_equal.
  by apply fraction_compare.
Qed.

(* ================================================================== *)
(** ** The document store                                               *)
(* ================================================================== *)

Section CollectionFacts.
Context {A : Type}.
Implicit Types (p : A → bool) (coll : list A).

(** A document found by [find_one] is the first match. *)
Lemma find_one_Some p coll x :
  find_one p coll = Some x ↔
  ∃ before after, coll = before ++ x :: after ∧ p x = true
                  ∧ Forall (λ y, p y = false) before.
Proof.
  split.
  - induction coll as [|y coll IH]; simpl; [done|].
    destruct (p y) eqn:Hy.
    + intros [= ->]. by exists [], coll.
    + intros (before & after & -> & Hx & Hb)%IH.
      exists (y :: before), after. split_and!; [done..|]. by constructor.
  - intros (before & after & -> & Hx & Hb).
    induction Hb as [|y before Hy _ IH]; simpl.
    + by rewrite Hx.
    + by rewrite Hy.
Qed.

Lemma find_one_None p coll :
  find_one p coll = None ↔ Forall (λ y, p y = false) coll.
Proof.
  induction coll as [|y coll IH]; simpl.
  - split; [by constructor|done].
  - destruct (p y) eqn:Hy.
    + split; [done|]. intros Hall. inversion Hall; congruence.
    + rewrite IH. split; [by constructor|]. by inversion 1.
Qed.

Lemma find_one_elem p coll x : find_one p coll = Some x → x ∈ coll ∧ p x = true.
Proof.
  intros (before & after & -> & Hx & _)%find_one_Some. split; [|done].
  apply elem_of_app. right. by left.
Qed.

Lemma update_one_split p set before x after :
  p x = true → Forall (λ y, p y = false) before →
  update_one p set (before ++ x :: after) = before ++ set x :: after.
Proof.
  intros Hx Hb. induction Hb as [|y before Hy _ IH]; simpl.
  - by rewrite Hx.
  - by rewrite Hy, IH.
Qed.

Lemma update_one_none p set coll :
  find_one p coll = None → update_one p set coll = coll.
Proof.
  rewrite find_one_None. induction 1 as [|y coll Hy _ IH]; simpl; [done|].
  by rewrite Hy, IH.
Qed.

Lemma update_one_length p set coll :
  length (update_one p set coll) = length coll.
Proof.
  induction coll as [|y coll IH]; simpl; [done|].
  destruct (p y); simpl; congruence.
Qed.

(** After an update that keeps the filter's key, the same query finds the
    rewritten document. *)
Lemma find_one_update_one p set coll x :
  (∀ y, p (set y) = p y) →
  find_one p coll = Some x →
  find_one p (update_one p set coll) = Some (set x).
Proof.
  intros Hkey (before & after & -> & Hx & Hb)%find_one_Some.
  rewrite update_one_split by done.
  apply find_one_Some. exists before, after. by rewrite Hkey.
Qed.

(** An update changes at most the documents that pass the filter, and
    those only through [set]. *)
Lemma update_one_Forall2 p set coll :
  Forall2 (λ y y', y' = y ∨ (p y = true ∧ y' = set y))
          coll (update_one p set coll).
Proof.
  induction coll as [|y coll IH]; simpl; [constructor|].
  destruct (p y) eqn:Hy.
  - constructor; [by right|]. apply Forall2_same_length_lookup_2; [done|].
    intros i a b Ha Hb. left. congruence.
  - constructor; [by left|done].
Qed.

Lemma delete_one_None p coll :
  find_one p coll = None → delete_one p coll = (coll, 0).
Proof.
  rewrite find_one_None. induction 1 as [|y coll Hy _ IH]; simpl; [done|].
  by rewrite Hy, IH.
Qed.

Lemma delete_one_split p before x after :
  p x = true → Forall (λ y, p y = false) before →
  delete_one p (before ++ x :: after) = (before ++ after, 1).
Proof.
  intros Hx Hb. induction Hb as [|y before Hy _ IH]; simpl.
  - by rewrite Hx.
  - by rewrite Hy, IH.
Qed.
End CollectionFacts.

Lemma find_one_insert_one {A : Type} (p : A → bool) (coll : list A) (x : A) :
  find_one p coll = None → p x = true →
  find_one p (insert_one x coll) = Some x.
Proof.
  intros Hnone Hx. apply find_one_Some. exists coll, [].
  split_and!; [done..|]. by apply find_one_None.
Qed.


Lemma by_id_set_online_status id v u :
  by_id id (User.set_online_status v u) = by_id id u.
Proof. done. Qed.

Lemma update_users_frame (id : string) (set : User.t → User.t)
    (R : User.t → User.t → Prop) (coll : list User.t) :
  (∀ u, R u u) → (∀ u, R u (set u)) →
  Forall2 (λ u u', (User.id u ≠ id → u' = u) ∧ R u u')
          coll (update_one (by_id id) set coll).
Proof.
  intros Hrefl Hset.
  eapply Forall2_impl; [apply update_one_Forall2|].
  intros u u' [->|[Hp ->]]; [done|]. split; [|done].
  intros Hne. unfold by_id in Hp. by apply String.eqb_eq in Hp.
Qed.

(* ================================================================== *)
(** ** The stand-ins meet the contracts                            *)
(* ================================================================== *)

Lemma toy_fernet_laws : fernet.Laws toy_fernet.
Proof. by split. Qed.

Module toy_jwt_facts.
Import toy_jwt.

Lemma get_put_str (s rest : string) : get_str (put_str s rest) = Some (s, rest).
Proof. induction s as [|c s IH]; simpl; [done|]. by rewrite IH. Qed.

Lemma get_put_pos (p : positive) (rest : string) :
  get_pos (put_pos p rest) = Some (p, rest).
Proof. induction p as [p IH|p IH|]; simpl; [by rewrite IH..|done]. Qed.

Lemma get_put_Z (z : Z) (rest : string) : get_Z (put_Z z rest) = Some (z, rest).
Proof. destruct z; simpl; [done|by rewrite get_put_pos..]. Qed.

Lemma decode_encode (payload : jwt.claims) (key alg : string) (now : Z) :
  decode (encode payload key alg) key [alg] now
  = if jwt.exp payload <=? now then inl jwt.ExpiredSignatureError
    else inr payload.
Proof.
  unfold decode, encode. rewrite !get_put_str, get_put_Z. simpl.
  rewrite !String.eqb_refl. simpl. by destruct payload.
Qed.
End toy_jwt_facts.

Lemma toy_pyjwt_laws : jwt.Laws toy_pyjwt.
Proof.
  split; intros payload key alg now Hnow; simpl;
    rewrite toy_jwt_facts.decode_encode.
  - by rewrite (proj2 (Z.leb_gt _ _)).
  - by rewrite (proj2 (Z.leb_le _ _)) by lia.
Qed.

Lemma toy_bcrypt_laws : bcrypt.Laws toy_bcrypt.
Proof.
  split; intros password salt.
  - simpl. apply String.eqb_refl.
  - cbn [bcrypt.hashpw toy_bcrypt].
    rewrite length_app, length_take, length_app, repeat_length.
    change (length (str_encode "$2b$12$")) with 7%nat. lia.
Qed.

(* ================================================================== *)
(** ** Accounts: [register]                                             *)
(* ================================================================== *)

Section Accounts.
Context {cfg : Config} {Bcrypt : bcrypt.Lib} {Jwt : jwt.Lib}
        (Hbcrypt : bcrypt.Laws Bcrypt).

Lemma verify_hash_password (password : string) (salt : bytes) :
  verify_password password (hash_password password salt) = true.
Proof using Hbcrypt.
  unfold verify_password, hash_password, bytes_decode, str_encode.
  rewrite list_byte_of_string_of_list_byte.
  apply (bcrypt.checkpw_hashpw _ Hbcrypt).
Qed.



Lemma register_fresh (user_data : UserRegister.t) (id_random : N)
    (created_at : datetime) (salt : bytes) (utcnow : Z) (db : Database) :
  (∀ u, u ∈ users db →
        User.email u ≠ UserRegister.email user_data
        ∧ User.username u ≠ UserRegister.username user_data) →
  let user := new_user (uuid.str (uuid.uuid4 id_random))
                (UserRegister.email user_data)
                (UserRegister.username user_data)
                (hash_password (UserRegister.password user_data) salt)
                created_at in
  register user_data id_random created_at salt utcnow db
  = (Return (JObj
       [ ("access_token",
          JStr (create_access_token (User.id user) (User.email user) utcnow));
         ("token_type", JStr "bearer");
         ("user", JObj [ ("id", JStr (User.id user));
                         ("email", JStr (User.email user));
                         ("username", JStr (User.username user));
                         ("totp_enabled", JBool false) ]) ]),
     mkDB (users db ++ [user]) (backups db)).
Proof.
  intros Hfresh user. unfold register, bind, db_users_find_one.
  assert (Hnone : find_one (λ u,
      String.eqb (User.email u) (UserRegister.email user_data)
      || String.eqb (User.username u) (UserRegister.username user_data))
      (users db) = None).
  { apply find_one_None, Forall_forall. intros u Hu.
    destruct (Hfresh u Hu) as [?%String.eqb_neq ?%String.eqb_neq].
    by apply orb_false_iff. }
  by rewrite Hnone.
Qed.

(** The data model's invariant: e-mail addresses and user names stay
    unique through [register]. *)
Lemma register_keeps_unique (user_data : UserRegister.t) (id_random : N)
    (created_at : datetime) (salt : bytes) (utcnow : Z) (db : Database) :
  NoDup (map User.email (users db)) →
  NoDup (map User.username (users db)) →
  NoDup (map User.email
           (users (register user_data id_random created_at salt utcnow db).2))
  ∧ NoDup (map User.username
             (users (register user_data id_random created_at salt utcnow db).2)).
Proof.
  intros Hemail Hname. unfold register, bind, db_users_find_one.
  destruct (find_one _ (users db)) as [u|] eqn:Hfind; [done|].
  cbn. unfold insert_one. rewrite !map_app. cbn.
  rewrite find_one_None, Forall_forall in Hfind.
  split; apply NoDup_app; (split_and!; [done| |apply NoDup_singleton]);
    intros x (u & Hx & Hu)%list_elem_of_fmap [Hnew|[]%elem_of_nil]%elem_of_cons;
    specialize (Hfind u Hu);
    apply orb_false_iff in Hfind as [H1%String.eqb_neq H2%String.eqb_neq];
    cbn in Hnew; congruence.
Qed.

End Accounts.


(* ================================================================== *)
(** ** Sessions: [create_access_token], [decode_token]                  *)
(* ================================================================== *)

Section Sessions.
Context {cfg : Config} {Jwt : jwt.Lib} (Hjwt : jwt.Laws Jwt).



(** What every authenticated handler may assume of its [current_user]:
    it is the record the store holds under its own id, and resolving it
    wrote nothing. *)
Lemma get_current_user_resolves (token : string) (now : Z) (db db' : Database)
    (current_user : User.t) :
  get_current_user token now db = (Return current_user, db') →
  db' = db
  ∧ find_one (by_id (User.id current_user)) (users db) = Some current_user.
Proof.
  unfold get_current_user, bind, lift, db_users_find_one.
  destruct (decode_token token now) as [payload|e]; [|done].
  destruct (find_one _ (users db)) as [u|] eqn:Hfind; [|done].
  intros [= -> <-]. split; [done|].
  destruct (find_one_elem _ _ _ Hfind) as [_ Hid].
  unfold by_id in Hid. apply String.eqb_eq in Hid. by rewrite Hid.
Qed.

(** Resolving a valid token of a stored user gives that user's record. *)
Lemma get_current_user_issued (u : User.t) (issued now : Z) (db : Database) :
  find_one (by_id (User.id u)) (users db) = Some u →
  now < issued + 604800 →
  get_current_user (create_access_token (User.id u) (User.email u) issued)
    now db
  = (Return u, db).
Proof using Hjwt.
  intros Hu Hnow. unfold get_current_user, bind, lift, decode_token,
    create_access_token, db_users_find_one.
  rewrite (jwt.decode_valid _ Hjwt) by (simpl; lia). simpl. by rewrite Hu.
Qed.
End Sessions.


(* ================================================================== *)
(** ** 2FA: [verify_2fa]                                                *)
(* ================================================================== *)

(** The handler, case by case, once the caller's record is found. *)
Lemma verify_2fa_cases (code : string) (current_user u : User.t) (now : Z)
    (db : Database) :
  find_one (by_id (User.id current_user)) (users db) = Some u →
  verify_2fa code current_user now db =
    if negb (truthy (User.totp_secret u)) then
      (Raise (HTTPException 400 "2FA not setup"), db)
    else
      match pyotp.verify (default "" (User.totp_secret u)) code now 0 with
      | Raise e => (Raise e, db)
      | Return true =>
          (Return (ok_message "2FA enabled successfully"),
           mkDB (update_one (by_id (User.id current_user))
                   (User.set_totp_enabled true) (users db))
                (backups db))
      | Return false =>
          if bool_decide (code ∈ User.backup_codes u) then
            (Return (ok_message "2FA verified with backup code"),
             mkDB (update_one (by_id (User.id current_user))
                     (λ u', User.set_totp_enabled true
                              (User.set_backup_codes
                                 (filter (λ c, c ≠ code) (User.backup_codes u)) u'))
                     (users db))
                  (backups db))
          else (Raise (HTTPException 400 "Invalid code"), db)
      end.
Proof.
  intros Hu. unfold verify_2fa, bind, db_users_find_one. rewrite Hu.
  destruct (negb (truthy (User.totp_secret u))); [done|].
  unfold lift. destruct (pyotp.verify _ _ _ _) as [[|]|e]; [done| |done].
  by destruct (bool_decide _).
Qed.

Lemma verify_2fa_no_record (code : string) (current_user : User.t) (now : Z)
    (db : Database) :
  find_one (by_id (User.id current_user)) (users db) = None →
  verify_2fa code current_user now db
  = (Raise (Error "AttributeError" "'NoneType' object has no attribute 'get'"),
     db).
Proof. intros Hu. unfold verify_2fa, bind, db_users_find_one. by rewrite Hu. Qed.




Lemma pyotp_verify_window0 (secret otp : string) (now : Z) :
  pyotp.verify secret otp now 0
  = outcome_bind (pyotp.at_ secret now 0)
      (λ code, Return (String.eqb otp code)).
Proof. reflexivity. Qed.

Lemma truthy_Some (s : string) : s ≠ "" → truthy (Some s) = true.
Proof. intros Hne. simpl. apply String.eqb_neq in Hne. by rewrite Hne. Qed.




(** With a window of one step the library would accept them; the handler
    does not ask for one. *)
Example pyotp_window_one :
  pyotp.verify rfc_secret "755224" 59 1 = Return true
  ∧ pyotp.verify rfc_secret "359152" 59 1 = Return true
  ∧ pyotp.verify rfc_secret "755224" 59 0 = Return false.
Proof. vm_compute. repeat split. Qed.

(* ================================================================== *)
(** ** 2FA: [setup_2fa] and the backup codes                            *)
(* ================================================================== *)

Lemma generate_backup_codes_length (urandom : nat → N) (count : nat) :
  length (generate_backup_codes urandom count) = count.
Proof. unfold generate_backup_codes. by rewrite length_map, length_seq. Qed.

Lemma filter_ne_absent (code : string) (l : list string) :
  code ∉ l → filter (λ c, c ≠ code) l = l.
Proof.
  induction l as [|c l IH]; [done|].
  intros [Hne Hnotin]%not_elem_of_cons.
  rewrite filter_cons_True by done. by rewrite IH.
Qed.

Lemma random_base32_nonempty (choice : nat → N) : pyotp.random_base32 choice ≠ "".
Proof. unfold pyotp.random_base32. simpl. discriminate. Qed.

Lemma backup_code_length (urandom : nat → N) (count : nat) (code : string) :
  code ∈ generate_backup_codes urandom count → String.length code = 8%nat.
Proof.
  unfold generate_backup_codes. intros (i & -> & _)%list_elem_of_fmap.
  rewrite length_upper. apply length_substring_prefix.
  unfold uuid.str. rewrite !length_append.
  rewrite length_substring_prefix by (rewrite length_fixed_width; lia). lia.
Qed.

(** The assumption of C3 always holds after [setup_2fa]: an 8-character
    backup code does not pass the time-based check. *)
Lemma backup_code_fails_totp (choice urandom : nat → N) (code : string)
    (now : Z) :
  0 ≤ now → code ∈ generate_backup_codes urandom 8 →
  pyotp.verify (pyotp.random_base32 choice) code now 0 = Return false.
Proof.
  intros Hnow Hcode%backup_code_length.
  destruct (generated_secret_otp choice now Hnow) as (otp & Hotp & Hlen).
  rewrite pyotp_verify_window0, Hotp. cbn [outcome_bind]. f_equal.
  apply eqb_length_ne. lia.
Qed.

Section Setup.
Context {Qr : qrcode.Lib}.

Lemma setup_2fa_effect (current_user u : User.t) (choice urandom : nat → N)
    (db : Database) :
  find_one (by_id (User.id current_user)) (users db) = Some u →
  let secret := pyotp.random_base32 choice in
  let codes := generate_backup_codes urandom 8 in
  ∃ qr,
    (setup_2fa current_user choice urandom db).1
    = Return (JObj [ ("qr_code", JStr qr); ("secret", JStr secret);
                     ("backup_codes", JList (map JStr codes)) ])
    ∧ find_one (by_id (User.id current_user))
        (users (setup_2fa current_user choice urandom db).2)
      = Some (User.set_backup_codes codes (User.set_totp_secret (Some secret) u))
    ∧ backups (setup_2fa current_user choice urandom db).2 = backups db.
Proof.
  intros Hu secret codes. eexists. split_and!; [done| |done].
  simpl. by erewrite find_one_update_one.
Qed.

(** C3. After [setup_2fa], each of the 8 codes it returned works once:
    provided the code does not pass the time-based check (which, by
    [backup_code_fails_totp], is so whenever the clock is not before the
    epoch), the first [verify_2fa] with it succeeds, leaves on the record
    exactly the codes other than it (7 of them when the 8 are distinct) and
    sets [totp_enabled]; a second [verify_2fa] with the same code is
    refused with 400 and changes nothing. *)
Theorem C3_backup_code_single_use (current_user u : User.t)
    (choice urandom : nat → N) (code : string) (now1 now2 : Z)
    (db : Database) :
  find_one (by_id (User.id current_user)) (users db) = Some u →
  let secret := pyotp.random_base32 choice in
  let codes := generate_backup_codes urandom 8 in
  let s0 := setup_2fa current_user choice urandom db in
  let s1 := verify_2fa code current_user now1 s0.2 in
  let s2 := verify_2fa code current_user now2 s1.2 in
  code ∈ codes →
  pyotp.verify secret code now1 0 = Return false →
  pyotp.verify secret code now2 0 = Return false →
  length codes = 8%nat
  ∧ outcome_bind s0.1 (λ r, Return (json_get "backup_codes" r))
    = Return (Some (JList (map JStr codes)))
  ∧ s1.1 = Return (ok_message "2FA verified with backup code")
  ∧ (∃ u1, find_one (by_id (User.id current_user)) (users s1.2) = Some u1
           ∧ (User.backup_codes u1 = filter (λ c, c ≠ code) codes)
           ∧ (code ∉ User.backup_codes u1)
           ∧ (∀ c, c ∈ codes → c ≠ code → c ∈ User.backup_codes u1)
           ∧ (NoDup codes → length (User.backup_codes u1) = 7%nat)
           ∧ User.totp_enabled u1 = true
           ∧ User.totp_secret u1 = Some secret)
  ∧ s2 = (Raise (HTTPException 400 "Invalid code"), s1.2).
Proof.
  intros Hu secret codes s0 s1 s2 Hin Hotp1 Hotp2.
  destruct (setup_2fa_effect current_user u choice urandom db Hu)
    as (qr & Hr0 & Hu0 & _).
  fold s0 secret codes in Hr0, Hu0.
  set (u0 := User.set_backup_codes codes
               (User.set_totp_secret (Some secret) u)) in *.
  assert (Hs1 : s1 = (Return (ok_message "2FA verified with backup code"),
                      mkDB (update_one (by_id (User.id current_user))
                              (λ u', User.set_totp_enabled true
                                       (User.set_backup_codes
                                          (filter (λ c, c ≠ code) codes) u'))
                              (users s0.2))
                           (backups s0.2))).
  { unfold s1. rewrite (verify_2fa_cases _ _ u0) by done.
    change (User.totp_secret u0) with (Some secret).
    rewrite truthy_Some by apply random_base32_nonempty. simpl.
    rewrite Hotp1. change (User.backup_codes u0) with codes.
    by rewrite bool_decide_eq_true_2. }
  set (u1 := User.set_totp_enabled true
               (User.set_backup_codes (filter (λ c, c ≠ code) codes) u0)).
  assert (Hu1 : find_one (by_id (User.id current_user)) (users s1.2) = Some u1).
  { rewrite Hs1. simpl. by erewrite find_one_update_one. }
  assert (Hgone : code ∉ filter (λ c, c ≠ code) codes).
  { rewrite list_elem_of_filter. by intros [? _]. }
  split_and!.
  - apply generate_backup_codes_length.
  - by rewrite Hr0.
  - by rewrite Hs1.
  - exists u1. split_and!; [done..| | |done|done].
    + intros c Hc Hne. by apply list_elem_of_filter.
    + intros Hnodup. change (User.backup_codes u1) with (filter (λ c, c ≠ code) codes).
      pose proof (generate_backup_codes_length urandom 8) as Hlen.
      fold codes in Hlen.
      apply list_elem_of_split in Hin as (l1 & l2 & Hsplit).
      rewrite Hsplit in Hnodup, Hlen |- *.
      apply NoDup_app in Hnodup as (_ & Hl1 & [Hl2 _]%NoDup_cons).
      rewrite filter_app, filter_cons_False by (by intros ?).
      rewrite !filter_ne_absent; [rewrite length_app in *; simpl in Hlen; lia|done|].
      intros Hc. by apply (Hl1 code); [|left].
  - unfold s2. rewrite (verify_2fa_cases _ _ u1) by done.
    change (User.totp_secret u1) with (Some secret).
    rewrite truthy_Some by apply random_base32_nonempty. simpl.
    rewrite Hotp2. change (User.backup_codes u1) with (filter (λ c, c ≠ code) codes).
    by rewrite bool_decide_eq_false_2.
Qed.
End Setup.

Example sample_setup_draws :
  pyotp.random_base32 sample_choice = "DKRY7GNU3CJQX6FMT2BIPW5ELSZAHOV4"
  ∧ generate_backup_codes sample_urandom 8
    = [ "0A1B2C3D"; "1A1B2C3D"; "2A1B2C3D"; "3A1B2C3D";
        "4A1B2C3D"; "5A1B2C3D"; "6A1B2C3D"; "7A1B2C3D" ].
Proof. vm_compute. split; reflexivity. Qed.

(** C3 on the sample data: [alice] sets 2FA up and uses the third code,
    "2A1B2C3D", twice. *)
Lemma C3_backup_code_single_use_witness :
  let s0 := setup_2fa alice sample_choice sample_urandom sample_db in
  let s1 := verify_2fa "2A1B2C3D" alice 59 s0.2 in
  let s2 := verify_2fa "2A1B2C3D" alice 3600 s1.2 in
  s1.1 = Return (ok_message "2FA verified with backup code")
  ∧ (∃ u1, find_one (by_id "u-1") (users s1.2) = Some u1
           ∧ User.backup_codes u1
             = [ "0A1B2C3D"; "1A1B2C3D"; "3A1B2C3D"; "4A1B2C3D";
                 "5A1B2C3D"; "6A1B2C3D"; "7A1B2C3D" ]
           ∧ User.totp_enabled u1 = true)
  ∧ s2 = (Raise (HTTPException 400 "Invalid code"), s1.2).
Proof.
  intros s0 s1 s2.
  destruct (C3_backup_code_single_use alice alice sample_choice sample_urandom
              "2A1B2C3D" 59 3600 sample_db eq_refl)
    as (_ & _ & Hs1 & (u1 & Hu1 & Hcodes & _ & _ & _ & Henabled & _) & Hs2).
  - apply (bool_decide_unpack _). vm_compute. reflexivity.
  - vm_compute. reflexivity.
  - vm_compute. reflexivity.
  - split_and!; [exact Hs1| |exact Hs2].
    exists u1. split_and!; [exact Hu1| |exact Henabled].
    rewrite Hcodes. vm_compute. reflexivity.
Defined.

(* ================================================================== *)
(** ** 2FA: [disable_2fa]                                               *)
(* ================================================================== *)

(** C9. [disable_2fa] returns success whatever the record holds, and the
    record the caller resolves to ends with no secret, no backup codes and
    [totp_enabled] false, that is in state [Disabled]; its other fields,
    the other records and the backups stay as they were. *)
Theorem C9_disable_clears (current_user : User.t) (db : Database) :
  let db' := (disable_2fa current_user db).2 in
  (disable_2fa current_user db).1 = Return (ok_message "2FA disabled")
  ∧ backups db' = backups db
  ∧ Forall2 (λ u u', (User.id u ≠ User.id current_user → u' = u)
                     ∧ same_but_twofa u u')
            (users db) (users db')
  ∧ ∀ u, find_one (by_id (User.id current_user)) (users db) = Some u →
      ∃ u', find_one (by_id (User.id current_user)) (users db') = Some u'
            ∧ User.totp_secret u' = None
            ∧ User.backup_codes u' = []
            ∧ User.totp_enabled u' = false
            ∧ twofa_state u' = Disabled.
Proof.
  simpl. split_and!; [done..| |].
  - apply update_users_frame; intros u; by repeat split.
  - intros u Hu. eexists. split.
    + by erewrite find_one_update_one.
    + done.
Qed.

(** C9 on the sample data: [alice] is pending verification with two backup
    codes; [disable_2fa] leaves her [Disabled]. *)
Lemma C9_disable_clears_witness :
  twofa_state alice = PendingVerification
  ∧ ∃ u', find_one (by_id "u-1") (users (disable_2fa alice sample_db).2) = Some u'
          ∧ User.totp_secret u' = None
          ∧ User.backup_codes u' = []
          ∧ User.totp_enabled u' = false
          ∧ twofa_state u' = Disabled.
Proof.
  split; [reflexivity|].
  exact (proj2 (proj2 (proj2 (C9_disable_clears alice sample_db))) alice eq_refl).
Defined.

(* ================================================================== *)
(** ** Presence: [update_peer_id], [set_offline]                        *)
(* ================================================================== *)

Lemma same_but_presence_refl u : same_but_presence u u.
Proof. by repeat split. Qed.

(** C10. [update_peer_id] writes only [current_peer_id] and [online_status]
    of the caller's record, [set_offline] only its [online_status]: in both
    results every record keeps all its other fields, every record with
    another id is the same record, and the backups are untouched. *)
Theorem C10_presence_frame (peer_id : string) (current_user : User.t)
    (db : Database) :
  let db1 := (update_peer_id peer_id current_user db).2 in
  let db2 := (set_offline current_user db).2 in
  backups db1 = backups db ∧ backups db2 = backups db
  ∧ Forall2 (λ u u', (User.id u ≠ User.id current_user → u' = u)
                     ∧ same_but_presence u u')
            (users db) (users db1)
  ∧ Forall2 (λ u u', (User.id u ≠ User.id current_user → u' = u)
                     ∧ same_but_presence u u'
                     ∧ User.current_peer_id u' = User.current_peer_id u)
            (users db) (users db2).
Proof.
  simpl. split_and!; [done..| |].
  - apply update_users_frame; [apply same_but_presence_refl|].
    intros u. by repeat split.
  - apply (update_users_frame _ _
             (λ u u', same_but_presence u u'
                      ∧ User.current_peer_id u' = User.current_peer_id u)).
    + intros u. split; [apply same_but_presence_refl|done].
    + intros u. by repeat split.
Qed.

(** C10 on the sample data: [bob] announces a peer; [alice]'s record and
    the backups are as before, and of [bob]'s record only the two presence
    fields can differ. *)
Lemma C10_presence_frame_witness :
  let db1 := (update_peer_id "peer-9" bob sample_db).2 in
  let db2 := (set_offline bob sample_db).2 in
  backups db1 = backups sample_db ∧ backups db2 = backups sample_db
  ∧ Forall2 (λ u u', (User.id u ≠ "u-2" → u' = u) ∧ same_but_presence u u')
            [alice; bob] (users db1)
  ∧ Forall2 (λ u u', (User.id u ≠ "u-2" → u' = u) ∧ same_but_presence u u'
                     ∧ User.current_peer_id u' = User.current_peer_id u)
            [alice; bob] (users db2).
Proof. exact (C10_presence_frame "peer-9" bob sample_db). Defined.

(** What the two operations do write, on the record the caller resolves to. *)
Lemma update_peer_id_effect (peer_id : string) (current_user u : User.t)
    (db : Database) :
  find_one (by_id (User.id current_user)) (users db) = Some u →
  update_peer_id peer_id current_user db
  = (Return (JObj [("success", JBool true); ("peer_id", JStr peer_id)]),
     mkDB (update_one (by_id (User.id current_user))
             (λ u, User.set_online_status true
                     (User.set_current_peer_id (Some peer_id) u)) (users db))
          (backups db))
  ∧ find_one (by_id (User.id current_user))
      (users (update_peer_id peer_id current_user db).2)
    = Some (User.set_online_status true
              (User.set_current_peer_id (Some peer_id) u)).
Proof.
  intros Hu. split; [done|]. simpl.
  by erewrite find_one_update_one.
Qed.

Lemma set_offline_effect (current_user u : User.t) (db : Database) :
  find_one (by_id (User.id current_user)) (users db) = Some u →
  find_one (by_id (User.id current_user)) (users (set_offline current_user db).2)
  = Some (User.set_online_status false u).
Proof.
  intros Hu. simpl. by erewrite find_one_update_one.
Qed.

(* ================================================================== *)
(** ** Backups: [upload_backup] then [download_backup]                  *)
(* ================================================================== *)

Section Vault.
Context {cfg : Config} {Fernet : fernet.Lib} (Hfernet : fernet.Laws Fernet).

(** C2. A payload uploaded as base64 with provider "local" comes back
    from [download_backup], asked by the same user with the returned id,
    as the base64 of the same bytes, with the file name and the creation
    timestamp of the upload.  The id drawn for the new record is taken not
    to collide with a backup the caller already has. *)
Theorem C2_upload_download_round_trip (payload : bytes) (filename : string)
    (current_user : User.t) (iv : bytes) (enc_time : Z) (id_random : N)
    (created_at : datetime) (db : Database) :
  let data := bytes_decode (base64.b64encode payload) in
  let backup_id := uuid.str (uuid.uuid4 id_random) in
  let up := upload_backup (BackupUpload.mk filename data "local")
              current_user iv enc_time id_random created_at db in
  find_one (owned backup_id current_user) (backups db) = None →
  up.1 = Return (JObj [ ("success", JBool true);
                        ("backup_id", JStr backup_id);
                        ("message", JStr "Backup uploaded successfully") ])
  ∧ download_backup backup_id current_user up.2
    = (Return (JObj [ ("filename", JStr filename);
                      ("data", JStr data);
                      ("created_at", JStr (isoformat created_at)) ]),
       up.2)
  ∧ base64.b64decode data = Return payload.
Proof using Hfernet.
  intros data backup_id up Hfresh.
  set (token := fernet.encrypt fernet_key iv enc_time payload).
  set (metadata := BackupMetadata.mk backup_id (User.id current_user) filename
                     "local" (Some (bytes_decode (base64.b64encode token)))
                     None (isoformat created_at)).
  assert (Hup : up = (Return (JObj [ ("success", JBool true);
                                     ("backup_id", JStr backup_id);
                                     ("message", JStr "Backup uploaded successfully") ]),
                      mkDB (users db) (insert_one metadata (backups db)))).
  { unfold up, upload_backup, bind, lift. cbn [BackupUpload.data].
    unfold data. by rewrite base64_facts.b64decode_b64encode. }
  rewrite Hup. split_and!; [done| |apply base64_facts.b64decode_b64encode].
  unfold download_backup, bind, db_backups_find_one. cbn [backups snd].
  rewrite (find_one_insert_one _ _ metadata); [|done|].
  2:{ unfold owned, metadata. cbn. by rewrite !String.eqb_refl. }
  cbn [BackupMetadata.provider BackupMetadata.encrypted_data metadata].
  assert (Hnonempty : truthy (Some (bytes_decode (base64.b64encode token))) = true).
  { apply truthy_Some. unfold bytes_decode, base64.b64encode, str_encode.
    rewrite string_of_list_byte_of_string.
    apply base64_facts.b2a_nonempty, (fernet.encrypt_nonempty _ Hfernet). }
  rewrite Hnonempty. cbn [String.eqb Ascii.eqb Bool.eqb negb orb default lift].
  unfold id. rewrite base64_facts.b64decode_b64encode. cbn [outcome_bind].
  unfold fernet_decrypt, token.
  by rewrite (fernet.decrypt_encrypt _ Hfernet).
Qed.
End Vault.

(** C2 on the example of the specification: "notes.txt" holding "hello",
    sent as "aGVsbG8=" by [alice], comes back as "aGVsbG8=". *)
Lemma C2_upload_download_round_trip_witness :
  let up := upload_backup (BackupUpload.mk "notes.txt" "aGVsbG8=" "local")
              alice [] 1714723200 0x0123456789abcdef0123456789abcdef
              (mkDatetime 2024 5 3 8 0 0 0) sample_db in
  up.1 = Return (JObj [ ("success", JBool true);
                        ("backup_id", JStr "01234567-89ab-4def-8123-456789abcdef");
                        ("message", JStr "Backup uploaded successfully") ])
  ∧ download_backup "01234567-89ab-4def-8123-456789abcdef" alice up.2
    = (Return (JObj [ ("filename", JStr "notes.txt");
                      ("data", JStr "aGVsbG8=");
                      ("created_at", JStr "2024-05-03T08:00:00+00:00") ]),
       up.2)
  ∧ base64.b64decode "aGVsbG8=" = Return (str_encode "hello").
Proof.
  exact (C2_upload_download_round_trip toy_fernet_laws (str_encode "hello")
           "notes.txt" alice [] 1714723200 0x0123456789abcdef0123456789abcdef
           (mkDatetime 2024 5 3 8 0 0 0) sample_db eq_refl).
Defined.

(* ================================================================== *)
(** ** Backups: [list_backups]                                          *)
(* ================================================================== *)

Section SortFacts.
Context {A : Type} (key : A → string).

Lemma insert_desc_perm (x : A) (l : list A) : insert_desc key x l ≡ₚ x :: l.
Proof.
  induction l as [|y l IH]; simpl; [done|].
  destruct (String.leb (key y) (key x)); [done|].
  rewrite IH. apply Permutation_swap.
Qed.

Lemma sort_desc_perm (l : list A) : sort_desc key l ≡ₚ l.
Proof.
  induction l as [|x l IH]; simpl; [done|].
  by rewrite insert_desc_perm, IH.
Qed.

Lemma insert_desc_sorted (x : A) (l : list A) :
  StronglySorted (descending key) l →
  StronglySorted (descending key) (insert_desc key x l).
Proof.
  induction 1 as [|y l Hsorted IH Hy]; simpl.
  - by repeat constructor.
  - destruct (String.leb (key y) (key x)) eqn:Hyx.
    + constructor; [by constructor|].
      constructor; [done|].
      eapply Forall_impl; [exact Hy|]. intros z Hz. unfold descending in *.
      by eapply string_leb_trans.
    + constructor; [done|].
      rewrite insert_desc_perm. constructor; [|done]. unfold descending.
      destruct (String.leb_total (key x) (key y)) as [|Hcontra]; [done|].
      congruence.
Qed.

Lemma sort_desc_sorted (l : list A) :
  StronglySorted (descending key) (sort_desc key l).
Proof.
  induction l as [|x l IH]; simpl; [constructor|].
  by apply insert_desc_sorted.
Qed.
End SortFacts.

Lemma exclude_payload (b : BackupMetadata.t) :
  JObj (exclude "encrypted_data" (BackupMetadata.document b)) = listing b.
Proof. reflexivity. Qed.

Lemma list_backups_result (current_user : User.t) (db : Database) :
  list_backups current_user db
  = (Return (JList (map listing
       (take 100 (sort_desc BackupMetadata.created_at
                    (backups_of current_user db))))), db).
Proof. reflexivity. Qed.

(** Two backups stamped by [upload_backup] are listed in the order of
    their instants. *)
Lemma newer_or_same_chronological (x y : BackupMetadata.t) (a b : datetime) :
  valid_datetime a → valid_datetime b →
  BackupMetadata.created_at x = isoformat a →
  BackupMetadata.created_at y = isoformat b →
  newer_or_same x y ↔ datetime_compare b a ≠ Gt.
Proof.
  intros Ha Hb Hx Hy. unfold newer_or_same, descending, String.leb.
  rewrite Hx, Hy, isoformat_compare by done.
  by destruct (datetime_compare b a).
Qed.

(** C7 (as the code has it).  [list_backups] answers with the listings of
    [listed], where [listed] holds only backups of the caller, newest first
    by [created_at], at most 100 of them: all of the caller's backups when
    there are no more than 100, and otherwise 100 of them such that none
    left out is newer than one listed.  No listing has an
    ["encrypted_data"] key, and the store is unchanged. *)
Theorem C7_list_newest_first_capped (current_user : User.t) (db : Database) :
  ∃ listed rest : list BackupMetadata.t,
    list_backups current_user db = (Return (JList (map listing listed)), db)
    ∧ listed ++ rest ≡ₚ backups_of current_user db
    ∧ (∀ b, b ∈ listed →
         b ∈ backups db ∧ BackupMetadata.user_id b = User.id current_user)
    ∧ StronglySorted newer_or_same listed
    ∧ (∀ a b, a ∈ listed → b ∈ rest → newer_or_same a b)
    ∧ length listed = (100 `min` length (backups_of current_user db))%nat
    ∧ ((length (backups_of current_user db) ≤ 100)%nat → rest = [])
    ∧ (∀ item, item ∈ map listing listed → json_get "encrypted_data" item = None).
Proof.
  set (mine := backups_of current_user db).
  set (sorted := sort_desc BackupMetadata.created_at mine).
  assert (Hperm : sorted ≡ₚ mine) by apply sort_desc_perm.
  assert (Hsorted : StronglySorted newer_or_same (take 100 sorted ++ drop 100 sorted)).
  { rewrite take_drop. apply (sort_desc_sorted BackupMetadata.created_at). }
  exists (take 100 sorted), (drop 100 sorted). split_and!.
  - apply list_backups_result.
  - by rewrite take_drop.
  - intros b Hb.
    assert (Hmine : b ∈ mine).
    { rewrite <- Hperm, <- (take_drop 100 sorted). apply elem_of_app. by left. }
    apply list_elem_of_filter in Hmine as [Hown ?]. split; [done|].
    by apply String.eqb_eq.
  - by eapply StronglySorted_app_1_l.
  - intros a b Ha Hb. by eapply StronglySorted_app_1_elem_of.
  - by rewrite length_take, Hperm.
  - intros Hle. apply drop_ge. by rewrite Hperm.
  - intros item (b & -> & _)%list_elem_of_fmap. reflexivity.
Qed.

(** C7 on the sample data: [alice] has one backup, and it is listed
    without its payload. *)
Lemma C7_list_newest_first_capped_witness :
  ∃ listed,
    list_backups alice sample_db = (Return (JList (map listing listed)), sample_db)
    ∧ length listed = 1%nat
    ∧ ∀ item, item ∈ map listing listed → json_get "encrypted_data" item = None.
Proof.
  destruct (C7_list_newest_first_capped alice sample_db)
    as (listed & rest & Hrun & _ & _ & _ & _ & Hlen & _ & Hstripped).
  by exists listed.
Defined.

(** C7 as stated fails: [alice] owns the 101 backups of [crowded_db], and
    the answer lists 100 of them; the oldest, "b-0", is stored, is hers, and
    is not listed. *)
Lemma C7_more_than_100_not_all_listed :
  ∃ listed b,
    (list_backups alice crowded_db).1 = Return (JList (map listing listed))
    ∧ length (backups_of alice crowded_db) = 101%nat
    ∧ length listed = 100%nat
    ∧ b ∈ backups crowded_db
    ∧ BackupMetadata.user_id b = User.id alice
    ∧ BackupMetadata.id b = "b-0"
    ∧ forallb (λ a, negb (String.eqb (BackupMetadata.id a) "b-0")) listed = true.
Proof.
  eexists _, _. split; [by rewrite list_backups_result|].
  split_and!; [vm_compute; reflexivity..|left| | |]; [reflexivity..|].
  vm_compute. reflexivity.
Qed.

(* ================================================================== *)
(** ** Backups: [delete_backup]                                         *)
(* ================================================================== *)

Lemma delete_backup_missing (backup_id : string) (current_user : User.t)
    (db : Database) :
  find_one (owned backup_id current_user) (backups db) = None →
  delete_backup backup_id current_user db
  = (Raise (HTTPException 404 "Backup not found"), db).
Proof.
  intros Hnone. unfold delete_backup, bind, db_backups_delete_one.
  rewrite delete_one_None by done. simpl. by destruct db.
Qed.

Lemma owned_by_other (backup_id : string) (current_user : User.t)
    (coll : list BackupMetadata.t) :
  (∀ b, b ∈ coll → BackupMetadata.id b = backup_id →
        BackupMetadata.user_id b ≠ User.id current_user) →
  find_one (owned backup_id current_user) coll = None.
Proof.
  intros Hother. apply find_one_None, Forall_forall. intros b Hb.
  unfold owned. apply andb_false_iff.
  destruct (String.eqb_spec (BackupMetadata.id b) backup_id) as [Hid|]; [|by left].
  right. apply String.eqb_neq. by apply Hother.
Qed.

Lemma delete_backup_found (backup_id : string) (current_user : User.t)
    (db : Database) (b : BackupMetadata.t) :
  find_one (owned backup_id current_user) (backups db) = Some b →
  ∃ before after,
    backups db = before ++ b :: after
    ∧ Forall (λ y, owned backup_id current_user y = false) before
    ∧ delete_backup backup_id current_user db
      = (Return (ok_message "Backup deleted"),
         mkDB (users db) (before ++ after)).
Proof.
  intros (before & after & Hsplit & Hb & Hbefore)%find_one_Some.
  exists before, after. split_and!; [done..|].
  unfold delete_backup, bind, db_backups_delete_one.
  by rewrite Hsplit, delete_one_split.
Qed.

(** C8. [delete_backup] answers 404 "Backup not found" (and never 401)
    and changes nothing when the caller owns no backup with that id, in
    particular when every backup with that id belongs to someone else; when
    the caller owns one, the first such record is taken out of the
    collection, nothing else changes, and the call succeeds. *)
Theorem C8_delete_not_found_or_removed (backup_id : string)
    (current_user : User.t) (db : Database) :
  (find_one (owned backup_id current_user) (backups db) = None →
     delete_backup backup_id current_user db
     = (Raise (HTTPException 404 "Backup not found"), db))
  ∧ ((∀ b, b ∈ backups db → BackupMetadata.id b = backup_id →
           BackupMetadata.user_id b ≠ User.id current_user) →
     delete_backup backup_id current_user db
     = (Raise (HTTPException 404 "Backup not found"), db))
  ∧ (∀ detail, (delete_backup backup_id current_user db).1
               ≠ Raise (HTTPException 401 detail))
  ∧ (∀ b, find_one (owned backup_id current_user) (backups db) = Some b →
       ∃ before after,
         backups db = before ++ b :: after
         ∧ Forall (λ y, owned backup_id current_user y = false) before
         ∧ delete_backup backup_id current_user db
           = (Return (ok_message "Backup deleted"),
              mkDB (users db) (before ++ after))).
Proof.
  split_and!.
  - apply delete_backup_missing.
  - intros Hother. by apply delete_backup_missing, owned_by_other.
  - intros detail. unfold delete_backup, bind, db_backups_delete_one.
    destruct (delete_one _ _) as [rest n]. simpl. by destruct (n =? 0).
  - apply delete_backup_found.
Qed.

(** C8 on the sample data: [bob] asks to delete [alice]'s backup and gets
    404 with the store unchanged; [alice] deletes it. *)
Lemma C8_delete_not_found_or_removed_witness :
  delete_backup "b-1" bob sample_db
  = (Raise (HTTPException 404 "Backup not found"), sample_db)
  ∧ ∃ before after,
      backups sample_db = before ++ notes_backup :: after
      ∧ Forall (λ y, owned "b-1" alice y = false) before
      ∧ delete_backup "b-1" alice sample_db
        = (Return (ok_message "Backup deleted"),
           mkDB (users sample_db) (before ++ after)).
Proof.
  split.
  - exact (proj1 (C8_delete_not_found_or_removed "b-1" bob sample_db) eq_refl).
  - exact (proj2 (proj2 (proj2
             (C8_delete_not_found_or_removed "b-1" alice sample_db)))
             notes_backup eq_refl).
Defined.

(** Once the caller's first match is gone and ids are unique per owner, the
    same request finds nothing. *)
Lemma delete_backup_twice (backup_id : string) (current_user : User.t)
    (db : Database) (b : BackupMetadata.t) :
  NoDup (map (λ b, (BackupMetadata.id b, BackupMetadata.user_id b)) (backups db)) →
  find_one (owned backup_id current_user) (backups db) = Some b →
  delete_backup backup_id current_user
    (delete_backup backup_id current_user db).2
  = (Raise (HTTPException 404 "Backup not found"),
     (delete_backup backup_id current_user db).2).
Proof.
  intros Hnodup Hb.
  destruct (delete_backup_found backup_id current_user db b Hb)
    as (before & after & Hsplit & Hbefore & ->). simpl.
  apply delete_backup_missing. simpl.
  apply find_one_None, Forall_app. split; [done|].
  apply find_one_elem in Hb as [_ Hb].
  rewrite Hsplit, map_app in Hnodup. simpl in Hnodup.
  apply NoDup_app in Hnodup as (_ & _ & Hnodup).
  apply NoDup_cons in Hnodup as [Hnotin _].
  apply Forall_forall. intros y Hy.
  destruct (owned backup_id current_user y) eqn:Hown; [|done].
  exfalso. apply Hnotin.
  unfold owned in Hb, Hown.
  apply andb_true_iff in Hb as [Hb1%String.eqb_eq Hb2%String.eqb_eq].
  apply andb_true_iff in Hown as [Ho1%String.eqb_eq Ho2%String.eqb_eq].
  apply list_elem_of_fmap. exists y. split; [|done]. congruence.
Qed.

(* ================================================================== *)
(** ** The document store: unique keys, and queries after writes        *)
(* ================================================================== *)

Section CollectionKeys.
Context {A : Type} (key : A → string).
Implicit Types (p : A → bool) (set : A → A) (coll : list A).

(** Where a key is unique, a query on the key of a stored document finds
    that document. *)
Lemma find_one_by_key coll x :
  NoDup (map key coll) → x ∈ coll →
  find_one (λ y, String.eqb (key y) (key x)) coll = Some x.
Proof.
  induction coll as [|y coll IH]; intros Hnodup Hx;
    [by apply elem_of_nil in Hx|].
  simpl in *. apply NoDup_cons in Hnodup as [Hy Hnodup].
  destruct (String.eqb_spec (key y) (key x)) as [Heq|Hne].
  - apply elem_of_cons in Hx as [->|Hx]; [done|].
    exfalso. apply Hy. rewrite Heq. apply list_elem_of_fmap. by exists x.
  - apply elem_of_cons in Hx as [->|Hx]; [done|]. by apply IH.
Qed.

(** After an update that keeps a unique key, a query on the key of the
    rewritten document finds it, whatever filter selected it. *)
Lemma find_one_key_update_one p set coll u :
  (∀ y, key (set y) = key y) → NoDup (map key coll) →
  find_one p coll = Some u →
  find_one (λ y, String.eqb (key y) (key u)) (update_one p set coll)
  = Some (set u).
Proof.
  intros Hkey Hnodup (before & after & -> & Hu & Hbefore)%find_one_Some.
  rewrite update_one_split by done.
  apply find_one_Some. exists before, after.
  split_and!; [done|by rewrite Hkey, String.eqb_refl|].
  rewrite map_app in Hnodup. apply NoDup_app in Hnodup as (_ & Hdisj & _).
  apply Forall_forall. intros y Hy. apply String.eqb_neq. intros Heq.
  apply (Hdisj (key y)); [apply list_elem_of_fmap; by exists y|].
  rewrite Heq. by left.
Qed.

(** After an update by a unique key, every document under that key went
    through [set]. *)
Lemma update_one_by_key_all (k : string) set coll (P : A → Prop) :
  NoDup (map key coll) → (∀ y, P (set y)) →
  Forall (λ y, key y = k → P y)
         (update_one (λ y, String.eqb (key y) k) set coll).
Proof.
  intros Hnodup Hset. induction coll as [|y coll IH]; simpl; [constructor|].
  simpl in Hnodup. apply NoDup_cons in Hnodup as [Hy Hnodup].
  destruct (String.eqb_spec (key y) k) as [Heq|Hne].
  - constructor; [done|]. apply Forall_forall. intros z Hz Hk.
    exfalso. apply Hy. rewrite Heq, <- Hk. apply list_elem_of_fmap. by exists z.
  - constructor; [done|]. by apply IH.
Qed.
End CollectionKeys.

Section CollectionWrites.
Context {A : Type}.
Implicit Types (p : A → bool) (set : A → A) (coll : list A).

(** Two updates under one filter act on the same document, when the first
    keeps the filter's key. *)
Lemma update_one_twice p set1 set2 coll :
  (∀ y, p (set1 y) = p y) →
  update_one p set2 (update_one p set1 coll)
  = update_one p (λ y, set2 (set1 y)) coll.
Proof.
  intros Hp. induction coll as [|y coll IH]; simpl; [done|].
  destruct (p y) eqn:Hy; simpl.
  - by rewrite Hp, Hy.
  - by rewrite Hy, IH.
Qed.

Lemma find_one_app_None p coll x :
  find_one p coll = None → find_one p (coll ++ [x]) = if p x then Some x else None.
Proof.
  rewrite find_one_None. induction 1 as [|y coll Hy _ IH]; simpl.
  - by destruct (p x).
  - by rewrite Hy.
Qed.

End CollectionWrites.

Lemma by_id_unique (coll : list User.t) (u : User.t) :
  NoDup (map User.id coll) → u ∈ coll →
  find_one (by_id (User.id u)) coll = Some u.
Proof. apply (find_one_by_key User.id). Qed.

(* ================================================================== *)
(** ** Accounts and sessions: [register], [login], [get_current_user]   *)
(* ================================================================== *)

Section AccountFlows.
Context {cfg : Config} {Bcrypt : bcrypt.Lib} {Jwt : jwt.Lib}
        (Hbcrypt : bcrypt.Laws Bcrypt) (Hjwt : jwt.Laws Jwt).

(** X1. A user who has just registered can log in: with the e-mail address
    and the password of a successful registration, [login] answers with a
    token for the new record's id and its public fields ([totp_enabled]
    false, no peer id yet), and leaves the store as [register] left it. *)
Theorem X1_register_then_login (user_data : UserRegister.t) (id_random : N)
    (created_at : datetime) (salt : bytes) (utcnow utcnow' : Z)
    (db : Database) :
  (∀ u, u ∈ users db →
        User.email u ≠ UserRegister.email user_data
        ∧ User.username u ≠ UserRegister.username user_data) →
  let db' := (register user_data id_random created_at salt utcnow db).2 in
  let user_id := uuid.str (uuid.uuid4 id_random) in
  login (UserLogin.mk (UserRegister.email user_data)
           (UserRegister.password user_data)) utcnow' db'
  = (Return (JObj
       [ ("access_token",
          JStr (create_access_token user_id (UserRegister.email user_data)
                  utcnow'));
         ("token_type", JStr "bearer");
         ("user", JObj [ ("id", JStr user_id);
                         ("email", JStr (UserRegister.email user_data));
                         ("username", JStr (UserRegister.username user_data));
                         ("totp_enabled", JBool false);
                         ("current_peer_id", JNull) ]) ]),
     db').
Proof using Hbcrypt.
  intros Hfresh db' user_id. unfold db'.
  rewrite (register_fresh user_data id_random created_at salt utcnow db Hfresh).
  unfold login, bind, db_users_find_one. cbn [snd users UserLogin.email].
  rewrite find_one_app_None.
  2:{ apply find_one_None, Forall_forall. intros u Hu.
      apply String.eqb_neq. by apply Hfresh. }
  unfold new_user. cbn [User.email]. rewrite String.eqb_refl.
  cbn [UserLogin.password User.password_hash].
  by rewrite verify_hash_password.
Qed.

(** X2. [login] gives one and the same answer, 401 "Invalid credentials",
    when no record has the e-mail address and when the password does not
    check against the hash of the record found; it never writes to the
    store; and when it answers with a token, a stored record has that
    address, the password checks against its hash, and the token is the one
    issued for its id and address. *)
Theorem X2_login_refusals (credentials : UserLogin.t) (utcnow : Z)
    (db : Database) :
  let run := login credentials utcnow db in
  run.2 = db
  ∧ (Forall (λ u, User.email u ≠ UserLogin.email credentials) (users db) →
     run.1 = Raise (HTTPException 401 "Invalid credentials"))
  ∧ (∀ u, find_one (λ u, String.eqb (User.email u) (UserLogin.email credentials))
            (users db) = Some u →
          verify_password (UserLogin.password credentials)
            (User.password_hash u) = false →
          run.1 = Raise (HTTPException 401 "Invalid credentials"))
  ∧ (∀ response, run.1 = Return response →
       ∃ u, u ∈ users db
            ∧ User.email u = UserLogin.email credentials
            ∧ verify_password (UserLogin.password credentials)
                (User.password_hash u) = true
            ∧ json_get "access_token" response
              = Some (JStr (create_access_token (User.id u) (User.email u)
                              utcnow))).
Proof.
  intros run. unfold run, login, bind, db_users_find_one.
  destruct (find_one _ (users db)) as [u|] eqn:Hfind.
  - destruct (verify_password _ _) eqn:Hpw; cbn.
    + split_and!; [done| | |].
      * intros Hall. apply find_one_elem in Hfind as [Hu Heq].
        rewrite Forall_forall in Hall. apply String.eqb_eq in Heq.
        by destruct (Hall u Hu).
      * intros u' [= <-]. congruence.
      * intros response [= <-]. exists u.
        apply find_one_elem in Hfind as [Hu Heq]. apply String.eqb_eq in Heq.
        done.
    + split_and!; [done..|]. intros response [=].
  - cbn. split_and!; [done..|]. intros response [=].
Qed.

(** X3. What [get_current_user] makes of a token the service issued: after
    its seven days it answers 401 "Token expired"; before, it answers 401
    "User not found" when no record has the token's user id, and otherwise
    returns the first record with that id.  Whatever the token, resolving
    it writes nothing. *)
Theorem X3_get_current_user_outcomes (user_id email : string)
    (issued now : Z) (db : Database) :
  let token := create_access_token user_id email issued in
  (issued + 604800 < now →
     get_current_user token now db
     = (Raise (HTTPException 401 "Token expired"), db))
  ∧ (now < issued + 604800 →
     Forall (λ u, User.id u ≠ user_id) (users db) →
     get_current_user token now db
     = (Raise (HTTPException 401 "User not found"), db))
  ∧ (now < issued + 604800 →
     ∀ u, find_one (by_id user_id) (users db) = Some u →
          get_current_user token now db = (Return u, db)
          ∧ User.id u = user_id)
  ∧ (∀ any_token, (get_current_user any_token now db).2 = db).
Proof using Hjwt.
  intros token. unfold token, get_current_user, bind, lift, decode_token,
    create_access_token, db_users_find_one.
  split_and!.
  - intros Hnow. by rewrite (jwt.decode_expired _ Hjwt) by (simpl; lia).
  - intros Hnow Hnone.
    rewrite (jwt.decode_valid _ Hjwt) by (simpl; lia). cbn [jwt.user_id].
    assert (find_one (by_id user_id) (users db) = None) as ->; [|done].
    apply find_one_None. eapply Forall_impl; [exact Hnone|].
    intros u Hu. by apply String.eqb_neq.
  - intros Hnow u Hu.
    rewrite (jwt.decode_valid _ Hjwt) by (simpl; lia). cbn [jwt.user_id].
    rewrite Hu. split; [done|].
    apply find_one_elem in Hu as [_ Hid]. by apply String.eqb_eq in Hid.
  - intros any_token.
    destruct (jwt.decode any_token _ _ _) as [e|payload].
    + by destruct (jwt.is_ExpiredSignatureError e), (jwt.is_InvalidTokenError e).
    + by destruct (find_one _ _).
Qed.

(** X4. The token in the answer of a successful [register] is a working
    session: as long as the new id is not already taken, [get_current_user]
    resolves it, any time in the next seven days, to the record just
    stored, and [get_me] shows that record's public fields. *)
Theorem X4_register_token_resolves (user_data : UserRegister.t)
    (id_random : N) (created_at : datetime) (salt : bytes) (utcnow now : Z)
    (db : Database) :
  (∀ u, u ∈ users db →
        User.email u ≠ UserRegister.email user_data
        ∧ User.username u ≠ UserRegister.username user_data) →
  Forall (λ u, User.id u ≠ uuid.str (uuid.uuid4 id_random)) (users db) →
  now < utcnow + 604800 →
  let run := register user_data id_random created_at salt utcnow db in
  let user := new_user (uuid.str (uuid.uuid4 id_random))
                (UserRegister.email user_data)
                (UserRegister.username user_data)
                (hash_password (UserRegister.password user_data) salt)
                created_at in
  ∃ token,
    outcome_bind run.1 (λ r, Return (json_get "access_token" r))
    = Return (Some (JStr token))
    ∧ get_current_user token now run.2 = (Return user, run.2)
    ∧ get_me user run.2
      = (Return (JObj
           [ ("id", JStr (uuid.str (uuid.uuid4 id_random)));
             ("email", JStr (UserRegister.email user_data));
             ("username", JStr (UserRegister.username user_data));
             ("totp_enabled", JBool false);
             ("current_peer_id", JNull);
             ("online_status", JBool false) ]),
         run.2).
Proof using Hjwt.
  intros Hfresh Hid Hnow run user. unfold run.
  rewrite (register_fresh user_data id_random created_at salt utcnow db Hfresh).
  eexists. split_and!; [reflexivity| |done].
  apply get_current_user_issued; [done| |done].
  cbn [snd users]. rewrite find_one_app_None.
  - unfold by_id. cbn [new_user User.id]. by rewrite String.eqb_refl.
  - apply find_one_None. eapply Forall_impl; [exact Hid|].
    intros u Hu. by apply String.eqb_neq.
Qed.

(** X5. The token in the answer of a successful [login] is a working
    session: where ids are unique, [get_current_user] resolves it, any time
    in the next seven days, to the record the password was checked
    against. *)
Theorem X5_login_token_resolves (credentials : UserLogin.t) (utcnow now : Z)
    (db : Database) (u : User.t) :
  NoDup (map User.id (users db)) →
  find_one (λ u, String.eqb (User.email u) (UserLogin.email credentials))
    (users db) = Some u →
  verify_password (UserLogin.password credentials) (User.password_hash u)
  = true →
  now < utcnow + 604800 →
  ∃ token,
    outcome_bind (login credentials utcnow db).1
      (λ r, Return (json_get "access_token" r))
    = Return (Some (JStr token))
    ∧ get_current_user token now db = (Return u, db).
Proof using Hjwt.
  intros Hnodup Hfind Hpw Hnow. unfold login, bind, db_users_find_one.
  rewrite Hfind, Hpw. eexists. split; [reflexivity|].
  apply get_current_user_issued; [done| |done].
  apply by_id_unique; [done|]. by apply find_one_elem in Hfind as [? _].
Qed.
End AccountFlows.

(** X1 on the sample data: "carol" registers and logs in. *)
Lemma X1_register_then_login_witness :
  let carol := UserRegister.mk "carol@example.org" "pw-2" "carol" in
  let stamp := mkDatetime 2024 5 5 12 0 0 0 in
  let db' := (register carol 7 stamp [] 1000 sample_db).2 in
  login (UserLogin.mk "carol@example.org" "pw-2") 2000 db'
  = (Return (JObj
       [ ("access_token",
          JStr (create_access_token (uuid.str (uuid.uuid4 7))
                  "carol@example.org" 2000));
         ("token_type", JStr "bearer");
         ("user", JObj [ ("id", JStr (uuid.str (uuid.uuid4 7)));
                         ("email", JStr "carol@example.org");
                         ("username", JStr "carol");
                         ("totp_enabled", JBool false);
                         ("current_peer_id", JNull) ]) ]),
     db').
Proof.
  intros carol stamp db'.
  apply (X1_register_then_login toy_bcrypt_laws carol 7 stamp [] 1000 2000
           sample_db).
  intros u Hu. cbn in Hu.
  apply elem_of_cons in Hu as [-> | Hu]; [by split|].
  apply elem_of_cons in Hu as [-> | Hu]; [by split|].
  by apply elem_of_nil in Hu.
Defined.

(** X3 on the sample data: a token issued to [alice] at second 1000 is
    expired at 605801 and resolves to her record at 2000; a token for the
    unknown id "u-9" resolves to nobody. *)
Lemma X3_get_current_user_outcomes_witness :
  let token := create_access_token "u-1" "alice@example.org" 1000 in
  get_current_user token 605801 sample_db
  = (Raise (HTTPException 401 "Token expired"), sample_db)
  ∧ get_current_user token 2000 sample_db = (Return alice, sample_db)
  ∧ get_current_user (create_access_token "u-9" "x@example.org" 1000) 2000
      sample_db
    = (Raise (HTTPException 401 "User not found"), sample_db).
Proof.
  intros token. split_and!.
  - exact (proj1 (X3_get_current_user_outcomes toy_pyjwt_laws
                    "u-1" "alice@example.org" 1000 605801 sample_db) eq_refl).
  - exact (proj1 (proj1 (proj2 (proj2 (X3_get_current_user_outcomes
             toy_pyjwt_laws "u-1" "alice@example.org" 1000 2000 sample_db)))
             eq_refl alice eq_refl)).
  - refine (proj1 (proj2 (X3_get_current_user_outcomes toy_pyjwt_laws
                     "u-9" "x@example.org" 1000 2000 sample_db)) eq_refl _).
    by repeat constructor.
Defined.

(** X4 on the sample data: "carol" registers at second 1000 and her token
    resolves to her record at second 2000. *)
Lemma X4_register_token_resolves_witness :
  let carol := UserRegister.mk "carol@example.org" "pw-2" "carol" in
  let stamp := mkDatetime 2024 5 5 12 0 0 0 in
  let run := register carol 7 stamp [] 1000 sample_db in
  ∃ token user,
    outcome_bind run.1 (λ r, Return (json_get "access_token" r))
    = Return (Some (JStr token))
    ∧ get_current_user token 2000 run.2 = (Return user, run.2)
    ∧ User.username user = "carol".
Proof.
  intros carol stamp run.
  destruct (X4_register_token_resolves toy_pyjwt_laws carol 7 stamp [] 1000
              2000 sample_db) as (token & Htoken & Hresolve & _).
  - intros u Hu. cbn in Hu.
    apply elem_of_cons in Hu as [-> | Hu]; [by split|].
    apply elem_of_cons in Hu as [-> | Hu]; [by split|].
    by apply elem_of_nil in Hu.
  - by repeat constructor.
  - reflexivity.
  - eexists token, _. split_and!; [exact Htoken|exact Hresolve|reflexivity].
Defined.

(** X5 on the sample data: "carol", once registered, logs in at second
    3000 and her token resolves to her record at second 4000. *)
Lemma X5_login_token_resolves_witness :
  let carol := UserRegister.mk "carol@example.org" "pw-2" "carol" in
  let stamp := mkDatetime 2024 5 5 12 0 0 0 in
  let db := (register carol 7 stamp [] 1000 sample_db).2 in
  ∃ token user,
    outcome_bind (login (UserLogin.mk "carol@example.org" "pw-2") 3000 db).1
      (λ r, Return (json_get "access_token" r))
    = Return (Some (JStr token))
    ∧ get_current_user token 4000 db = (Return user, db)
    ∧ User.username user = "carol".
Proof.
  intros carol stamp db.
  destruct (X5_login_token_resolves toy_pyjwt_laws
              (UserLogin.mk "carol@example.org" "pw-2") 3000 4000 db
              (new_user (uuid.str (uuid.uuid4 7)) "carol@example.org" "carol"
                 (hash_password "pw-2" []) stamp))
    as (token & Htoken & Hresolve).
  - apply (bool_decide_unpack _). vm_compute. reflexivity.
  - vm_compute. reflexivity.
  - vm_compute. reflexivity.
  - reflexivity.
  - eexists token, _. split_and!; [exact Htoken|exact Hresolve|reflexivity].
Defined.

(* ================================================================== *)
(** ** 2FA: the format of a backup code                                 *)
(* ================================================================== *)

Lemma append_empty_r (s : string) : s +:+ "" = s.
Proof.
  induction s as [|c s IH]; rewrite ?append_cons, ?append_nil; congruence.
Qed.

Lemma substring_prefix_append (s t : string) :
  String.substring 0 (String.length s) (s +:+ t) = s.
Proof.
  induction s as [|c s IH]; rewrite ?append_cons, ?append_nil; simpl.
  - by destruct t.
  - by rewrite IH.
Qed.

Lemma upper_append (s t : string) : upper (s +:+ t) = upper s +:+ upper t.
Proof.
  induction s as [|c s IH]; rewrite ?append_cons, ?append_nil; simpl; [done|].
  by rewrite append_cons, IH.
Qed.

Lemma list_ascii_of_string_append (s t : string) :
  list_ascii_of_string (s +:+ t)
  = list_ascii_of_string s ++ list_ascii_of_string t.
Proof.
  induction s as [|c s IH]; rewrite ?append_cons, ?append_nil; simpl; congruence.
Qed.

(** The leading digits of a numeral are the numeral of the quotient. *)
Lemma fixed_width_split (base : N) (w k : nat) (n : N) :
  fixed_width base (w + k) n
  = fixed_width base w (n / base ^ N.of_nat k)%N +:+ fixed_width base k n.
Proof.
  revert n. induction k as [|k IH]; intros n.
  - rewrite Nat.add_0_r. simpl. by rewrite N.div_1_r, append_empty_r.
  - rewrite Nat.add_succ_r. cbn [fixed_width].
    rewrite IH, string_append_assoc. do 2 f_equal.
    by rewrite Nat2N.inj_succ, N.pow_succ_r', N.Div0.div_div.
Qed.

Lemma fixed_width_prefix (base : N) (w k : nat) (n : N) :
  String.substring 0 w (fixed_width base (w + k) n)
  = fixed_width base w (n / base ^ N.of_nat k)%N.
Proof.
  rewrite fixed_width_split.
  rewrite <- (length_fixed_width base w (n / base ^ N.of_nat k)) at 1.
  apply substring_prefix_append.
Qed.

(** The version and variant fields of a UUID lie below its top 32 bits. *)
Lemma uuid4_top_bits (random : N) :
  (uuid.uuid4 random / 2 ^ 96 = random mod 2 ^ 128 / 2 ^ 96)%N.
Proof.
  unfold uuid.uuid4. rewrite <- !N.shiftr_div_pow2.
  apply N.bits_inj. intros m. rewrite !N.shiftr_spec'.
  assert (Hhigh : ∀ c, (N.log2 c < 96)%N → N.testbit c (m + 96) = false).
  { intros c Hc. apply N.bits_above_log2. lia. }
  rewrite N.lor_spec, N.ldiff_spec, N.lor_spec, N.ldiff_spec.
  rewrite (Hhigh (N.shiftl 4 76)) by (vm_compute; reflexivity).
  rewrite (Hhigh (N.shiftl 0xf000 64)) by (vm_compute; reflexivity).
  rewrite (Hhigh (N.shiftl 0x8000 48)) by (vm_compute; reflexivity).
  rewrite (Hhigh (N.shiftl 0xc000 48)) by (vm_compute; reflexivity).
  simpl. by rewrite !andb_true_r, !orb_false_r.
Qed.

Lemma uuid_str_prefix (int : N) :
  String.substring 0 8 (uuid.str int) = fixed_width 16 8 (int / 2 ^ 96)%N.
Proof.
  unfold uuid.str. cbv zeta.
  change (fixed_width 16 32 int) with (fixed_width 16 (8 + 24) int).
  rewrite (fixed_width_prefix 16 8 24 int).
  change (16 ^ N.of_nat 24)%N with (2 ^ 96)%N.
  rewrite <- (length_fixed_width 16 8 (int / 2 ^ 96)) at 1.
  apply substring_prefix_append.
Qed.

Lemma upper_fixed_width_hex (w : nat) (n : N) :
  forallb hex_upper (list_ascii_of_string (upper (fixed_width 16 w n))) = true.
Proof.
  revert n. induction w as [|w IH]; intros n; [done|].
  cbn [fixed_width].
  rewrite upper_append, list_ascii_of_string_append, forallb_app, IH.
  simpl. rewrite andb_true_r.
  apply (forallb_below 16 (λ d, hex_upper (upper_char (digit_char d))));
    [vm_compute; reflexivity|].
  by apply N.mod_lt.
Qed.

(** X6. The backup codes are [count] strings of 8 upper-case hexadecimal
    digits each; the [i]-th is the numeral of the top 32 bits of the 128
    random bits of the [i]-th UUID, which the version and variant fields of
    the UUID leave alone. *)
Theorem X6_backup_code_format (urandom : nat → N) (count : nat) :
  length (generate_backup_codes urandom count) = count
  ∧ ∀ i, (i < count)%nat →
      ∃ code,
        generate_backup_codes urandom count !! i = Some code
        ∧ code = upper (fixed_width 16 8 (urandom i mod 2 ^ 128 / 2 ^ 96)%N)
        ∧ String.length code = 8%nat
        ∧ forallb hex_upper (list_ascii_of_string code) = true.
Proof.
  split; [apply generate_backup_codes_length|].
  intros i Hi. eexists. split.
  - unfold generate_backup_codes.
    change (map ?f ?l) with (f <$> l).
    rewrite list_lookup_fmap, lookup_seq_lt by done. reflexivity.
  - cbn [Nat.add]. rewrite uuid_str_prefix, uuid4_top_bits.
    split_and!; [done| |apply upper_fixed_width_hex].
    by rewrite length_upper, length_fixed_width.
Qed.

(* ================================================================== *)
(** ** 2FA: [setup_2fa], [verify_2fa] and [disable_2fa] together        *)
(* ================================================================== *)

Section TwoFAFlows.
Context {Qr : qrcode.Lib}.

(** X7. [setup_2fa] writes the new secret and the new backup codes on the
    caller's record and nothing else: [totp_enabled] and every other field
    stay, as do the other records and the backups.  So a record that was
    [Enabled] stays [Enabled] under the new secret, and any other becomes
    [PendingVerification]; the codes of an earlier setup are replaced. *)
Theorem X7_setup_2fa_frame (current_user : User.t) (choice urandom : nat → N)
    (db : Database) :
  let db' := (setup_2fa current_user choice urandom db).2 in
  backups db' = backups db
  ∧ Forall2 (λ u u', (User.id u ≠ User.id current_user → u' = u)
                     ∧ same_but_twofa u u'
                     ∧ User.totp_enabled u' = User.totp_enabled u)
            (users db) (users db')
  ∧ ∀ u, find_one (by_id (User.id current_user)) (users db) = Some u →
      ∃ u', find_one (by_id (User.id current_user)) (users db') = Some u'
            ∧ User.totp_secret u' = Some (pyotp.random_base32 choice)
            ∧ User.backup_codes u' = generate_backup_codes urandom 8
            ∧ (twofa_state u = Enabled → twofa_state u' = Enabled)
            ∧ (twofa_state u ≠ Enabled → twofa_state u' = PendingVerification).
Proof.
  intros db'. split_and!; [done| |].
  - apply (update_users_frame _ _
             (λ u u', same_but_twofa u u'
                      ∧ User.totp_enabled u' = User.totp_enabled u));
      intros u; by repeat split.
  - intros u Hu.
    destruct (setup_2fa_effect current_user u choice urandom db Hu)
      as (qr & _ & Hu' & _).
    eexists. split; [exact Hu'|]. split_and!.
    + reflexivity.
    + reflexivity.
    + unfold twofa_state. cbn [User.totp_enabled User.set_backup_codes
        User.set_totp_secret].
      destruct (User.totp_enabled u); [done|].
      by destruct (truthy (User.totp_secret u)).
    + unfold twofa_state. cbn [User.totp_enabled User.set_backup_codes
        User.set_totp_secret User.totp_secret].
      destruct (User.totp_enabled u); [done|].
      intros _. by rewrite truthy_Some by apply random_base32_nonempty.
Qed.

(** X8. Setup followed by verification: at any time that is not before
    the epoch, the code of the current time step under the secret that
    [setup_2fa] returned is accepted by [verify_2fa], which leaves the
    caller's record [Enabled] with that secret and all 8 backup codes. *)
Theorem X8_setup_then_totp_enables (current_user u : User.t)
    (choice urandom : nat → N) (now : Z) (db : Database) :
  find_one (by_id (User.id current_user)) (users db) = Some u →
  0 ≤ now →
  let secret := pyotp.random_base32 choice in
  let s0 := setup_2fa current_user choice urandom db in
  ∃ otp,
    pyotp.at_ secret now 0 = Return otp
    ∧ (verify_2fa otp current_user now s0.2).1
      = Return (ok_message "2FA enabled successfully")
    ∧ ∃ u', find_one (by_id (User.id current_user))
              (users (verify_2fa otp current_user now s0.2).2) = Some u'
            ∧ twofa_state u' = Enabled
            ∧ User.totp_secret u' = Some secret
            ∧ User.backup_codes u' = generate_backup_codes urandom 8.
Proof.
  intros Hu Hnow secret s0.
  destruct (generated_secret_otp choice now Hnow) as (otp & Hotp & _).
  destruct (setup_2fa_effect current_user u choice urandom db Hu)
    as (qr & _ & Hu0 & _).
  fold s0 in Hu0. exists otp. split; [done|]. unfold secret.
  rewrite (verify_2fa_cases _ _ _ _ _ Hu0).
  cbn [User.totp_secret User.set_backup_codes User.set_totp_secret].
  rewrite truthy_Some by apply random_base32_nonempty.
  cbn [negb default]. unfold id. rewrite pyotp_verify_window0, Hotp.
  cbn [outcome_bind]. rewrite String.eqb_refl. split; [done|].
  eexists. split; [cbn [snd users]; by erewrite find_one_update_one|].
  done.
Qed.

(** X9. A backup code that [setup_2fa] returned is never taken for a
    time-based code: at any time that is not before the epoch,
    [verify_2fa] accepts it as a backup code, takes it off the record and
    leaves the record [Enabled]. *)
Theorem X9_backup_code_accepted (current_user u : User.t)
    (choice urandom : nat → N) (code : string) (now : Z) (db : Database) :
  find_one (by_id (User.id current_user)) (users db) = Some u →
  0 ≤ now →
  code ∈ generate_backup_codes urandom 8 →
  let s0 := setup_2fa current_user choice urandom db in
  let s1 := verify_2fa code current_user now s0.2 in
  pyotp.verify (pyotp.random_base32 choice) code now 0 = Return false
  ∧ s1.1 = Return (ok_message "2FA verified with backup code")
  ∧ ∃ u1, find_one (by_id (User.id current_user)) (users s1.2) = Some u1
          ∧ (User.backup_codes u1
             = filter (λ c, c ≠ code) (generate_backup_codes urandom 8))
          ∧ twofa_state u1 = Enabled.
Proof.
  intros Hu Hnow Hcode s0 s1.
  pose proof (backup_code_fails_totp choice urandom code now Hnow Hcode) as Hotp.
  destruct (setup_2fa_effect current_user u choice urandom db Hu)
    as (qr & _ & Hu0 & _).
  fold s0 in Hu0. split; [done|]. unfold s1.
  rewrite (verify_2fa_cases _ _ _ _ _ Hu0).
  cbn [User.totp_secret User.set_backup_codes User.set_totp_secret
       User.backup_codes].
  rewrite truthy_Some by apply random_base32_nonempty.
  cbn [negb default]. unfold id. rewrite Hotp.
  rewrite bool_decide_eq_true_2 by done. split; [done|].
  eexists. split; [cbn [snd users]; by erewrite find_one_update_one|].
  done.
Qed.
End TwoFAFlows.

(** X10. After [disable_2fa], [verify_2fa] answers 400 "2FA not setup" to
    every code, the codes that were valid before included; and disabling
    twice is disabling once. *)
Theorem X10_disable_then_verify (code : string) (current_user u : User.t)
    (now : Z) (db : Database) :
  find_one (by_id (User.id current_user)) (users db) = Some u →
  let db' := (disable_2fa current_user db).2 in
  verify_2fa code current_user now db'
  = (Raise (HTTPException 400 "2FA not setup"), db')
  ∧ (disable_2fa current_user db').2 = db'.
Proof.
  intros Hu db'. split.
  - erewrite verify_2fa_cases; [|cbn; by erewrite find_one_update_one]. done.
  - unfold db'. cbn. f_equal. by rewrite update_one_twice.
Qed.

(** X11. Whatever its outcome, [verify_2fa] writes at most
    [totp_enabled] and [backup_codes] of the caller's record: no record
    loses or changes its secret, none is switched from enabled to
    disabled, none gains a backup code it did not have, and the other
    records and the backups stay as they were. *)
Theorem X11_verify_2fa_frame (code : string) (current_user : User.t) (now : Z)
    (db : Database) :
  let db' := (verify_2fa code current_user now db).2 in
  backups db' = backups db
  ∧ Forall2 (λ u u', (User.id u ≠ User.id current_user → u' = u)
                     ∧ same_but_twofa u u'
                     ∧ User.totp_secret u' = User.totp_secret u
                     ∧ (User.totp_enabled u = true → User.totp_enabled u' = true)
                     ∧ (∀ c, c ∈ User.backup_codes u' → c ∈ User.backup_codes u))
            (users db) (users db').
Proof.
  intros db'. unfold db'.
  set (R := λ u u' : User.t,
         (User.id u ≠ User.id current_user → u' = u)
         ∧ same_but_twofa u u'
         ∧ User.totp_secret u' = User.totp_secret u
         ∧ (User.totp_enabled u = true → User.totp_enabled u' = true)
         ∧ (∀ c, c ∈ User.backup_codes u' → c ∈ User.backup_codes u)).
  assert (Hrefl : ∀ l, Forall2 R l l).
  { intros l. apply Forall_Forall2_diag, Forall_forall. intros x _.
    by repeat split. }
  destruct (find_one (by_id (User.id current_user)) (users db)) as [u|] eqn:Hu.
  2:{ rewrite verify_2fa_no_record by done. by split. }
  rewrite (verify_2fa_cases _ _ u) by done.
  destruct (negb _); [by split|].
  destruct (pyotp.verify _ _ _ _) as [[|]|e]; [|
    destruct (bool_decide _)|]; try (by split).
  - split; [done|]. cbn [snd users].
    eapply Forall2_impl.
    + apply (update_users_frame (User.id current_user)
               (User.set_totp_enabled true)
               (λ u u', same_but_twofa u u'
                        ∧ User.totp_secret u' = User.totp_secret u
                        ∧ (User.totp_enabled u = true → User.totp_enabled u' = true)
                        ∧ (∀ c, c ∈ User.backup_codes u' → c ∈ User.backup_codes u)));
        intros x; by repeat split.
    + intros x y [? ?]. by split.
  - split; [done|]. cbn [snd users].
    apply find_one_Some in Hu as (before & after & -> & Hid & Hbefore).
    rewrite update_one_split by done.
    apply Forall2_app; [apply Hrefl|]. constructor; [|apply Hrefl].
    unfold R. split_and!; [|by repeat split|done|done|].
    + intros Hne. unfold by_id in Hid. by apply String.eqb_eq in Hid.
    + intros c. cbn. by intros [_ ?]%list_elem_of_filter.
Qed.

(** X8 on the sample data: [alice] sets 2FA up and, at second 59, sends
    the code of the current time step. *)
Lemma X8_setup_then_totp_enables_witness :
  let s0 := setup_2fa alice sample_choice sample_urandom sample_db in
  ∃ otp,
    pyotp.at_ (pyotp.random_base32 sample_choice) 59 0 = Return otp
    ∧ (verify_2fa otp alice 59 s0.2).1
      = Return (ok_message "2FA enabled successfully")
    ∧ ∃ u', find_one (by_id "u-1") (users (verify_2fa otp alice 59 s0.2).2)
            = Some u'
            ∧ twofa_state u' = Enabled.
Proof.
  intros s0.
  destruct (X8_setup_then_totp_enables alice alice sample_choice sample_urandom
              59 sample_db eq_refl)
    as (otp & Hotp & Hrun & u' & Hu' & Hstate & _); [done|].
  exists otp. split_and!; [exact Hotp|exact Hrun|].
  exists u'. by split.
Defined.

(** X9 on the sample data: [alice] sets 2FA up and, at second 59, sends
    the third backup code. *)
Lemma X9_backup_code_accepted_witness :
  let s0 := setup_2fa alice sample_choice sample_urandom sample_db in
  let s1 := verify_2fa "2A1B2C3D" alice 59 s0.2 in
  s1.1 = Return (ok_message "2FA verified with backup code")
  ∧ ∃ u1, find_one (by_id "u-1") (users s1.2) = Some u1
          ∧ twofa_state u1 = Enabled.
Proof.
  intros s0 s1.
  destruct (X9_backup_code_accepted alice alice sample_choice sample_urandom
              "2A1B2C3D" 59 sample_db eq_refl)
    as (_ & Hrun & u1 & Hu1 & _ & Hstate); [done| |].
  - apply (bool_decide_unpack _). vm_compute. reflexivity.
  - split; [exact Hrun|]. exists u1. by split.
Defined.

(** X10 on the sample data: once [alice] has disabled 2FA, the backup code
    "0A1B2C3D" she held is answered with "2FA not setup". *)
Lemma X10_disable_then_verify_witness :
  let db' := (disable_2fa alice sample_db).2 in
  verify_2fa "0A1B2C3D" alice 59 db'
  = (Raise (HTTPException 400 "2FA not setup"), db')
  ∧ (disable_2fa alice db').2 = db'.
Proof.
  exact (X10_disable_then_verify "0A1B2C3D" alice alice 59 sample_db eq_refl).
Defined.

(* ================================================================== *)
(** ** Presence: [lookup_username], [get_online_users]                  *)
(* ================================================================== *)

(** X12. [lookup_username] answers 404 "User not found" exactly when no
    record has the name; otherwise its answer shows the name, the peer id
    and the online flag of a stored record with that name, and nothing
    else.  It never writes to the store. *)
Theorem X12_lookup_username_outcomes (username : string) (db : Database) :
  let run := lookup_username username db in
  run.2 = db
  ∧ (Forall (λ u, User.username u ≠ username) (users db) →
     run.1 = Raise (HTTPException 404 "User not found"))
  ∧ (∀ u, u ∈ users db → User.username u = username →
          ∃ response, run.1 = Return response)
  ∧ (∀ response, run.1 = Return response →
       ∃ u, u ∈ users db ∧ User.username u = username
            ∧ response
              = JObj [ ("username", JStr username);
                       ("peer_id", json_of_option (User.current_peer_id u));
                       ("online_status", JBool (User.online_status u)) ]).
Proof.
  intros run. unfold run, lookup_username, bind, db_users_find_one.
  destruct (find_one _ (users db)) as [u|] eqn:Hfind; cbn.
  - apply find_one_elem in Hfind as [Hu Heq]. apply String.eqb_eq in Heq.
    split_and!; [done| | |].
    + intros Hall. rewrite Forall_forall in Hall. by destruct (Hall u Hu).
    + intros _ _ _. by eexists.
    + intros response [= <-]. exists u. by rewrite Heq.
  - split_and!; [done..| |].
    + intros u Hu Heq. rewrite find_one_None, Forall_forall in Hfind.
      specialize (Hfind u Hu). cbn in Hfind.
      apply String.eqb_neq in Hfind. done.
    + intros response [=].
Qed.

(** X13. What a user announces is what others look up: where user names
    are unique, after [update_peer_id] a lookup of the caller's name shows
    the new peer id and online; after [set_offline] it shows offline, with
    the last peer id still on display. *)
Theorem X13_presence_seen_by_lookup (peer_id : string)
    (current_user u : User.t) (db : Database) :
  NoDup (map User.username (users db)) →
  find_one (by_id (User.id current_user)) (users db) = Some u →
  let db1 := (update_peer_id peer_id current_user db).2 in
  let db2 := (set_offline current_user db1).2 in
  lookup_username (User.username u) db1
  = (Return (JObj [ ("username", JStr (User.username u));
                    ("peer_id", JStr peer_id);
                    ("online_status", JBool true) ]), db1)
  ∧ lookup_username (User.username u) db2
    = (Return (JObj [ ("username", JStr (User.username u));
                      ("peer_id", JStr peer_id);
                      ("online_status", JBool false) ]), db2).
Proof.
  intros Hnodup Hu db1 db2. split.
  - unfold lookup_username, bind, db_users_find_one. cbn [db1 snd users
      update_peer_id bind db_users_update_one ret].
    by rewrite (find_one_key_update_one User.username _ _ _ u).
  - unfold lookup_username, bind, db_users_find_one.
    unfold db2, db1. cbn [snd users update_peer_id set_offline bind
      db_users_update_one ret].
    rewrite update_one_twice by done.
    by rewrite (find_one_key_update_one User.username _ _ _ u).
Qed.

(** X14. Presence is last-write-wins: of two [update_peer_id] calls of a
    user only the second shows in the store; [set_offline] twice is
    [set_offline] once; and an [update_peer_id] after a [set_offline]
    leaves no trace of the latter. *)
Theorem X14_presence_last_write_wins (peer1 peer2 : string)
    (current_user : User.t) (db : Database) :
  (update_peer_id peer2 current_user
     (update_peer_id peer1 current_user db).2).2
  = (update_peer_id peer2 current_user db).2
  ∧ (set_offline current_user (set_offline current_user db).2).2
    = (set_offline current_user db).2
  ∧ (update_peer_id peer2 current_user (set_offline current_user db).2).2
    = (update_peer_id peer2 current_user db).2.
Proof.
  cbn. split_and!; f_equal; by rewrite update_one_twice.
Qed.

(** X15. [get_online_users] lists, in store order, records that are
    online and whose id is not the caller's, at most 1000 of them and all
    of them when the store holds no more than 1000 records; each entry has
    the user name and the peer id and no other key; the store is
    unchanged. *)
Theorem X15_online_users_listing (current_user : User.t) (db : Database) :
  ∃ listed : list User.t,
    get_online_users current_user db
    = (Return (JList (map online_entry listed)), db)
    ∧ (∀ u, u ∈ listed →
         u ∈ users db ∧ User.online_status u = true
         ∧ User.id u ≠ User.id current_user)
    ∧ listed `sublist_of` users db
    ∧ (length listed ≤ 1000)%nat
    ∧ ((length (users db) ≤ 1000)%nat →
       ∀ u, u ∈ users db → User.online_status u = true →
            User.id u ≠ User.id current_user → u ∈ listed)
    ∧ (∀ item key value, item ∈ map online_entry listed →
         json_get key item = Some value →
         key = "username" ∨ key = "current_peer_id").
Proof.
  set (found := filter (λ u, User.online_status u = true
                             ∧ User.id u ≠ User.id current_user) (users db)).
  exists (take 1000 found). split_and!.
  - reflexivity.
  - intros u Hu.
    assert (Hfound : u ∈ found).
    { rewrite <- (take_drop 1000 found). apply elem_of_app. by left. }
    apply list_elem_of_filter in Hfound as [[? ?] ?]. done.
  - etrans; [apply sublist_take|]. apply sublist_filter.
  - rewrite length_take. lia.
  - intros Hlen u Hu Honline Hid.
    rewrite take_ge.
    + by apply list_elem_of_filter.
    + etrans; [apply length_filter|done].
  - intros item key value (u & -> & _)%list_elem_of_fmap. cbn.
    destruct (String.eqb_spec key "username") as [->|_]; [by left|].
    destruct (String.eqb_spec key "current_peer_id") as [->|_]; [by right|].
    done.
Qed.

(** X16. What a user announces is what the others see in the online list:
    after [update_peer_id], another user's [get_online_users] has an entry
    with the caller's name and the new peer id (the store holding no more
    than 1000 records); after [set_offline], where ids are unique, no entry
    of the list comes from the caller's record. *)
Theorem X16_presence_seen_by_online_list (peer_id : string)
    (current_user other u : User.t) (db : Database) :
  NoDup (map User.id (users db)) →
  find_one (by_id (User.id current_user)) (users db) = Some u →
  User.id other ≠ User.id current_user →
  (length (users db) ≤ 1000)%nat →
  let db1 := (update_peer_id peer_id current_user db).2 in
  let db2 := (set_offline current_user db1).2 in
  (∃ items, (get_online_users other db1).1 = Return (JList items)
            ∧ JObj [ ("username", JStr (User.username u));
                     ("current_peer_id", JStr peer_id) ] ∈ items)
  ∧ (∃ listed, (get_online_users other db2).1
               = Return (JList (map online_entry listed))
               ∧ Forall (λ v, User.id v ≠ User.id current_user) listed).
Proof.
  intros Hnodup Hu Hother Hlen db1 db2. split.
  - eexists. split; [reflexivity|].
    apply list_elem_of_fmap.
    exists (User.set_online_status true
              (User.set_current_peer_id (Some peer_id) u)).
    split; [reflexivity|]. unfold to_list. rewrite take_ge.
    + apply list_elem_of_filter. split.
      * split; [done|]. cbn.
        apply find_one_elem in Hu as [_ Hid]. apply String.eqb_eq in Hid.
        congruence.
      * apply (find_one_elem (by_id (User.id current_user))).
        cbn. by erewrite find_one_update_one.
    + etrans; [apply length_filter|]. cbn. by rewrite update_one_length.
  - eexists. split; [reflexivity|].
    apply Forall_forall. intros v Hv Hid.
    assert (Hfound : v ∈ filter (λ u, User.online_status u = true
                                      ∧ User.id u ≠ User.id other) (users db2)).
    { unfold to_list in Hv. rewrite <- (take_drop 1000 (filter _ _)).
      apply elem_of_app. by left. }
    apply list_elem_of_filter in Hfound as [[Honline _] Hstored].
    unfold db2, db1 in Hstored.
    cbn [snd users update_peer_id set_offline bind db_users_update_one ret]
      in Hstored.
    rewrite update_one_twice in Hstored by done.
    pose proof (update_one_by_key_all User.id (User.id current_user)
      (λ y, User.set_online_status false
              (User.set_online_status true
                 (User.set_current_peer_id (Some peer_id) y)))
      (users db) (λ y, User.online_status y = false) Hnodup
      (λ _, eq_refl)) as Hall.
    rewrite Forall_forall in Hall. specialize (Hall v Hstored Hid). congruence.
Qed.

(** X13 on the sample data: [bob] announces "peer-9", then goes offline. *)
Lemma X13_presence_seen_by_lookup_witness :
  let db1 := (update_peer_id "peer-9" bob sample_db).2 in
  let db2 := (set_offline bob db1).2 in
  lookup_username "bob" db1
  = (Return (JObj [ ("username", JStr "bob"); ("peer_id", JStr "peer-9");
                    ("online_status", JBool true) ]), db1)
  ∧ lookup_username "bob" db2
    = (Return (JObj [ ("username", JStr "bob"); ("peer_id", JStr "peer-9");
                      ("online_status", JBool false) ]), db2).
Proof.
  apply (X13_presence_seen_by_lookup "peer-9" bob bob sample_db);
    [|reflexivity].
  apply (bool_decide_unpack _). vm_compute. reflexivity.
Defined.

(** X16 on the sample data: [alice] sees [bob] with "peer-9" once he has
    announced it, and no longer once he is offline. *)
Lemma X16_presence_seen_by_online_list_witness :
  let db1 := (update_peer_id "peer-9" bob sample_db).2 in
  let db2 := (set_offline bob db1).2 in
  (∃ items, (get_online_users alice db1).1 = Return (JList items)
            ∧ JObj [ ("username", JStr "bob");
                     ("current_peer_id", JStr "peer-9") ] ∈ items)
  ∧ (∃ listed, (get_online_users alice db2).1
               = Return (JList (map online_entry listed))
               ∧ Forall (λ v, User.id v ≠ "u-2") listed).
Proof.
  apply (X16_presence_seen_by_online_list "peer-9" bob alice bob sample_db).
  - apply (bool_decide_unpack _). vm_compute. reflexivity.
  - reflexivity.
  - discriminate.
  - cbn. lia.
Defined.

(* ================================================================== *)
(** ** Backups: refusals, frames and sequences of operations            *)
(* ================================================================== *)

(** With ids unique per owner, nothing the caller owns under the id is
    left once its first match is taken out. *)
Lemma owned_gone (backup_id : string) (current_user : User.t)
    (before after : list BackupMetadata.t) (b : BackupMetadata.t) :
  NoDup (map (λ b, (BackupMetadata.id b, BackupMetadata.user_id b))
             (before ++ b :: after)) →
  owned backup_id current_user b = true →
  Forall (λ y, owned backup_id current_user y = false) before →
  find_one (owned backup_id current_user) (before ++ after) = None.
Proof.
  intros Hnodup Hb Hbefore.
  apply find_one_None, Forall_app. split; [done|].
  rewrite map_app in Hnodup. simpl in Hnodup.
  apply NoDup_app in Hnodup as (_ & _ & Hnodup).
  apply NoDup_cons in Hnodup as [Hnotin _].
  apply Forall_forall. intros y Hy.
  destruct (owned backup_id current_user y) eqn:Hown; [|done].
  exfalso. apply Hnotin.
  unfold owned in Hb, Hown.
  apply andb_true_iff in Hb as [Hb1%String.eqb_eq Hb2%String.eqb_eq].
  apply andb_true_iff in Hown as [Ho1%String.eqb_eq Ho2%String.eqb_eq].
  apply list_elem_of_fmap. exists y. split; [|done]. congruence.
Qed.

Section VaultFlows.
Context {cfg : Config} {Fernet : fernet.Lib}.

(** X17. [download_backup] never writes to the store and refuses: with
    404 "Backup not found" when the caller owns no backup with the id, so
    also when the id is that of another user's backup; with 400 when the
    record found is not a local one or holds no payload; with 500
    "Decryption failed: " when the payload decodes but Fernet rejects it. *)
Theorem X17_download_refusals (backup_id : string) (current_user : User.t)
    (db : Database) :
  let run := download_backup backup_id current_user db in
  run.2 = db
  ∧ ((∀ b, b ∈ backups db → BackupMetadata.id b = backup_id →
           BackupMetadata.user_id b ≠ User.id current_user) →
     run.1 = Raise (HTTPException 404 "Backup not found"))
  ∧ (∀ b, find_one (owned backup_id current_user) (backups db) = Some b →
          BackupMetadata.provider b ≠ "local"
          ∨ BackupMetadata.encrypted_data b = None
          ∨ BackupMetadata.encrypted_data b = Some "" →
          run.1 = Raise (HTTPException 400
                           "Only local backups can be downloaded via API"))
  ∧ (∀ b payload token,
       find_one (owned backup_id current_user) (backups db) = Some b →
       BackupMetadata.provider b = "local" →
       BackupMetadata.encrypted_data b = Some payload → payload ≠ "" →
       base64.b64decode payload = Return token →
       fernet.decrypt fernet_key token = None →
       run.1 = Raise (HTTPException 500 "Decryption failed: ")).
Proof.
  intros run. unfold run, download_backup, bind, db_backups_find_one.
  split_and!.
  - destruct (find_one _ (backups db)) as [b|]; [|done].
    destruct (_ || _); [done|]. unfold lift. by destruct (try_except _ _).
  - intros Hother. by rewrite owned_by_other.
  - intros b -> Hcase.
    assert (negb (String.eqb (BackupMetadata.provider b) "local")
            || negb (truthy (BackupMetadata.encrypted_data b)) = true) as ->;
      [|done].
    apply orb_true_iff. destruct Hcase as [Hne|[->| ->]]; [left|by right..].
    apply negb_true_iff. by apply String.eqb_neq.
  - intros b payload token -> Hlocal Hdata Hne Htoken Hreject.
    rewrite Hlocal, Hdata, truthy_Some by done.
    cbn [String.eqb Ascii.eqb Bool.eqb negb orb default lift]. unfold id.
    rewrite Htoken. cbn [outcome_bind]. unfold fernet_decrypt.
    by rewrite Hreject.
Qed.

(** X18. [upload_backup] either refuses and stores nothing, with 400
    "Encryption failed: ..." carrying the message of the base64 error (for
    any text that is not ASCII: "string argument should contain only ASCII
    characters"), or appends exactly one record, owned by the caller, with
    the file name and provider of the request, behind the backups already
    stored.  It never touches the users. *)
Theorem X18_upload_outcomes (backup : BackupUpload.t) (current_user : User.t)
    (iv : bytes) (enc_time : Z) (id_random : N) (created_at : datetime)
    (db : Database) :
  let up := upload_backup backup current_user iv enc_time id_random
              created_at db in
  users up.2 = users db
  ∧ (∀ e, base64.b64decode (BackupUpload.data backup) = Raise e →
          up = (Raise (HTTPException 400
                         ("Encryption failed: " +:+ str_exn e)), db))
  ∧ (base64.is_ascii (BackupUpload.data backup) = false →
     up = (Raise (HTTPException 400
                    "Encryption failed: string argument should contain only ASCII characters"),
           db))
  ∧ (∀ payload, base64.b64decode (BackupUpload.data backup) = Return payload →
       ∃ m, up = (Return (JObj [ ("success", JBool true);
                                 ("backup_id", JStr (BackupMetadata.id m));
                                 ("message", JStr "Backup uploaded successfully") ]),
                  mkDB (users db) (backups db ++ [m]))
            ∧ BackupMetadata.id m = uuid.str (uuid.uuid4 id_random)
            ∧ BackupMetadata.user_id m = User.id current_user
            ∧ BackupMetadata.filename m = BackupUpload.filename backup
            ∧ BackupMetadata.provider m = BackupUpload.provider backup
            ∧ BackupMetadata.cloud_file_id m = None
            ∧ BackupMetadata.created_at m = isoformat created_at
            ∧ (BackupMetadata.encrypted_data m = None
               ↔ BackupUpload.provider backup ≠ "local")).
Proof.
  intros up. unfold up, upload_backup, bind, lift. split_and!.
  - by destruct (try_except _ _).
  - intros e ->. done.
  - intros Hascii. unfold base64.b64decode. by rewrite Hascii.
  - intros payload ->. cbn [outcome_bind try_except].
    eexists. split; [reflexivity|]. split_and!; [done..|].
    cbn. destruct (String.eqb_spec (BackupUpload.provider backup) "local");
      split; done.
Qed.

(** A request whose data decodes is stored as one new record. *)
Lemma upload_backup_stored (backup : BackupUpload.t) (payload : bytes)
    (current_user : User.t) (iv : bytes) (enc_time : Z) (id_random : N)
    (created_at : datetime) (db : Database) :
  base64.b64decode (BackupUpload.data backup) = Return payload →
  upload_backup backup current_user iv enc_time id_random created_at db
  = (Return (JObj [ ("success", JBool true);
                    ("backup_id", JStr (uuid.str (uuid.uuid4 id_random)));
                    ("message", JStr "Backup uploaded successfully") ]),
     mkDB (users db)
       (backups db ++
        [ BackupMetadata.mk (uuid.str (uuid.uuid4 id_random))
            (User.id current_user) (BackupUpload.filename backup)
            (BackupUpload.provider backup)
            (if String.eqb (BackupUpload.provider backup) "local"
             then Some (bytes_decode
                          (base64.b64encode
                             (fernet.encrypt fernet_key iv enc_time payload)))
             else None)
            None (isoformat created_at) ])).
Proof. intros Hdata. unfold upload_backup, bind, lift. by rewrite Hdata. Qed.

(** X19. An upload whose provider is not "local" is answered with success
    and stored without any payload: the record holds neither the data nor a
    cloud file id, and a later [download_backup] of the returned id is
    refused with 400. *)
Theorem X19_upload_cloud_keeps_no_payload (backup : BackupUpload.t)
    (payload : bytes) (current_user : User.t) (iv : bytes) (enc_time : Z)
    (id_random : N) (created_at : datetime) (db : Database) :
  let backup_id := uuid.str (uuid.uuid4 id_random) in
  let up := upload_backup backup current_user iv enc_time id_random
              created_at db in
  BackupUpload.provider backup ≠ "local" →
  base64.b64decode (BackupUpload.data backup) = Return payload →
  find_one (owned backup_id current_user) (backups db) = None →
  up.1 = Return (JObj [ ("success", JBool true);
                        ("backup_id", JStr backup_id);
                        ("message", JStr "Backup uploaded successfully") ])
  ∧ backups up.2
    = backups db ++
      [ BackupMetadata.mk backup_id (User.id current_user)
          (BackupUpload.filename backup) (BackupUpload.provider backup)
          None None (isoformat created_at) ]
  ∧ download_backup backup_id current_user up.2
    = (Raise (HTTPException 400 "Only local backups can be downloaded via API"),
       up.2).
Proof.
  intros backup_id up Hcloud Hdata Hfresh. unfold up.
  rewrite (upload_backup_stored _ _ _ _ _ _ _ _ Hdata).
  apply String.eqb_neq in Hcloud. rewrite Hcloud.
  split_and!; [done..|].
  unfold download_backup, bind, db_backups_find_one. cbn [backups snd].
  rewrite find_one_app_None by done.
  unfold owned at 1. cbn [BackupMetadata.id BackupMetadata.user_id].
  rewrite !String.eqb_refl. cbn [andb BackupMetadata.provider].
  by rewrite Hcloud.
Qed.

(** X20. A backup just uploaded shows in the caller's list, with its id,
    file name, provider and creation stamp and without its payload, as
    long as the caller had fewer than 100 backups before. *)
Theorem X20_upload_then_list (backup : BackupUpload.t) (payload : bytes)
    (current_user : User.t) (iv : bytes) (enc_time : Z) (id_random : N)
    (created_at : datetime) (db : Database) :
  base64.b64decode (BackupUpload.data backup) = Return payload →
  (length (backups_of current_user db) < 100)%nat →
  let up := upload_backup backup current_user iv enc_time id_random
              created_at db in
  ∃ items,
    list_backups current_user up.2 = (Return (JList items), up.2)
    ∧ JObj [ ("id", JStr (uuid.str (uuid.uuid4 id_random)));
             ("user_id", JStr (User.id current_user));
             ("filename", JStr (BackupUpload.filename backup));
             ("provider", JStr (BackupUpload.provider backup));
             ("cloud_file_id", JNull);
             ("created_at", JStr (isoformat created_at)) ] ∈ items
    ∧ length items = S (length (backups_of current_user db)).
Proof.
  intros Hdata Hlen up. unfold up.
  rewrite (upload_backup_stored _ _ _ _ _ _ _ _ Hdata). cbn [snd].
  set (m := BackupMetadata.mk _ _ _ _ _ _ _).
  eexists. split; [apply list_backups_result|].
  assert (Hmine : backups_of current_user (mkDB (users db) (backups db ++ [m]))
                  = backups_of current_user db ++ [m]).
  { unfold backups_of. cbn [backups]. rewrite filter_app. f_equal.
    rewrite (filter_cons_True _ m []); [done|]. apply String.eqb_refl. }
  rewrite Hmine, take_ge.
  2:{ rewrite sort_desc_perm, length_app. simpl. lia. }
  split.
  - apply list_elem_of_fmap. exists m. split; [reflexivity|].
    rewrite sort_desc_perm. apply elem_of_app. right. by left.
  - rewrite length_map, sort_desc_perm, length_app. simpl. lia.
Qed.

(** X21. Deleted is gone: once the caller has deleted a backup, and ids
    being unique per owner, a download or a second delete of that id is
    answered with 404 "Backup not found" and the caller's list holds no
    backup with that id. *)
Theorem X21_delete_then_gone (backup_id : string) (current_user : User.t)
    (db : Database) (b : BackupMetadata.t) :
  NoDup (map (λ b, (BackupMetadata.id b, BackupMetadata.user_id b))
             (backups db)) →
  find_one (owned backup_id current_user) (backups db) = Some b →
  let db' := (delete_backup backup_id current_user db).2 in
  download_backup backup_id current_user db'
  = (Raise (HTTPException 404 "Backup not found"), db')
  ∧ delete_backup backup_id current_user db'
    = (Raise (HTTPException 404 "Backup not found"), db')
  ∧ ∃ listed,
      list_backups current_user db' = (Return (JList (map listing listed)), db')
      ∧ Forall (λ a, BackupMetadata.id a ≠ backup_id) listed.
Proof.
  intros Hnodup Hb db'.
  destruct (delete_backup_found backup_id current_user db b Hb)
    as (before & after & Hsplit & Hbefore & Hrun).
  assert (Hgone : find_one (owned backup_id current_user) (backups db') = None).
  { unfold db'. rewrite Hrun. cbn [snd backups].
    apply (owned_gone _ _ _ _ b); [by rewrite <- Hsplit| |done].
    by apply find_one_elem in Hb as [_ ?]. }
  split_and!.
  - unfold download_backup, bind, db_backups_find_one. by rewrite Hgone.
  - by apply delete_backup_missing.
  - eexists. split; [apply list_backups_result|].
    apply Forall_forall. intros a Ha Hid.
    assert (Hmine : a ∈ backups_of current_user db').
    { rewrite <- (sort_desc_perm BackupMetadata.created_at),
        <- (take_drop 100 (sort_desc _ _)).
      apply elem_of_app. by left. }
    apply list_elem_of_filter in Hmine as [Hown Hstored].
    rewrite find_one_None, Forall_forall in Hgone.
    specialize (Hgone a Hstored). unfold owned in Hgone.
    rewrite Hown, Hid, String.eqb_refl in Hgone. done.
Qed.
End VaultFlows.

(** X22. [delete_backup] takes at most one record out of the backups and
    touches nothing else: the users stay, the remaining backups keep their
    order, every record the request does not name stays, and so does every
    backup of every other user. *)
Theorem X22_delete_frame (backup_id : string) (current_user : User.t)
    (db : Database) :
  let db' := (delete_backup backup_id current_user db).2 in
  users db' = users db
  ∧ backups db' `sublist_of` backups db
  ∧ (length (backups db) ≤ S (length (backups db')))%nat
  ∧ (∀ b, b ∈ backups db → owned backup_id current_user b = false →
          b ∈ backups db')
  ∧ (∀ other, User.id other ≠ User.id current_user →
              backups_of other db' = backups_of other db).
Proof.
  intros db'. unfold db'.
  destruct (find_one (owned backup_id current_user) (backups db)) as [b|] eqn:Hb.
  - destruct (delete_backup_found backup_id current_user db b Hb)
      as (before & after & Hsplit & Hbefore & ->).
    cbn [snd users backups]. rewrite Hsplit. split_and!.
    + done.
    + apply sublist_app; [done|]. by apply sublist_cons.
    + rewrite !length_app. simpl. lia.
    + intros y Hy Hown. apply elem_of_app.
      apply elem_of_app in Hy as [?|Hy]; [by left|].
      apply elem_of_cons in Hy as [->|?]; [|by right].
      apply find_one_elem in Hb as [_ ?]. congruence.
    + intros other Hother. unfold backups_of. cbn [backups].
      rewrite Hsplit, !filter_app, filter_cons_False; [done|].
      apply find_one_elem in Hb as [_ Hown]. unfold owned in Hown.
      apply andb_true_iff in Hown as [_ Hown%String.eqb_eq].
      rewrite Hown. intros Heq%String.eqb_eq. done.
  - rewrite delete_backup_missing by done. cbn [snd].
    split_and!; [done|done|lia|done|done].
Qed.

Lemma StronglySorted_mono {A : Type} (R1 R2 : A → A → Prop) (l : list A) :
  (∀ x y, R1 x y → R2 x y) → StronglySorted R1 l → StronglySorted R2 l.
Proof.
  intros Himpl. induction 1 as [|x l _ IH Hx]; constructor; [done|].
  eapply Forall_impl; [exact Hx|]. intros y. apply Himpl.
Qed.

(** X23. The list is newest first by the instants themselves, not only by
    the stored strings: of two listed backups whose stamps are the ISO
    strings of valid UTC instants, as [upload_backup] writes them, the one
    listed later is not the more recent. *)
Theorem X23_list_newest_first_by_instant (current_user : User.t)
    (db : Database) :
  ∃ listed,
    list_backups current_user db = (Return (JList (map listing listed)), db)
    ∧ StronglySorted
        (λ x y, ∀ a b, valid_datetime a → valid_datetime b →
                  BackupMetadata.created_at x = isoformat a →
                  BackupMetadata.created_at y = isoformat b →
                  datetime_compare b a ≠ Gt)
        listed.
Proof.
  eexists. split; [apply list_backups_result|].
  apply (StronglySorted_mono newer_or_same).
  - intros x y Hxy a b Ha Hb Hx Hy.
    by apply (newer_or_same_chronological x y a b).
  - apply (StronglySorted_app_1_l _ _ (drop 100
             (sort_desc BackupMetadata.created_at
                (backups_of current_user db)))).
    rewrite take_drop. apply (sort_desc_sorted BackupMetadata.created_at).
Qed.

(** X19 on the sample data: [alice] uploads "aGVsbG8=" for the provider
    "google_drive". *)
Lemma X19_upload_cloud_keeps_no_payload_witness :
  let up := upload_backup (BackupUpload.mk "notes.txt" "aGVsbG8=" "google_drive")
              alice [] 1714723200 0x0123456789abcdef0123456789abcdef
              (mkDatetime 2024 5 3 8 0 0 0) sample_db in
  backups up.2
  = backups sample_db ++
    [ BackupMetadata.mk (uuid.str (uuid.uuid4 0x0123456789abcdef0123456789abcdef))
        "u-1" "notes.txt" "google_drive" None None
        (isoformat (mkDatetime 2024 5 3 8 0 0 0)) ]
  ∧ download_backup (uuid.str (uuid.uuid4 0x0123456789abcdef0123456789abcdef))
      alice up.2
    = (Raise (HTTPException 400 "Only local backups can be downloaded via API"),
       up.2).
Proof.
  refine (proj2 (X19_upload_cloud_keeps_no_payload
                   (BackupUpload.mk "notes.txt" "aGVsbG8=" "google_drive")
                   (str_encode "hello") alice [] 1714723200
                   0x0123456789abcdef0123456789abcdef
                   (mkDatetime 2024 5 3 8 0 0 0) sample_db _ _ _)).
  - discriminate.
  - vm_compute. reflexivity.
  - vm_compute. reflexivity.
Defined.

(** X20 on the sample data: [alice] has one backup, uploads a second, and
    her list then has two entries, the new one among them. *)
Lemma X20_upload_then_list_witness :
  let up := upload_backup (BackupUpload.mk "todo.txt" "aGVsbG8=" "local")
              alice [] 1714723200 0x0123456789abcdef0123456789abcdef
              (mkDatetime 2024 5 3 8 0 0 0) sample_db in
  ∃ items,
    list_backups alice up.2 = (Return (JList items), up.2)
    ∧ JObj [ ("id", JStr (uuid.str (uuid.uuid4 0x0123456789abcdef0123456789abcdef)));
             ("user_id", JStr "u-1");
             ("filename", JStr "todo.txt");
             ("provider", JStr "local");
             ("cloud_file_id", JNull);
             ("created_at", JStr (isoformat (mkDatetime 2024 5 3 8 0 0 0))) ]
      ∈ items
    ∧ length items = 2%nat.
Proof.
  refine (X20_upload_then_list (BackupUpload.mk "todo.txt" "aGVsbG8=" "local")
            (str_encode "hello") alice [] 1714723200
            0x0123456789abcdef0123456789abcdef
            (mkDatetime 2024 5 3 8 0 0 0) sample_db _ _).
  - vm_compute. reflexivity.
  - vm_compute. lia.
Defined.

(** X21 on the sample data: [alice] deletes "b-1". *)
Lemma X21_delete_then_gone_witness :
  let db' := (delete_backup "b-1" alice sample_db).2 in
  download_backup "b-1" alice db'
  = (Raise (HTTPException 404 "Backup not found"), db')
  ∧ delete_backup "b-1" alice db'
    = (Raise (HTTPException 404 "Backup not found"), db')
  ∧ ∃ listed,
      list_backups alice db' = (Return (JList (map listing listed)), db')
      ∧ Forall (λ a, BackupMetadata.id a ≠ "b-1") listed.
Proof.
  refine (X21_delete_then_gone "b-1" alice sample_db notes_backup _ eq_refl).
  apply (bool_decide_unpack _). vm_compute. reflexivity.
Defined.

(* ================================================================== *)
(** ** The routes: what every request preserves                         *)
(* ================================================================== *)

Section RouteFacts.
Context {cfg : Config} {Bcrypt : bcrypt.Lib} {Jwt : jwt.Lib}
        {Fernet : fernet.Lib} {Qr : qrcode.Lib}.

Lemma get_current_user_store (token : string) (now : Z) (db : Database) :
  (get_current_user token now db).2 = db.
Proof.
  unfold get_current_user, bind, lift, db_users_find_one.
  destruct (decode_token token now); [|done]. by destruct (find_one _ _).
Qed.

Lemma download_backup_store (backup_id : string) (current_user : User.t)
    (db : Database) :
  (download_backup backup_id current_user db).2 = db.
Proof.
  unfold download_backup, bind, db_backups_find_one.
  destruct (find_one _ (backups db)) as [b|]; [|done].
  destruct (_ || _); [done|]. unfold lift. by destruct (try_except _ _).
Qed.

(** A route behind the bearer scheme either is refused before its handler
    runs, the store untouched, or runs its handler on a stored record. *)
Lemma with_current_user_cases {A : Type} (token : string) (now : Z)
    (handler : User.t → Handler A) (db : Database) :
  (∃ e, with_current_user token now handler db = (Raise e, db))
  ∨ (∃ current_user,
       find_one (by_id (User.id current_user)) (users db) = Some current_user
       ∧ with_current_user token now handler db = handler current_user db).
Proof.
  unfold with_current_user, bind.
  pose proof (get_current_user_store token now db) as Hstore.
  destruct (get_current_user token now db) as [[current_user|e] db0] eqn:Hrun.
  - apply get_current_user_resolves in Hrun as [-> Hfind]. right.
    by exists current_user.
  - left. exists e. simpl in Hstore. by subst.
Qed.

Lemma update_found (current_user : User.t) (set : User.t → User.t)
    (db : Database) :
  find_one (by_id (User.id current_user)) (users db) = Some current_user →
  ∃ before after,
    users db = before ++ current_user :: after
    ∧ update_one (by_id (User.id current_user)) set (users db)
      = before ++ set current_user :: after.
Proof.
  intros (before & after & Hsplit & Hp & Hb)%find_one_Some.
  exists before, after. split; [done|]. rewrite Hsplit.
  by apply update_one_split.
Qed.

(** The five things a request can do to the store. *)
Lemma serve_effect (r : request) (db : Database) :
  let db' := (serve r db).2 in
  db' = db
  ∨ (∃ u, db' = mkDB (users db ++ [u]) (backups db)
          ∧ Forall (λ v, User.email v ≠ User.email u
                         ∧ User.username v ≠ User.username u) (users db)
          ∧ twofa_fields u = (None, false, []))
  ∨ (∃ before u u' after,
       users db = before ++ u :: after
       ∧ db' = mkDB (before ++ u' :: after) (backups db)
       ∧ account_identity u' = account_identity u
       ∧ (twofa_consistent u → twofa_consistent u'))
  ∨ (∃ m, db' = mkDB (users db) (backups db ++ [m]))
  ∨ (∃ before b after,
       backups db = before ++ b :: after
       ∧ db' = mkDB (users db) (before ++ after)).
Proof.
  intros db'. unfold db'.
  assert (Hrewrite : ∀ current_user (set : User.t → User.t) (response : json),
    find_one (by_id (User.id current_user)) (users db) = Some current_user →
    account_identity (set current_user) = account_identity current_user →
    (twofa_consistent current_user → twofa_consistent (set current_user)) →
    ∃ before u u' after,
      users db = before ++ u :: after
      ∧ (Return response,
         mkDB (update_one (by_id (User.id current_user)) set (users db))
              (backups db)).2
        = mkDB (before ++ u' :: after) (backups db)
      ∧ account_identity u' = account_identity u
      ∧ (twofa_consistent u → twofa_consistent u')).
  { intros current_user set response Hfound Hid Htwofa.
    destruct (update_found current_user set db Hfound)
      as (before & after & Hsplit & Hupdate).
    exists before, current_user, (set current_user), after.
    cbn [snd]. by rewrite Hupdate. }
  destruct r as [user_data id_random created_at salt utcnow
                |credentials utcnow|token now|token now choice urandom
                |token now code totp_now|token now|username
                |token now peer_id|token now|token now
                |token now backup iv enc_time id_random created_at
                |token now|token now backup_id|token now backup_id];
    cbn [serve].
  - unfold register, bind, db_users_find_one.
    destruct (find_one _ (users db)) as [u|] eqn:Hfind; [by left|].
    right; left. eexists. split; [reflexivity|]. split; [|done].
    rewrite find_one_None in Hfind. eapply Forall_impl; [exact Hfind|].
    intros v Hv. cbn in Hv.
    by apply orb_false_iff in Hv as [?%String.eqb_neq ?%String.eqb_neq].
  - left. unfold login, bind, db_users_find_one.
    destruct (find_one _ (users db)) as [u|]; [|done]. by destruct (negb _).
  - destruct (with_current_user_cases token now get_me db)
      as [[e ->]|(current_user & Hfound & ->)]; by left.
  - destruct (with_current_user_cases token now
                (λ current_user, setup_2fa current_user choice urandom) db)
      as [[e ->]|(current_user & Hfound & ->)]; [by left|].
    right; right; left. apply Hrewrite; [done..|].
    intros _ _. apply truthy_Some, random_base32_nonempty.
  - destruct (with_current_user_cases token now
                (λ current_user, verify_2fa code current_user totp_now) db)
      as [[e ->]|(current_user & Hfound & ->)]; [by left|].
    rewrite (verify_2fa_cases _ _ current_user) by done.
    destruct (truthy (User.totp_secret current_user)) eqn:Hsecret;
      cbn [negb]; [|by left].
    destruct (pyotp.verify _ _ _ _) as [[|]|e]; [|
      destruct (bool_decide _)|]; try (by left).
    + right; right; left. apply Hrewrite; [done..|]. by intros _ _.
    + right; right; left. apply Hrewrite; [done..|]. by intros _ _.
  - destruct (with_current_user_cases token now disable_2fa db)
      as [[e ->]|(current_user & Hfound & ->)]; [by left|].
    right; right; left. apply Hrewrite; [done..|].
    intros _ [[=]|Hcodes]. by destruct Hcodes.
  - left. unfold lookup_username, bind, db_users_find_one.
    by destruct (find_one _ (users db)).
  - destruct (with_current_user_cases token now (update_peer_id peer_id) db)
      as [[e ->]|(current_user & Hfound & ->)]; [by left|].
    right; right; left. by apply Hrewrite.
  - destruct (with_current_user_cases token now set_offline db)
      as [[e ->]|(current_user & Hfound & ->)]; [by left|].
    right; right; left. by apply Hrewrite.
  - destruct (with_current_user_cases token now get_online_users db)
      as [[e ->]|(current_user & Hfound & ->)]; by left.
  - destruct (with_current_user_cases token now
                (λ current_user, upload_backup backup current_user iv enc_time
                                   id_random created_at) db)
      as [[e ->]|(current_user & Hfound & ->)]; [by left|].
    unfold upload_backup, bind, lift.
    destruct (try_except _ _) as [encrypted_data|e]; [|by left].
    do 3 right. left. by eexists.
  - destruct (with_current_user_cases token now list_backups db)
      as [[e ->]|(current_user & Hfound & ->)]; by left.
  - destruct (with_current_user_cases token now (download_backup backup_id) db)
      as [[e ->]|(current_user & Hfound & ->)]; [by left|].
    left. apply download_backup_store.
  - destruct (with_current_user_cases token now (delete_backup backup_id) db)
      as [[e ->]|(current_user & Hfound & ->)]; [by left|].
    destruct (find_one (owned backup_id current_user) (backups db))
      as [b|] eqn:Hb.
    + destruct (delete_backup_found backup_id current_user db b Hb)
        as (before & after & Hsplit & _ & ->).
      do 4 right. by exists before, b, after.
    + left. by rewrite delete_backup_missing.
Qed.

Lemma replay_cons (r : request) (requests : list request) (db : Database) :
  replay (r :: requests) db = replay requests (serve r db).2.
Proof. reflexivity. Qed.

(** X24. No request deletes an account or changes the id, the e-mail
    address, the user name, the password hash, the passkey credentials or
    the creation stamp of one: after any sequence of requests the accounts
    that were stored are still there, in their order, with these fields as
    they were, followed by those registered since. *)
Theorem X24_accounts_only_grow (requests : list request) (db : Database) :
  map account_identity (users db)
  `prefix_of` map account_identity (users (replay requests db)).
Proof.
  revert db. induction requests as [|r requests IH]; intros db; [done|].
  rewrite replay_cons. etrans; [|apply IH].
  destruct (serve_effect r db)
    as [->|[(u & -> & _)|[(before & u & u' & after & Hsplit & -> & Hid & _)
       |[(m & ->)|(before & b & after & _ & ->)]]]]; cbn [users]; try done.
  - rewrite map_app. by apply prefix_app_r.
  - by rewrite Hsplit, !map_app, !map_cons, Hid.
Qed.



(** X27. A stored backup is never modified: a request leaves the backups
    as they were, or appends one record to them, or takes one record out of
    them. *)
Theorem X27_backups_append_or_remove (r : request) (db : Database) :
  let db' := (serve r db).2 in
  backups db' = backups db
  ∨ (∃ m, backups db' = backups db ++ [m])
  ∨ (∃ before b after, backups db = before ++ b :: after
                       ∧ backups db' = before ++ after).
Proof.
  intros db'. unfold db'.
  destruct (serve_effect r db)
    as [->|[(u & -> & _)|[(before & u & u' & after & _ & -> & _)
       |[(m & ->)|(before & b & after & Hsplit & ->)]]]]; cbn [backups].
  - by left.
  - by left.
  - by left.
  - right; left. by exists m.
  - right; right. by exists before, b, after.
Qed.
End RouteFacts.



(* ================================================================== *)
(** ** Over time: sessions and time-based codes                         *)
(* ================================================================== *)

(** X28. A time-based code is not used up: a code that [verify_2fa]
    accepted is accepted again, with the same answer and no further change
    to the store, at any time within the same 30-second step. *)
Theorem X28_totp_code_reusable (code : string) (current_user u : User.t)
    (secret : string) (now now' : Z) (db : Database) :
  find_one (by_id (User.id current_user)) (users db) = Some u →
  User.totp_secret u = Some secret → secret ≠ "" →
  pyotp.at_ secret now 0 = Return code →
  pyotp.timecode now' = pyotp.timecode now →
  let s1 := verify_2fa code current_user now db in
  let s2 := verify_2fa code current_user now' s1.2 in
  s1.1 = Return (ok_message "2FA enabled successfully")
  ∧ s2.1 = Return (ok_message "2FA enabled successfully")
  ∧ s2.2 = s1.2.
Proof.
  intros Hu Hsecret Hne Hcode Hstep s1 s2.
  assert (Hcode' : pyotp.at_ secret now' 0 = Return code).
  { unfold pyotp.at_ in *. by rewrite Hstep. }
  assert (Hs1 : s1 = (Return (ok_message "2FA enabled successfully"),
                      mkDB (update_one (by_id (User.id current_user))
                              (User.set_totp_enabled true) (users db))
                           (backups db))).
  { unfold s1. rewrite (verify_2fa_cases _ _ u) by done.
    rewrite Hsecret, truthy_Some by done. cbn [negb default]. unfold id.
    by rewrite pyotp_verify_window0, Hcode; cbn; rewrite String.eqb_refl. }
  assert (Hs2 : s2 = (Return (ok_message "2FA enabled successfully"),
                      mkDB (update_one (by_id (User.id current_user))
                              (User.set_totp_enabled true) (users s1.2))
                           (backups s1.2))).
  { unfold s2.
    rewrite (verify_2fa_cases _ _ (User.set_totp_enabled true u)).
    2:{ rewrite Hs1. cbn [snd users]. by erewrite find_one_update_one. }
    cbn [User.totp_secret User.set_totp_enabled].
    rewrite Hsecret, truthy_Some by done. cbn [negb default]. unfold id.
    by rewrite pyotp_verify_window0, Hcode'; cbn; rewrite String.eqb_refl. }
  split_and!; [by rewrite Hs1|by rewrite Hs2|].
  rewrite Hs2, Hs1. cbn [snd users backups]. f_equal.
  by rewrite update_one_twice.
Qed.

(** X28 on the sample data: [alice] sends 287082, the code of the step
    from second 30 to second 59, at second 31 and again at second 59. *)
Lemma X28_totp_code_reusable_witness :
  let s1 := verify_2fa "287082" alice 31 sample_db in
  let s2 := verify_2fa "287082" alice 59 s1.2 in
  s1.1 = Return (ok_message "2FA enabled successfully")
  ∧ s2.1 = Return (ok_message "2FA enabled successfully")
  ∧ s2.2 = s1.2.
Proof.
  refine (X28_totp_code_reusable "287082" alice alice rfc_secret 31 59
            sample_db eq_refl eq_refl _ _ eq_refl).
  - discriminate.
  - vm_compute. reflexivity.
Defined.

Lemma find_one_by_id_identity (id : string) (coll coll' : list User.t)
    (u : User.t) :
  Forall2 (λ a b, account_identity b = account_identity a) coll coll' →
  find_one (by_id id) coll = Some u →
  ∃ u', find_one (by_id id) coll' = Some u'
        ∧ account_identity u' = account_identity u.
Proof.
  induction 1 as [|a b coll coll' Hab _ IH]; simpl; [done|].
  assert (by_id id b = by_id id a) as ->.
  { unfold by_id. by injection Hab as ->. }
  destruct (by_id id a); [|done]. intros [= <-]. by exists b.
Qed.

Section SessionFacts.
Context {cfg : Config} {Bcrypt : bcrypt.Lib} {Jwt : jwt.Lib}
        {Fernet : fernet.Lib} {Qr : qrcode.Lib}.

(** The record an id resolves to keeps its identity through a request. *)
Lemma find_one_by_id_serve (id : string) (r : request) (db : Database)
    (u : User.t) :
  find_one (by_id id) (users db) = Some u →
  ∃ u', find_one (by_id id) (users (serve r db).2) = Some u'
        ∧ account_identity u' = account_identity u.
Proof.
  intros Hu.
  assert (Hsame : ∀ l : list User.t,
    Forall2 (λ a b, account_identity b = account_identity a) l l).
  { intros l. by apply Forall_Forall2_diag, Forall_forall. }
  destruct (serve_effect r db)
    as [->|[(new & -> & _)|[(before & x & x' & after & Hsplit & -> & Hid & _)
       |[(m & ->)|(before & b & after & _ & ->)]]]]; cbn [users];
    try (by exists u).
  - exists u. split; [|done].
    apply find_one_Some in Hu as (before & after & -> & Hp & Hbefore).
    apply find_one_Some. exists before, (after ++ [new]).
    by rewrite <- app_assoc.
  - apply (find_one_by_id_identity id (users db)); [|done].
    rewrite Hsplit. apply Forall2_app; [apply Hsame|].
    constructor; [done|apply Hsame].
Qed.

(** X29. No request ends a session: a token that resolves to an account
    resolves, at the same clock time, to the same account (same id, e-mail
    address, user name and password hash) after any sequence of requests,
    [disable_2fa] and [set_offline] of that account included. *)
Theorem X29_session_survives (requests : list request) (token : string)
    (now : Z) (db : Database) (u : User.t) :
  get_current_user token now db = (Return u, db) →
  ∃ u', get_current_user token now (replay requests db)
        = (Return u', replay requests db)
        ∧ account_identity u' = account_identity u.
Proof.
  intros Hrun.
  assert (∃ payload, decode_token token now = Return payload
                     ∧ find_one (by_id (jwt.user_id payload)) (users db)
                       = Some u) as (payload & Hdecode & Hfound).
  { revert Hrun. unfold get_current_user, bind, lift, db_users_find_one.
    destruct (decode_token token now) as [payload|e]; [|done].
    destruct (find_one _ (users db)) as [found|] eqn:Hfound; [|done].
    intros [= ->]. by exists payload. }
  assert (Hresolve : ∀ db' u',
    find_one (by_id (jwt.user_id payload)) (users db') = Some u' →
    get_current_user token now db' = (Return u', db')).
  { intros db' u' Hu'. unfold get_current_user, bind, lift, db_users_find_one.
    by rewrite Hdecode, Hu'. }
  clear Hrun. revert db u Hfound.
  induction requests as [|r requests IH]; intros db u Hfound.
  - exists u. split; [by apply Hresolve|done].
  - rewrite replay_cons.
    destruct (find_one_by_id_serve _ r db u Hfound) as (u1 & Hu1 & Hid1).
    destruct (IH _ u1 Hu1) as (u' & Hrun & Hid). exists u'.
    split; [done|congruence].
Qed.
End SessionFacts.

(** X29 on the sample data: [alice]'s token of second 1000 still resolves
    to her account at second 2000 after she has disabled 2FA and gone
    offline. *)
Lemma X29_session_survives_witness :
  let token := create_access_token "u-1" "alice@example.org" 1000 in
  let db := replay [ POST_auth_2fa_disable token 1500;
                     POST_users_set_offline token 1600 ] sample_db in
  ∃ u', get_current_user token 2000 db = (Return u', db)
        ∧ account_identity u' = account_identity alice.
Proof.
  intros token db.
  apply (X29_session_survives _ token 2000 sample_db alice).
  vm_compute. reflexivity.
Defined.
